(** * RimWorld Mod Builder: the XML validators

    A shallow embedding of [src/utils/xml_validator_simple.py]
    ([SimpleXMLValidator]) and of the validation path of
    [src/utils/enhanced_xml_validator.py] ([EnhancedXMLValidator]:
    [validate_xml_syntax] and [validate_rimworld_structure] with the
    helpers they call), followed by the properties of the validators.

    Conventions.
    - A Python [str] is a [string]; text outside ASCII is carried as its
      UTF-8 bytes.  The operations the validators apply to tags and
      text (equality, membership, [startswith], [endswith], [in],
      concatenation, truthiness, regular expressions whose literals are
      ASCII) give the same answer on the UTF-8 bytes as on the code
      points; the operations that look at characters ([strip],
      [split], slicing, [lower]) are written out on the characters'
      byte sequences.
    - [xml.etree.ElementTree.fromstring] belongs to the host library.  It
      is a deterministic function of the text; the validators receive it
      as a parameter [fromstring], returning either the parsed tree or
      the message of [ET.ParseError].
    - [self.errors] and [self.warnings] of [SimpleXMLValidator] are
      threaded through a small state monad; the [result] dictionary of
      [EnhancedXMLValidator] is a record passed from step to step, and
      the one helper of it that can raise returns an [outcome]. *)

From Stdlib Require Import String Ascii List Bool Arith Lia DecimalString.
From stdpp Require Import gmap strings.
Import ListNotations.

Local Open Scope list_scope.
Local Open Scope string_scope.

(* ================================================================== *)
(** ** Python strings *)
(* ================================================================== *)

Module Py.

(** Truthiness of a [str]: the empty string is falsy. *)
Definition truthy (s : string) : bool :=
  match s with
  | EmptyString => false
  | String _ _ => true
  end.

(** Truthiness of an [Optional[str]]: [None] and [''] are falsy. *)
Definition truthy_opt (o : option string) : bool :=
  match o with
  | None => false
  | Some s => truthy s
  end.

(** [x is None] *)
Definition is_none {A} (o : option A) : bool :=
  match o with
  | None => true
  | Some _ => false
  end.

(** [str(x)] inside an f-string, for an [Optional[str]]. *)
Definition format_opt (o : option string) : string :=
  match o with
  | None => "None"
  | Some s => s
  end.

(** [s.endswith(suffix)]. *)
Definition endswith (s suffix : string) : bool :=
  let n := String.length s in
  let m := String.length suffix in
  if (m <=? n)%nat then String.eqb (substring (n - m) m s) suffix else false.

(** [x in [a, b, ...]] for a list of strings. *)
Definition in_list (x : string) (l : list string) : bool :=
  existsb (String.eqb x) l.

(** [x in tags] for a set of strings. *)
Definition in_set (x : string) (tags : gset string) : bool :=
  bool_decide (x ∈ tags).

(** The line feed, U+000A. *)
Definition LF : ascii := "010"%char.

(** A string from its byte values. *)
Definition bytes (l : list nat) : string :=
  string_of_list_ascii (List.map ascii_of_nat l).

(** A UTF-8 continuation byte, [10xxxxxx]. *)
Definition is_continuation (b : ascii) : bool :=
  (128 <=? nat_of_ascii b)%nat && (nat_of_ascii b <? 192)%nat.

(** Does the string go on with a continuation byte? *)
Definition continues (s : string) : bool :=
  match s with
  | EmptyString => false
  | String c _ => is_continuation c
  end.

(** The characters of a string: each lead byte with the continuation
    bytes that follow it. *)
Fixpoint chars (s : string) : list string :=
  match s with
  | EmptyString => []
  | String b s' =>
      match chars s' with
      | ch :: rest =>
          if continues s' then String b ch :: rest
          else String b EmptyString :: ch :: rest
      | [] => [String b EmptyString]
      end
  end.

(** The characters for which [str.isspace] holds: U+0009..U+000D,
    U+001C..U+001F, U+0020, U+0085, U+00A0, U+1680, U+2000..U+200A,
    U+2028, U+2029, U+202F, U+205F and U+3000. *)
Definition whitespace : list string :=
  List.map bytes
    ([[9]; [10]; [11]; [12]; [13]; [28]; [29]; [30]; [31]; [32];
      [194; 133]; [194; 160]; [225; 154; 128]]
     ++ List.map (fun k => [226; 128; 128 + k]) (seq 0 11)
     ++ [[226; 128; 168]; [226; 128; 169]; [226; 128; 175];
         [226; 129; 159]; [227; 128; 128]])%list.

Definition isspace (ch : string) : bool := in_list ch whitespace.

Fixpoint dropwhile {A} (f : A -> bool) (l : list A) : list A :=
  match l with
  | [] => []
  | x :: l' => if f x then dropwhile f l' else l
  end.

(** [s.strip()] *)
Definition strip (s : string) : string :=
  String.concat EmptyString
    (rev (dropwhile isspace (rev (dropwhile isspace (chars s))))).

(** [s.lower()] on the letters A..Z.  The validator only asks whether
    the lowered text contains [utf-8] or is one of seven ASCII words
    without [k]; the two characters outside ASCII whose lowercase
    contains an ASCII letter (U+212A gives [k], U+0130 gives [i] and
    U+0307) cannot produce a letter of these words in place, so
    lowering A..Z decides both tests. *)
Definition lower_ascii (c : ascii) : ascii :=
  let n := nat_of_ascii c in
  if (65 <=? n)%nat && (n <=? 90)%nat then ascii_of_nat (n + 32) else c.

Fixpoint lower (s : string) : string :=
  match s with
  | EmptyString => EmptyString
  | String c s' => String (lower_ascii c) (lower s')
  end.

(** [str(n)] for a natural number. *)
Definition str_nat (n : nat) : string :=
  DecimalString.NilZero.string_of_uint (Nat.to_uint n).

(** [s.startswith(prefix)] *)
Definition startswith (s prefix : string) : bool := String.prefix prefix s.

(** [sub in s] *)
Fixpoint contains (sub s : string) : bool :=
  String.prefix sub s
  || match s with
     | EmptyString => false
     | String _ s' => contains sub s'
     end.

(** [s[:n]] *)
Definition take (n : nat) (s : string) : string :=
  String.concat EmptyString (firstn n (chars s)).

(** [s.split('\n')] *)
Fixpoint split_lines (s : string) : list string :=
  match s with
  | EmptyString => [EmptyString]
  | String c s' =>
      if Ascii.eqb c LF then EmptyString :: split_lines s'
      else
        match split_lines s' with
        | line :: rest => String c line :: rest
        | [] => [String c EmptyString]
        end
  end.

Fixpoint takewhile {A} (f : A -> bool) (l : list A) : list A :=
  match l with
  | [] => []
  | x :: l' => if f x then x :: takewhile f l' else []
  end.

(** [s.split()[0]]: the first run of characters that are not
    whitespace; [None] where [s.split()] is empty and the index raises
    [IndexError]. *)
Definition first_word (s : string) : option string :=
  match dropwhile isspace (chars s) with
  | [] => None
  | ch :: rest =>
      Some (String.concat EmptyString (takewhile (fun c => negb (isspace c)) (ch :: rest)))
  end.

(** [int(s)] for a run of the digits 0..9. *)
Definition int_ (s : string) : nat :=
  fold_left (fun n c => 10 * n + (nat_of_ascii c - 48)) (list_ascii_of_string s) 0.

(** [l[n - 1]] for [0 <= n <= len(l)]: index [-1] is the last element. *)
Definition item_before (l : list string) (n : nat) : string :=
  match n with
  | O => List.last l EmptyString
  | S k => nth k l EmptyString
  end.

(** What a call does: it returns a value or raises an exception, of
    which the message is kept. *)
Inductive outcome (A : Type) : Type :=
| Returns (a : A)
| Raises (message : string).

Arguments Returns {A} a.
Arguments Raises {A} message.

(** [str(e)] of the [IndexError] of a list index. *)
Definition index_error : string := "list index out of range".

(** The line feed as a string. *)
Definition nl : string := String LF EmptyString.

(** [n * s], the string repeated. *)
Fixpoint repeat_str (s : string) (n : nat) : string :=
  match n with
  | O => EmptyString
  | S k => s ++ repeat_str s k
  end.

(** [sep.join(l)] *)
Definition join (sep : string) (l : list string) : string := String.concat sep l.

(** Truthiness of a list: the empty list is falsy. *)
Definition truthy_list {A} (l : list A) : bool :=
  match l with
  | [] => false
  | _ :: _ => true
  end.

End Py.

(* ================================================================== *)
(** ** The fragment of [re] the validators use *)
(* ================================================================== *)

(** Patterns work on the bytes of the text.  Every literal and every
    listed character of the validators' patterns is ASCII, and each
    negated class is repeated or followed by a repeated [[^>]]; a
    character outside ASCII is therefore matched by the same items
    whether it counts as one code point or as its UTF-8 bytes, and
    matches start and end at the same places. *)

Module Re.

(** One-character matchers: a literal, a bracket class given by its
    ranges, and a negated bracket class given by the characters it
    excludes. *)
Inductive atom : Type :=
| Chr (c : ascii)
| Set_ (ranges : list (ascii * ascii))
| NotSet (excluded : list ascii).

(** Pattern items: the anchors [^] and [$], an atom, a greedy [atom+]
    and [atom*], and the parentheses of group 1. *)
Inductive item : Type :=
| Bol
| Eol
| One (a : atom)
| Plus (a : atom)
| Star (a : atom)
| Open
| Close.

Definition pattern := list item.

Definition in_range (c : ascii) (r : ascii * ascii) : bool :=
  (nat_of_ascii (fst r) <=? nat_of_ascii c)%nat
  && (nat_of_ascii c <=? nat_of_ascii (snd r))%nat.

Definition atom_matches (a : atom) (c : ascii) : bool :=
  match a with
  | Chr c' => Ascii.eqb c c'
  | Set_ ranges => existsb (in_range c) ranges
  | NotSet excluded => negb (existsb (Ascii.eqb c) excluded)
  end.

(** [$] without [re.MULTILINE]: at the end of the string, or just
    before a line feed that is the last character. *)
Definition at_eol (s : list ascii) : bool :=
  match s with
  | [] => true
  | [c] => Ascii.eqb c Py.LF
  | _ => false
  end.

(** Where group 1 opened and closed: the input that was left at each
    parenthesis. *)
Record capture : Type := mkCapture {
  opened : list ascii;
  closed : list ascii
}.

Definition no_capture : capture := {| opened := []; closed := [] |}.

(** A match: the input left after it, and the group. *)
Definition Match : Type := (list ascii * capture)%type.

(** The text of group 1. *)
Definition group (m : Match) : string :=
  let cap := snd m in
  string_of_list_ascii
    (firstn (List.length (opened cap) - List.length (closed cap)) (opened cap)).

(** A greedy run of further characters matched by [a], followed by
    the rest of the pattern [k]: the longest run is tried first and
    characters are given back one at a time. *)
Fixpoint greedy (a : atom) (k : list ascii -> option Match) (t : list ascii)
    : option Match :=
  match t with
  | d :: t' =>
      if atom_matches a d then
        match greedy a k t' with
        | Some m => Some m
        | None => k t
        end
      else k t
  | [] => k t
  end.

(** The first match of the pattern at the head of [s], in the order
    in which a backtracking matcher finds it.  [bos] tells whether [s]
    starts at the beginning of the subject. *)
Fixpoint exec (p : pattern) (bos : bool) (cap : capture) (s : list ascii) {struct p}
    : option Match :=
  match p with
  | [] => Some (s, cap)
  | Bol :: p' => if bos then exec p' bos cap s else None
  | Eol :: p' => if at_eol s then exec p' bos cap s else None
  | Open :: p' => exec p' bos {| opened := s; closed := closed cap |} s
  | Close :: p' => exec p' bos {| opened := opened cap; closed := s |} s
  | One a :: p' =>
      match s with
      | c :: s' => if atom_matches a c then exec p' false cap s' else None
      | [] => None
      end
  | Plus a :: p' =>
      match s with
      | c :: s' => if atom_matches a c then greedy a (exec p' false cap) s' else None
      | [] => None
      end
  | Star a :: p' =>
      match s with
      | c :: s' =>
          if atom_matches a c then
            match greedy a (exec p' false cap) s' with
            | Some m => Some m
            | None => exec p' bos cap s
            end
          else exec p' bos cap s
      | [] => exec p' bos cap s
      end
  end.

(** [bool(re.match(p, s))]: the match is tried at position 0 only. *)
Definition re_match (p : pattern) (s : string) : bool :=
  match exec p true no_capture (list_ascii_of_string s) with
  | Some _ => true
  | None => false
  end.

(** The groups of the matches of [p] in [s], from left to right and
    without overlap: a match is tried at each position that no earlier
    match covers ([skip] counts the covered positions ahead).  The
    patterns it is used with start with a literal, so no match is
    empty. *)
Fixpoint scan (p : pattern) (bos : bool) (skip : nat) (s : list ascii) : list string :=
  match s with
  | [] => []
  | _ :: s' =>
      match skip with
      | S k => scan p false k s'
      | O =>
          match exec p bos no_capture s with
          | Some m =>
              group m :: scan p false (List.length s - List.length (fst m) - 1) s'
          | None => scan p false 0 s'
          end
      end
  end.

(** [re.findall(p, s)] for a pattern with one group. *)
Definition findall (p : pattern) (s : string) : list string :=
  scan p true 0 (list_ascii_of_string s).

(** [re.search(p, s)]: group 1 of the leftmost match, if any. *)
Definition search (p : pattern) (s : string) : option string :=
  match findall p s with
  | g :: _ => Some g
  | [] => None
  end.

End Re.

(* ================================================================== *)
(** ** [xml.etree.ElementTree] *)
(* ================================================================== *)

Module ET.

(** An [Element]: tag, attributes, text before the first child, text
    after the end tag, and the child elements in document order. *)
#[local] Unset Elimination Schemes.
Inductive Element : Type :=
| mkElement (tag : string) (attrib : list (string * string))
            (text : option string) (tail : option string)
            (children : list Element).
#[local] Set Elimination Schemes.

Definition tag (e : Element) : string :=
  match e with mkElement t _ _ _ _ => t end.
Definition attrib (e : Element) : list (string * string) :=
  match e with mkElement _ a _ _ _ => a end.
Definition text (e : Element) : option string :=
  match e with mkElement _ _ x _ _ => x end.
Definition tail (e : Element) : option string :=
  match e with mkElement _ _ _ x _ => x end.
Definition children (e : Element) : list Element :=
  match e with mkElement _ _ _ _ cs => cs end.

(** [e.find(name)] for a plain tag name: the first child with that
    tag, or [None]. *)
Definition find (e : Element) (name : string) : option Element :=
  List.find (fun c => String.eqb (tag c) name) (children e).

(** [e.findall(name)] for a plain tag name: the children with that
    tag, in order. *)
Definition findall (e : Element) (name : string) : list Element :=
  List.filter (fun c => String.eqb (tag c) name) (children e).

(** [e.iter()]: the element and all its descendants, in document
    order. *)
Fixpoint iter (e : Element) : list Element :=
  match e with
  | mkElement _ _ _ _ cs => e :: flat_map iter cs
  end.

(** Induction on an element with the hypothesis for every child. *)
Section Induction.
Variable P : Element -> Prop.
Hypothesis step : forall t a x tl cs, Forall P cs -> P (mkElement t a x tl cs).

Fixpoint Element_ind (e : Element) : P e :=
  match e with
  | mkElement t a x tl cs =>
      step t a x tl cs
        ((fix all (l : list Element) : Forall P l :=
            match l with
            | [] => @List.Forall_nil _ P
            | c :: l' => @List.Forall_cons _ P c l' (Element_ind c) (all l')
            end) cs)
  end.
End Induction.

(** What [ET.fromstring] does with a text: it raises [ET.ParseError]
    with a message, or returns the root element. *)
Inductive ParseResult : Type :=
| ParseError (msg : string)
| Parsed (root : Element).

(** A leaf or a node without attributes and tail, for writing
    documents down. *)
Definition node (t : string) (cs : list Element) : Element :=
  mkElement t [] None None cs.
Definition leaf (t : string) (x : string) : Element :=
  mkElement t [] (Some x) None [].

End ET.

Import ET.

(* ================================================================== *)
(** ** [SimpleXMLValidator] *)
(* ================================================================== *)

Module SimpleXMLValidator.

(** The mutable part of the instance.  [self.rimworld_tags] is set in
    [__init__] and never written again, so it is a constant. *)
Record Self : Type := mkSelf {
  errors : list string;
  warnings : list string
}.

(** [__init__] *)
Definition init : Self := {| errors := []; warnings := [] |}.

(** Methods are state transformers over [Self]. *)
Definition M (A : Type) : Type := Self -> A * Self.

Definition ret {A} (a : A) : M A := fun s => (a, s).
Definition bind {A B} (m : M A) (k : A -> M B) : M B :=
  fun s => let (a, s') := m s in k a s'.

Notation "x <- m ;; k" := (bind m (fun x => k))
  (at level 100, m at next level, right associativity).
Notation "m ;; k" := (bind m (fun _ => k))
  (at level 100, right associativity).

Definition get_errors : M (list string) := fun s => (errors s, s).

(** [self.errors = []; self.warnings = []] *)
Definition reset : M unit := fun _ => (tt, init).

(** [self.errors.append(msg)] *)
Definition append_error (msg : string) : M unit :=
  fun s => (tt, {| errors := (errors s ++ [msg])%list; warnings := warnings s |}).

(** [self.warnings.append(msg)] *)
Definition append_warning (msg : string) : M unit :=
  fun s => (tt, {| errors := errors s; warnings := (warnings s ++ [msg])%list |}).

(** [if c: body] *)
Definition when (c : bool) (body : M unit) : M unit :=
  if c then body else ret tt.

(** [for x in l: body(x)] *)
Definition for_each {A} (body : A -> M unit) : list A -> M unit :=
  fix go (l : list A) : M unit :=
    match l with
    | [] => ret tt
    | x :: l' => body x ;; go l'
    end.

Definition load_rimworld_tags : gset string :=
  list_to_set [
    "ModMetaData"; "Defs"; "ThingDef"; "RecipeDef"; "ResearchProjectDef";
    "PawnKindDef"; "TraitDef"; "FactionDef"; "BiomeDef"; "JobDef"; "WorkGiverDef";

    "name"; "author"; "packageId"; "description"; "supportedVersions";
    "modDependencies"; "incompatibleWith"; "loadAfter"; "loadBefore";

    "defName"; "label"; "thingClass"; "category"; "tickerType"; "altitudeLayer";
    "passability"; "pathCost"; "useHitPoints"; "selectable"; "drawGUIOverlay";
    "rotatable"; "fillPercent"; "statBases"; "costList"; "graphicData";
    "researchPrerequisites"; "constructionSkillPrerequisite"; "designationCategory";
    "placingDraggableDimensions"; "terrainAffordanceNeeded"; "constructEffect";
    "repairEffect"; "filthLeaving"; "leaveResourcesWhenKilled";
    "resourcesFractionWhenDeconstructed";

    "MaxHitPoints"; "WorkToBuild"; "Flammability"; "Beauty"; "Mass"; "MarketValue";
    "DeteriorationRate"; "SellPriceFactor"; "Comfort"; "Nutrition"; "FoodPoisonChance";

    "texPath"; "graphicClass"; "drawSize"; "color"; "colorTwo"; "drawRotated";
    "allowFlip"; "flipExtraRotation"; "shadowData"; "damageData";

    "jobString"; "workSpeedStat"; "workSkill"; "effectWorking"; "soundWorking";
    "workAmount"; "unfinishedThingDef"; "ingredients"; "products"; "recipeUsers";
    "researchPrerequisite"; "skillRequirements"; "workSkillLearnFactor";

    "baseCost"; "techLevel"; "prerequisites"; "researchViewX"; "researchViewY";
    "requiredResearchBuilding"; "requiredResearchFacilities"; "tab";

    "li"; "count"; "filter"; "thingDefs"; "categories"; "stuffCategories"
  ].

Definition rimworld_tags : gset string := load_rimworld_tags.

(** The pattern [r'^[a-zA-Z0-9_]+\.[a-zA-Z0-9_]+$']. *)
Definition word_class : Re.atom :=
  Re.Set_ [("a", "z"); ("A", "Z"); ("0", "9"); ("_", "_")]%char.

Definition package_id_pattern : Re.pattern :=
  [Re.Bol; Re.Plus word_class; Re.One (Re.Chr "."); Re.Plus word_class; Re.Eol].

Definition validate_package_id (package_id : option string) : bool :=
  match package_id with
  | None => false
  | Some s =>
      if negb (Py.truthy s) then false
      else Re.re_match package_id_pattern s
  end.

Definition required_tags : list string :=
  ["name"; "author"; "packageId"; "supportedVersions"].

Definition validate_mod_metadata (root : Element) : M unit :=
  for_each (fun tag =>
      when (Py.is_none (find root tag))
        (append_error ("Відсутній обов'язковий тег: <" ++ tag ++ ">")))
    required_tags ;;
  match find root "packageId" with
  | Some package_id_elem =>
      let package_id := text package_id_elem in
      when (negb (validate_package_id package_id))
        (append_error ("Неправильний формат packageId: " ++ Py.format_opt package_id))
  | None => ret tt
  end ;;
  match find root "supportedVersions" with
  | Some supported_versions =>
      when (List.length (findall supported_versions "li") =? 0)%nat
        (append_warning "supportedVersions не містить жодної версії")
  | None => ret tt
  end.

Definition visible_defs : list string :=
  ["ThingDef"; "RecipeDef"; "ResearchProjectDef"].

(** The body of the loop of [validate_defs_structure]; [def_count] is
    the number of children visited, tested after the loop. *)
Definition validate_def (child : Element) : M unit :=
  match find child "defName" with
  | None => append_error ("Дефініція " ++ tag child ++ " не має defName")
  | Some def_name_elem =>
      when (negb (Py.truthy_opt (text def_name_elem)))
        (append_error ("Порожній defName у дефініції " ++ tag child))
  end ;;
  when (Py.in_list (tag child) visible_defs)
    (when (Py.is_none (find child "label"))
       (append_warning ("Дефініція " ++ tag child ++ " не має label"))).

Definition validate_defs_structure (root : Element) : M unit :=
  for_each validate_def (children root) ;;
  let def_count := List.length (children root) in
  when (def_count =? 0)%nat
    (append_warning "Файл Defs не містить жодної дефініції").

(** [check_unknown_tags(element, path)]; the default [path] is the empty
    string. *)
Fixpoint check_unknown_tags (element : Element) (path : string) {struct element} : M unit :=
  match element with
  | mkElement element_tag _ _ _ element_children =>
      let current_path :=
        if Py.truthy path then path ++ "/" ++ element_tag else element_tag in
      when (negb (Py.in_set element_tag rimworld_tags))
        (when (negb (Py.in_list element_tag ["li"; "count"])
               && negb (Py.endswith element_tag "Def"))
           (append_warning ("Невідомий тег: " ++ current_path))) ;;
      for_each (fun child => check_unknown_tags child current_path) element_children
  end.

(** The validator's [report] dictionary. *)
Record Report : Type := mkReport {
  valid : bool;
  report_errors : list string;
  report_warnings : list string;
  error_count : nat;
  warning_count : nat
}.

Definition get_validation_report : M Report :=
  fun s =>
    ({| valid := (List.length (errors s) =? 0)%nat;
        report_errors := errors s;
        report_warnings := warnings s;
        error_count := List.length (errors s);
        warning_count := List.length (warnings s) |}, s).

(** [f"  {i}. {x}"] for [i, x in enumerate(l, start)] *)
Fixpoint numbered (start : nat) (l : list string) : list string :=
  match l with
  | [] => []
  | x :: l' => ("  " ++ Py.str_nat start ++ ". " ++ x)%string :: numbered (S start) l'
  end.

(** The list [lines] that [format_report] builds. *)
Definition report_lines (report : Report) : list string :=
  ([if valid report then "✅ XML файл валідний!" else "❌ XML файл містить помилки!"]
   ++ (if Py.truthy_list (report_errors report)
       then (Py.nl ++ "🔴 Помилки:")%string :: numbered 1 (report_errors report)
       else [])
   ++ (if Py.truthy_list (report_warnings report)
       then (Py.nl ++ "🟡 Попередження:")%string :: numbered 1 (report_warnings report)
       else [])
   ++ (if negb (Py.truthy_list (report_errors report))
          && negb (Py.truthy_list (report_warnings report))
       then [(Py.nl ++ "🎉 Файл не містить помилок або попереджень!")%string]
       else []))%list.

Definition format_report (report : Report) : string :=
  Py.join Py.nl (report_lines report).

Section WithParser.

Variable fromstring : string -> ParseResult.

Definition validate_xml_syntax (content : string) : M bool :=
  reset ;;
  match fromstring content with
  | Parsed _ => ret true
  | ParseError e =>
      append_error ("Синтаксична помилка XML: " ++ e) ;;
      ret false
  end.

Definition validate_rimworld_structure (content : string) : M unit :=
  match fromstring content with
  | Parsed root =>
      (if String.eqb (tag root) "ModMetaData" then validate_mod_metadata root
       else if String.eqb (tag root) "Defs" then validate_defs_structure root
       else append_warning ("Незвичний кореневий елемент: " ++ tag root)) ;;
      check_unknown_tags root EmptyString
  | ParseError _ => ret tt
  end.

Definition validate_content (content : string) : M bool :=
  ok <- validate_xml_syntax content ;;
  if negb ok then ret false
  else
    validate_rimworld_structure content ;;
    es <- get_errors ;;
    ret (List.length es =? 0)%nat.

(** [quick_validate(content)]: the pair it returns.  It reads and
    writes nothing of the instance.  [fromstring] returns or raises
    [ParseError], so the handler of any other exception is never
    entered. *)
Definition quick_validate (content : string) : bool * string :=
  match fromstring content with
  | Parsed _ => (true, "XML синтаксично правильний")
  | ParseError e => (false, "XML помилка: " ++ e)
  end.

(** [Path(file_path).read_text(encoding='utf-8')] belongs to the host:
    it returns the text of the file or raises, and enters as
    [read_text]. *)
Variable read_text : string -> Py.outcome string.

(** The call of [validate_content] stands in the same [try].  The walk
    of [check_unknown_tags] is recursive, and on a tree deeper than
    the interpreter's stack the call raises [RecursionError] part-way.
    Whether the interpreter gives up on a text, with which message
    and with which warnings collected until then, belongs to the host
    and enters as [interrupted]; [None] says that the call runs to
    its end. *)
Variable interrupted : string -> option (string * list string).


(** What [main.py]'s [validate_xml] hands to its dialog: in both
    branches, the formatted report taken after [validate_content]. *)
Definition shown_report (content : string) : M string :=
  validate_content content ;;
  report <- get_validation_report ;;
  ret (format_report report).

End WithParser.

End SimpleXMLValidator.

(* ================================================================== *)
(** ** [EnhancedXMLValidator] *)
(* ================================================================== *)

Module EnhancedXMLValidator.

(** The [result] dictionary. *)
Record Result : Type := mkResult {
  valid : bool;
  errors : list string;
  warnings : list string;
  info : list string
}.

(** [result["errors"].append(msg); result["valid"] = False] *)
Definition add_error (msg : string) (r : Result) : Result :=
  {| valid := false; errors := (errors r ++ [msg])%list;
     warnings := warnings r; info := info r |}.

(** [result["warnings"].append(msg)] *)
Definition add_warning (msg : string) (r : Result) : Result :=
  {| valid := valid r; errors := errors r;
     warnings := (warnings r ++ [msg])%list; info := info r |}.

(** [result["info"].append(msg)] *)
Definition add_info (msg : string) (r : Result) : Result :=
  {| valid := valid r; errors := errors r;
     warnings := warnings r; info := (info r ++ [msg])%list |}.

Definition load_rimworld_tags : gmap string (list string) :=
  list_to_map [
    ("Defs", ["ThingDef"; "RecipeDef"; "ResearchProjectDef"; "JobDef"; "WorkGiverDef"]);
    ("ThingDef", ["defName"; "label"; "description"; "thingClass"; "category";
                  "statBases"; "comps"]);
    ("RecipeDef", ["defName"; "label"; "description"; "jobString"; "workAmount";
                   "ingredients"; "products"]);
    ("ResearchProjectDef", ["defName"; "label"; "description"; "baseCost";
                            "techLevel"; "prerequisites"]);
    ("statBases", ["MaxHitPoints"; "Mass"; "Beauty"; "WorkToMake"; "MarketValue"]);
    ("comps", ["CompProperties_Forbiddable"; "CompProperties_Rottable";
               "CompProperties_Usable"]);
    ("ingredients", ["li"]);
    ("products", ["li"]);
    ("prerequisites", ["li"])
  ].

Definition rimworld_tags : gmap string (list string) := load_rimworld_tags.

(** The dictionary [validate_xml_syntax] starts from. *)
Definition new_result : Result :=
  {| valid := true; errors := []; warnings := []; info := [] |}.

(** The double quote. *)
Definition quote : string := String (ascii_of_nat 34) EmptyString.

Definition _check_xml_declaration (content : string) (result : Result) : Result :=
  if negb (Py.startswith (Py.strip content) "<?xml") then
    add_warning ("Відсутня XML декларація. Рекомендується додати: <?xml version="
                 ++ quote ++ "1.0" ++ quote ++ " encoding=" ++ quote ++ "utf-8"
                 ++ quote ++ "?>") result
  else if negb (Py.contains "encoding=" (Py.take 100 content)) then
    add_warning "Не вказано кодування в XML декларації" result
  else if negb (Py.contains "utf-8" (Py.lower (Py.take 100 content))) then
    add_warning "Рекомендується використовувати UTF-8 кодування" result
  else result.

(** [content.encode('utf-8')] raises [UnicodeEncodeError] only for a
    lone surrogate; a text carried as its UTF-8 bytes has none, so the
    handler with its warning is never entered. *)
Definition _check_encoding (content : string) (result : Result) : Result := result.

(** The pattern of an opening tag: [<], then the group, one character
    other than [/], [!] and [?] and any run of characters other than
    [>], then [>]. *)
Definition open_tag_pattern : Re.pattern :=
  [Re.One (Re.Chr "<"); Re.Open; Re.One (Re.NotSet ["/"; "!"; "?"]%char);
   Re.Star (Re.NotSet [">"]%char); Re.Close; Re.One (Re.Chr ">")].

(** The pattern of a closing tag: [</], then the group, a run of at
    least one character other than [>], then [>]. *)
Definition close_tag_pattern : Re.pattern :=
  [Re.One (Re.Chr "<"); Re.One (Re.Chr "/"); Re.Open;
   Re.Plus (Re.NotSet [">"]%char); Re.Close; Re.One (Re.Chr ">")].

(** The pattern of a self-closing tag: as the opening tag, with [/>]
    after the group. *)
Definition self_closing_pattern : Re.pattern :=
  [Re.One (Re.Chr "<"); Re.Open; Re.One (Re.NotSet ["/"; "!"; "?"]%char);
   Re.Star (Re.NotSet [">"]%char); Re.Close; Re.One (Re.Chr "/"); Re.One (Re.Chr ">")].

(** [[sc.split()[0] for sc in self_closing]] *)
Fixpoint first_words (l : list string) : Py.outcome (list string) :=
  match l with
  | [] => Py.Returns []
  | sc :: rest =>
      match Py.first_word sc with
      | None => Py.Raises Py.index_error
      | Some w =>
          match first_words rest with
          | Py.Returns ws => Py.Returns (w :: ws)
          | Py.Raises e => Py.Raises e
          end
      end
  end.

(** [[tag.split()[0] for tag in open_tags
      if tag.split()[0] not in [sc.split()[0] for sc in self_closing]]] *)
Fixpoint not_self_closing (open_tags self_closing : list string)
    : Py.outcome (list string) :=
  match open_tags with
  | [] => Py.Returns []
  | tag :: rest =>
      match Py.first_word tag with
      | None => Py.Raises Py.index_error
      | Some w =>
          match first_words self_closing with
          | Py.Raises e => Py.Raises e
          | Py.Returns closing =>
              match not_self_closing rest self_closing with
              | Py.Raises e => Py.Raises e
              | Py.Returns kept =>
                  Py.Returns (if negb (Py.in_list w closing) then w :: kept else kept)
              end
          end
      end
  end.

Definition _check_well_formed (content : string) (result : Result) : Py.outcome Result :=
  let open_tags := Re.findall open_tag_pattern content in
  let close_tags := Re.findall close_tag_pattern content in
  let self_closing := Re.findall self_closing_pattern content in
  match not_self_closing open_tags self_closing with
  | Py.Raises e => Py.Raises e
  | Py.Returns open_tags =>
      Py.Returns
        (if negb (List.length open_tags =? List.length close_tags)%nat
         then add_warning ("Можлива невідповідність відкриваючих ("
                           ++ Py.str_nat (List.length open_tags)
                           ++ ") та закриваючих ("
                           ++ Py.str_nat (List.length close_tags) ++ ") тегів") result
         else result)
  end.

(** [r'line (\d+)'], with [\d] as the digits 0..9: the message comes
    from expat and is ASCII, where the two agree. *)
Definition line_pattern : Re.pattern :=
  [Re.One (Re.Chr "l"); Re.One (Re.Chr "i"); Re.One (Re.Chr "n"); Re.One (Re.Chr "e");
   Re.One (Re.Chr " "); Re.Open; Re.Plus (Re.Set_ [("0", "9")]%char); Re.Close].

Definition _analyze_parse_error (content error_msg : string) (result : Result) : Result :=
  let lines := Py.split_lines content in
  match Re.search line_pattern error_msg with
  | Some digits =>
      let line_num := Py.int_ digits in
      if (line_num <=? List.length lines)%nat then
        let problematic_line := Py.item_before lines line_num in
        let result :=
          add_info ("Проблемний рядок " ++ Py.str_nat line_num ++ ": "
                    ++ Py.strip problematic_line) result in
        if Py.contains "<" problematic_line && negb (Py.contains ">" problematic_line)
        then add_info "Можлива причина: незакритий тег" result
        else if Py.contains "&" problematic_line
                && negb (Py.contains ";" problematic_line)
        then add_info "Можлива причина: неекранований символ &" result
        else result
      else result
  | None => result
  end.

(** [not def_name.text or not def_name.text.strip()] *)
Definition blank (t : option string) : bool :=
  match t with
  | None => true
  | Some s => negb (Py.truthy s) || negb (Py.truthy (Py.strip s))
  end.

Definition _validate_single_def
    (def_elem : Element) (expected_type : option string) (result : Result) : Result :=
  let def_type := tag def_elem in
  let result :=
    match expected_type with
    | Some t =>
        if Py.truthy t && negb (String.eqb def_type t)
        then add_warning ("Очікувався " ++ t ++ ", знайдено " ++ def_type) result
        else result
    | None => result
    end in
  let result :=
    match find def_elem "defName" with
    | None => add_error (def_type ++ " не має обов'язкового елемента <defName>") result
    | Some def_name =>
        if blank (text def_name)
        then add_error (def_type ++ " має порожній <defName>") result
        else result
    end in
  let result :=
    if Py.is_none (find def_elem "label")
    then add_warning (def_type ++ " не має <label> (рекомендується)") result
    else result in
  let result :=
    if Py.is_none (find def_elem "description")
    then add_warning (def_type ++ " не має <description> (рекомендується)") result
    else result in
  match rimworld_tags !! def_type with
  | Some expected_children =>
      fold_left (fun result child =>
          if negb (Py.in_list (tag child) expected_children)
             && negb (Py.in_list (tag child) ["defName"; "label"; "description"])
          then add_info ("Незвичний елемент в " ++ def_type ++ ": <" ++ tag child ++ ">") result
          else result)
        (children def_elem) result
  | None => result
  end.

(** One turn of the loop of [_validate_defs_structure], on the pair
    of [def_count] and [result]. *)
Definition defs_step (st : nat * Result) (child : Element) : nat * Result :=
  let (def_count, result) := st in
  if Py.endswith (tag child) "Def"
  then (def_count + 1, _validate_single_def child None result)
  else (def_count, add_warning ("Незвичний елемент в Defs: <" ++ tag child ++ ">") result).

Definition _validate_defs_structure (root : Element) (result : Result) : Result :=
  let (def_count, result) := fold_left defs_step (children root) (0, result) in
  if (def_count =? 0)%nat
  then add_warning "Defs не містить жодного Def елемента" result
  else add_info ("Знайдено " ++ Py.str_nat def_count ++ " Def елементів") result.

Definition operations : list string :=
  ["add"; "replace"; "remove"; "insert"; "move"; "copy"; "test"].

Definition patch_step (st : nat * Result) (child : Element) : nat * Result :=
  let (operation_count, result) := st in
  if Py.in_list (Py.lower (tag child)) operations
  then (operation_count + 1, result)
  else (operation_count,
        add_warning ("Незвичний елемент в Patch: <" ++ tag child ++ ">") result).

Definition _validate_patch_structure (root : Element) (result : Result) : Result :=
  let (operation_count, result) := fold_left patch_step (children root) (0, result) in
  if (operation_count =? 0)%nat
  then add_warning "Patch не містить жодної операції" result
  else add_info ("Знайдено " ++ Py.str_nat operation_count ++ " patch операцій") result.

(** One turn of the first loop of [_check_common_issues]. *)
Definition empty_step (result : Result) (elem : Element) : Result :=
  if Py.is_none (text elem)
     && (List.length (children elem) =? 0)%nat
     && negb (Py.in_list (tag elem) ["li"])
  then add_warning ("Порожній елемент: <" ++ tag elem ++ ">") result
  else result.

(** One turn of the second loop, on the pair of [def_names] and
    [result]. *)
Definition duplicate_step (st : list string * Result) (def_elem : Element)
    : list string * Result :=
  let (def_names, result) := st in
  if Py.endswith (tag def_elem) "Def" then
    match find def_elem "defName" with
    | Some def_name_elem =>
        match text def_name_elem with
        | Some name =>
            if Py.truthy name then
              if Py.in_list name def_names
              then (def_names, add_error ("Дублікат defName: " ++ name) result)
              else ((def_names ++ [name])%list, result)
            else st
        | None => st
        end
    | None => st
    end
  else st.

Definition _check_common_issues (root : Element) (result : Result) : Result :=
  let result := fold_left empty_step (iter root) result in
  snd (fold_left duplicate_step (iter root) ([], result)).

(** [not x or not x.strip()] for a text or a tail. *)
Definition set_if_blank (x : option string) (value : string) : option string :=
  if blank x then Some value else x.

(** [if not child.tail or not child.tail.strip(): child.tail = i] for
    the last child, the one the loop variable is left on. *)
Fixpoint set_last_tail (cs : list Element) (i : string) : list Element :=
  match cs with
  | [] => []
  | [mkElement t a x tl ds] => [mkElement t a x (set_if_blank tl i) ds]
  | c :: cs' => c :: set_last_tail cs' i
  end.

(** [_indent_xml(elem, level, indent)]: the element as the in-place
    updates leave it. *)
Fixpoint _indent_xml (elem : Element) (level : nat) (indent : string) {struct elem}
    : Element :=
  match elem with
  | mkElement t a x tl cs =>
      let i := Py.nl ++ Py.repeat_str indent level in
      match cs with
      | [] =>
          mkElement t a x
            (if (0 <? level)%nat && blank tl then Some i else tl) []
      | _ :: _ =>
          mkElement t a (set_if_blank x (i ++ indent)) (set_if_blank tl i)
            (set_last_tail
               (List.map (fun child => _indent_xml child (level + 1) indent) cs) i)
      end
  end.

(** The dictionary of [get_xml_statistics]. *)
Record Stats : Type := mkStats {
  total_elements : nat;
  total_attributes : nat;
  def_count : nat;
  def_types : gmap string nat;
  file_size : nat;
  line_count : nat
}.

(** One turn of the loop of [get_xml_statistics]. *)
Definition stats_step (stats : Stats) (elem : Element) : Stats :=
  let is_def := Py.endswith (tag elem) "Def" in
  {| total_elements := total_elements stats + 1;
     total_attributes := total_attributes stats + List.length (attrib elem);
     def_count := if is_def then def_count stats + 1 else def_count stats;
     def_types :=
       if is_def
       then <[tag elem := default 0 (def_types stats !! tag elem) + 1]> (def_types stats)
       else def_types stats;
     file_size := file_size stats;
     line_count := line_count stats |}.

Section WithParser.

Variable fromstring : string -> ParseResult.

Definition validate_xml_syntax (content : string) : Result :=
  let result := new_result in
  if negb (Py.truthy (Py.strip content)) then add_error "XML файл порожній" result
  else
    match fromstring content with
    | Parsed root =>
        let result :=
          add_info ("XML синтаксично коректний. Кореневий елемент: <" ++ tag root ++ ">")
                   result in
        let result := _check_xml_declaration content result in
        let result := _check_encoding content result in
        match _check_well_formed content result with
        | Py.Returns result => result
        | Py.Raises e =>
            add_error ("Неочікувана помилка при парсингу XML: " ++ e) result
        end
    | ParseError e =>
        let result := add_error ("XML синтаксична помилка: " ++ e) result in
        _analyze_parse_error content e result
    end.

(** The handler of the [try] is reached only if [fromstring] fails on a
    text the syntax stage accepted. *)
Definition validate_rimworld_structure (content : string) : Result :=
  let result := validate_xml_syntax content in
  if negb (valid result) then result
  else
    match fromstring content with
    | Parsed root =>
        let result :=
          if negb (Py.in_list (tag root) ["Defs"; "GameData"; "LanguageData"; "Patch"])
          then add_warning ("Незвичний кореневий елемент: <" ++ tag root
                            ++ ">. Очікувалося: Defs, GameData, LanguageData або Patch")
                           result
          else result in
        let result :=
          if String.eqb (tag root) "Defs" then _validate_defs_structure root result
          else if String.eqb (tag root) "Patch" then _validate_patch_structure root result
          else result in
        _check_common_issues root result
    | ParseError e => add_error ("Помилка валідації структури: " ++ e) result
    end.

(** [validate_def_structure(content, def_type)] *)
Definition validate_def_structure (content : string) (def_type : option string)
    : Result :=
  let result := validate_xml_syntax content in
  if negb (valid result) then result
  else
    match fromstring content with
    | Parsed root =>
        let defs :=
          if Py.endswith (tag root) "Def" then [root]
          else List.filter (fun elem => Py.endswith (tag elem) "Def") (children root) in
        fold_left (fun result def_elem => _validate_single_def def_elem def_type result)
                  defs result
    | ParseError e => add_error ("Помилка валідації Def структури: " ++ e) result
    end.

(** [get_xml_statistics(content)]; [len(content.encode('utf-8'))] is
    the number of bytes of the text. *)
Definition get_xml_statistics (content : string) : Stats :=
  let stats :=
    {| total_elements := 0; total_attributes := 0; def_count := 0;
       def_types := ∅;
       file_size := String.length content;
       line_count := List.length (Py.split_lines content) |} in
  match fromstring content with
  | Parsed root => fold_left stats_step (iter root) stats
  | ParseError _ => stats
  end.

(** [_indent_xml] is recursive: on a tree deeper than the
    interpreter's stack the call raises [RecursionError].  Whether a
    tree is that deep belongs to the host and enters as [too_deep]. *)
Variable too_deep : Element -> bool.

(** [ET.tostring(root, encoding='unicode')] belongs to the host: it
    returns the serialisation or raises, and enters as [tostring]. *)
Variable tostring : Element -> Py.outcome string.

(** [format_xml(content, indent)]: both handlers return the text as it
    came, whatever was raised. *)
Definition format_xml (content indent : string) : string :=
  match fromstring content with
  | Parsed root =>
      if too_deep root then content
      else
        let root := _indent_xml root 0 indent in
        match tostring root with
        | Py.Returns rough_string =>
            if negb (Py.startswith (Py.strip content) "<?xml")
            then "<?xml version=" ++ quote ++ "1.0" ++ quote ++ " encoding=" ++ quote
                 ++ "utf-8" ++ quote ++ "?>" ++ Py.nl ++ rough_string
            else rough_string
        | Py.Raises _ => content
        end
  | ParseError _ => content
  end.

End WithParser.

End EnhancedXMLValidator.

Module S := SimpleXMLValidator.
Module E := EnhancedXMLValidator.

(* ================================================================== *)
(** ** Sample documents *)
(* ================================================================== *)

Module Docs.

(** A parser that knows the listed documents and rejects every other
    text the way expat rejects the empty text. *)
Definition parser (known : list (string * Element)) (content : string) : ParseResult :=
  match List.find (fun d => String.eqb (fst d) content) known with
  | Some d => Parsed (snd d)
  | None => ParseError "no element found: line 1, column 0"
  end.

(** The XML declaration put before every sample text. *)
Definition declaration : string := "<?xml version='1.0' encoding='utf-8'?>".

Definition thing (def_name label : string) : Element :=
  node "ThingDef" [leaf "defName" def_name; leaf "label" label].

Definition thing_text (def_name label : string) : string :=
  "<ThingDef><defName>" ++ def_name ++ "</defName><label>" ++ label
  ++ "</label></ThingDef>".

(** Two definitions with the same defName. *)
Definition twins_text : string :=
  declaration ++ "<Defs>" ++ thing_text "Dup" "a" ++ thing_text "Dup" "b" ++ "</Defs>".
Definition twins : Element :=
  node "Defs" [thing "Dup" "a"; thing "Dup" "b"].

(** Three definitions with the same defName. *)
Definition triplets_text : string :=
  declaration ++ "<Defs>" ++ thing_text "Dup" "a" ++ thing_text "Dup" "b"
  ++ thing_text "Dup" "c" ++ "</Defs>".
Definition triplets : Element :=
  node "Defs" [thing "Dup" "a"; thing "Dup" "b"; thing "Dup" "c"].

(** A definition whose defName is one space. *)
Definition blank_name_text : string :=
  declaration ++ "<Defs>" ++ thing_text " " "a" ++ "</Defs>".
Definition blank_name : Element := node "Defs" [thing " " "a"].

(** A definition without defName and one with an empty defName. *)
Definition nameless_text : string :=
  declaration ++ "<Defs><ThingDef><label>a</label></ThingDef>"
  ++ "<ThingDef><defName></defName><label>b</label></ThingDef></Defs>".
Definition nameless : Element :=
  node "Defs" [node "ThingDef" [leaf "label" "a"];
               node "ThingDef" [node "defName" []; leaf "label" "b"]].

(** Metadata with the given packageId text. *)
Definition about_text (package_id : string) : string :=
  declaration ++ "<ModMetaData><name>X</name><author>Y</author><packageId>" ++ package_id
  ++ "</packageId><supportedVersions><li>1.4</li></supportedVersions></ModMetaData>".
Definition about (package_id : string) : Element :=
  node "ModMetaData"
    [leaf "name" "X"; leaf "author" "Y"; leaf "packageId" package_id;
     node "supportedVersions" [leaf "li" "1.4"]].

(** Metadata without the author. *)
Definition anonymous_text : string :=
  declaration ++ "<ModMetaData><name>X</name><packageId>a.b</packageId>"
  ++ "<supportedVersions><li>1.4</li></supportedVersions></ModMetaData>".
Definition anonymous : Element :=
  node "ModMetaData"
    [leaf "name" "X"; leaf "packageId" "a.b";
     node "supportedVersions" [leaf "li" "1.4"]].

(** A root that is neither metadata nor definitions, with a tag the
    table does not know below it. *)
Definition patch_text : string :=
  declaration ++ "<Patch><Operation><li>x</li></Operation></Patch>".
Definition patch : Element := node "Patch" [node "Operation" [leaf "li" "x"]].

(** A well-formed text whose comment holds [< >]. *)
Definition commented_text : string := declaration ++ "<Defs><!--< >--></Defs>".
Definition commented : Element := node "Defs" [].

Definition empty_defs_text : string := declaration ++ "<Defs></Defs>".
Definition empty_defs : Element := node "Defs" [].

(** A child of [Defs] whose tag does not end in [Def], without defName. *)
Definition stray_text : string := declaration ++ "<Defs><Building>x</Building></Defs>".
Definition stray : Element := node "Defs" [leaf "Building" "x"].

(** One definition, named and labelled. *)
Definition single_text : string :=
  declaration ++ "<Defs>" ++ thing_text "Wall" "wall" ++ "</Defs>".
Definition single : Element := node "Defs" [thing "Wall" "wall"].


(** Metadata whose supportedVersions lists nothing. *)
Definition unversioned_text : string :=
  declaration ++ "<ModMetaData><name>X</name><author>Y</author>"
  ++ "<packageId>a.b</packageId><supportedVersions></supportedVersions></ModMetaData>".
Definition unversioned : Element :=
  node "ModMetaData"
    [leaf "name" "X"; leaf "author" "Y"; leaf "packageId" "a.b";
     node "supportedVersions" []].

(** Metadata without any child. *)
Definition bare_metadata_text : string := declaration ++ "<ModMetaData></ModMetaData>".
Definition bare_metadata : Element := node "ModMetaData" [].

(** Definitions without the XML declaration before them. *)
Definition undeclared_text : string := "<Defs>" ++ thing_text "Wall" "wall" ++ "</Defs>".
Definition undeclared : Element := node "Defs" [thing "Wall" "wall"].

(** A text of whitespace only: a space, a line feed and a tab. *)
Definition blank_text : string := Py.bytes [32; 10; 9].

(** A text that ends inside its root element. *)
Definition unclosed_text : string := "<Defs>".

(** A serialiser of tags, texts and tails, enough for the sample
    documents, which have no attribute. *)
Fixpoint write (e : Element) : string :=
  match e with
  | mkElement t _ x tl cs =>
      "<" ++ t ++ ">" ++ match x with Some v => v | None => EmptyString end
      ++ String.concat EmptyString (List.map write cs)
      ++ "</" ++ t ++ ">" ++ match tl with Some v => v | None => EmptyString end
  end.


End Docs.

(* ================================================================== *)
(** ** Vocabulary of the statements *)
(* ================================================================== *)

Module Log.

(** What [check_unknown_tags] reports about one tag. *)
Definition unknown (t : string) : bool :=
  negb (Py.in_set t S.rimworld_tags)
  && (negb (Py.in_list t ["li"; "count"]) && negb (Py.endswith t "Def")).

(** The slash-joined path of an element below [path]. *)
Definition join (path t : string) : string :=
  if Py.truthy path then path ++ "/" ++ t else t.

(** The paths of the unknown tags of a tree, in document order. *)
Fixpoint unknown_paths (e : Element) (path : string) : list string :=
  match e with
  | mkElement t _ _ _ cs =>
      ((if unknown t then [join path t] else [])
       ++ flat_map (fun c => unknown_paths c (join path t)) cs)%list
  end.

Definition unknown_warnings (e : Element) (path : string) : list string :=
  List.map (fun p => "Невідомий тег: " ++ p) (unknown_paths e path).

Definition missing_tag (t : string) : string :=
  "Відсутній обов'язковий тег: <" ++ t ++ ">".

Definition bad_package_id (p : option string) : string :=
  "Неправильний формат packageId: " ++ Py.format_opt p.

(** The errors of [validate_mod_metadata]. *)
Definition metadata_errors (root : Element) : list string :=
  (List.map missing_tag
     (List.filter (fun t => Py.is_none (find root t)) S.required_tags)
   ++ match find root "packageId" with
      | Some e => if S.validate_package_id (text e) then [] else [bad_package_id (text e)]
      | None => []
      end)%list.

(** The warnings of [validate_mod_metadata]. *)
Definition metadata_warnings (root : Element) : list string :=
  match find root "supportedVersions" with
  | Some v =>
      if (List.length (findall v "li") =? 0)%nat
      then ["supportedVersions не містить жодної версії"] else []
  | None => []
  end.

Definition no_def_name (t : string) : string := "Дефініція " ++ t ++ " не має defName".
Definition empty_def_name (t : string) : string := "Порожній defName у дефініції " ++ t.

(** The errors and warnings of one turn of the loop of
    [validate_defs_structure]. *)
Definition def_errors (child : Element) : list string :=
  match find child "defName" with
  | None => [no_def_name (tag child)]
  | Some d => if Py.truthy_opt (text d) then [] else [empty_def_name (tag child)]
  end.

Definition def_warnings (child : Element) : list string :=
  if Py.in_list (tag child) S.visible_defs && Py.is_none (find child "label")
  then ["Дефініція " ++ tag child ++ " не має label"] else [].

Definition defs_errors (root : Element) : list string :=
  flat_map def_errors (children root).

Definition defs_warnings (root : Element) : list string :=
  (flat_map def_warnings (children root)
   ++ if (List.length (children root) =? 0)%nat
      then ["Файл Defs не містить жодної дефініції"] else [])%list.

(** A character of the class [[a-zA-Z0-9_]]. *)
Definition word_char (c : ascii) : bool := Re.atom_matches S.word_class c.

(** A non-empty run of such characters. *)
Definition segment (s : string) : bool :=
  Py.truthy s && forallb word_char (list_ascii_of_string s).

Definition has_uppercase (s : string) : bool :=
  existsb (fun c => Re.in_range c ("A", "Z")%char) (list_ascii_of_string s).

Definition newline : string := String Py.LF EmptyString.

(** The rules chosen by the root tag. *)
Definition root_errors (root : Element) : list string :=
  if String.eqb (tag root) "ModMetaData" then metadata_errors root
  else if String.eqb (tag root) "Defs" then defs_errors root
  else [].

Definition root_warnings (root : Element) : list string :=
  if String.eqb (tag root) "ModMetaData" then metadata_warnings root
  else if String.eqb (tag root) "Defs" then defs_warnings root
  else ["Незвичний кореневий елемент: " ++ tag root].

(** *** [EnhancedXMLValidator] *)

Definition missing_def_name (t : string) : string :=
  t ++ " не має обов'язкового елемента <defName>".
Definition blank_def_name (t : string) : string := t ++ " має порожній <defName>".
Definition duplicate (name : string) : string := "Дублікат defName: " ++ name.

(** The errors of [_validate_single_def]. *)
Definition single_def_errors (def_elem : Element) : list string :=
  match find def_elem "defName" with
  | None => [missing_def_name (tag def_elem)]
  | Some d => if E.blank (text d) then [blank_def_name (tag def_elem)] else []
  end.

(** The errors of [_validate_defs_structure]: those of the children
    whose tag ends in [Def]. *)
Definition enhanced_defs_errors (root : Element) : list string :=
  flat_map (fun c => if Py.endswith (tag c) "Def" then single_def_errors c else [])
           (children root).

(** The name the duplicate check of [_check_common_issues] reads from
    an element: the non-empty text of the first defName child of an
    element whose tag ends in [Def]. *)
Definition registered_name (e : Element) : option string :=
  if Py.endswith (tag e) "Def" then
    match find e "defName" with
    | Some d =>
        match text d with
        | Some name => if Py.truthy name then Some name else None
        | None => None
        end
    | None => None
    end
  else None.

Fixpoint names_of (l : list Element) : list string :=
  match l with
  | [] => []
  | e :: l' =>
      match registered_name e with
      | Some name => name :: names_of l'
      | None => names_of l'
      end
  end.

(** The names read over the whole tree, in document order. *)
Definition registered_names (root : Element) : list string := names_of (iter root).

(** The names of [l] that are in [seen] or occur earlier in [l]. *)
Fixpoint repeats (seen l : list string) : list string :=
  match l with
  | [] => []
  | name :: l' =>
      if Py.in_list name seen then name :: repeats seen l'
      else repeats (seen ++ [name]) l'
  end.

(** A text made of whitespace characters only (the empty text
    included). *)
Definition whitespace_only (s : string) : bool := forallb Py.isspace (Py.chars s).

Definition nilb {A} (l : list A) : bool :=
  match l with
  | [] => true
  | _ :: _ => false
  end.

(** A step on [result] that appends [es] to the errors and clears
    [valid] when [es] is not empty. *)
Definition reports (r r' : E.Result) (es : list string) : Prop :=
  E.errors r' = (E.errors r ++ es)%list /\ E.valid r' = E.valid r && nilb es.

(** A step that only appends [es] to the errors and [ws] to the
    warnings. *)
Definition emits (m : S.M unit) (es ws : list string) : Prop :=
  forall st,
    m st = (tt, {| S.errors := (S.errors st ++ es)%list;
                   S.warnings := (S.warnings st ++ ws)%list |}).

End Log.

(* ================================================================== *)
(** ** Vocabulary of the further statements *)
(* ================================================================== *)

Module Terms.

(** *** [SimpleXMLValidator] *)

(** A child of [Defs] with a defName child whose text is not empty. *)
Definition named (child : Element) : bool :=
  match find child "defName" with
  | Some d => Py.truthy_opt (text d)
  | None => false
  end.

Definition syntax_error (msg : string) : string := "Синтаксична помилка XML: " ++ msg.
Definition versions_warning : string := "supportedVersions не містить жодної версії".
Definition unknown_prefix : string := "Невідомий тег: ".

(** The lines of a formatted report. *)
Definition valid_banner : string := "✅ XML файл валідний!".
Definition invalid_banner : string := "❌ XML файл містить помилки!".
Definition clean_line : string := Py.nl ++ "🎉 Файл не містить помилок або попереджень!".
Definition errors_title : string := "🔴 Помилки:".
Definition warnings_title : string := "🟡 Попередження:".
Definition clean_title : string := "🎉 Файл не містить помилок або попереджень!".
Definition numbered_line (k : nat) (x : string) : string :=
  "  " ++ Py.str_nat k ++ ". " ++ x.

(** *** [EnhancedXMLValidator] *)

(** A definition with a defName child whose text is not blank. *)
Definition well_named (def_elem : Element) : bool :=
  match find def_elem "defName" with
  | Some d => negb (E.blank (text d))
  | None => false
  end.

Definition is_def (e : Element) : bool := Py.endswith (tag e) "Def".

(** The definitions [validate_def_structure] looks at: the root when
    its tag ends in [Def], its children with such a tag otherwise. *)
Definition selected_defs (root : Element) : list Element :=
  if is_def root then [root] else List.filter is_def (children root).

(** A text or tail with the blank ones forgotten. *)
Definition significant (x : option string) : option string :=
  if E.blank x then None else x.

(** An element with every blank text and tail forgotten. *)
Fixpoint skeleton (e : Element) : Element :=
  match e with
  | mkElement t a x tl cs =>
      mkElement t a (significant x) (significant tl) (List.map skeleton cs)
  end.

(** An element with another tail. *)
Definition with_tail (e : Element) (tl : option string) : Element :=
  match e with
  | mkElement t a x _ cs => mkElement t a x tl cs
  end.

(** The text [_indent_xml] puts before an element of a level. *)
Definition indentation (indent : string) (level : nat) : string :=
  Py.nl ++ Py.repeat_str indent level.

(** The declaration [format_xml] puts before a text that has none. *)
Definition declaration_line : string :=
  "<?xml version=" ++ E.quote ++ "1.0" ++ E.quote ++ " encoding=" ++ E.quote
  ++ "utf-8" ++ E.quote ++ "?>" ++ Py.nl.

(** The number of line feeds of a text. *)
Fixpoint line_feeds (s : string) : nat :=
  match s with
  | EmptyString => 0
  | String c s' => (if Ascii.eqb c Py.LF then 1 else 0) + line_feeds s'
  end.

(** The elements of a list that carry the tag [t]. *)
Definition tagged (t : string) (l : list Element) : list Element :=
  List.filter (fun e => String.eqb (tag e) t) l.

(** The sum of the counts of a table. *)
Definition total (m : gmap string nat) : nat :=
  map_fold (fun _ n acc => n + acc) 0 m.

(** [r'] keeps every message of [r], in place, and is not valid
    unless [r] is. *)
Definition extends (r r' : E.Result) : Prop :=
  (exists es, E.errors r' = (E.errors r ++ es)%list)
  /\ (exists ws, E.warnings r' = (E.warnings r ++ ws)%list)
  /\ (exists ns, E.info r' = (E.info r ++ ns)%list)
  /\ (E.valid r' = true -> E.valid r = true).


(** An element [_check_common_issues] calls empty. *)
Definition is_empty (elem : Element) : bool :=
  Py.is_none (text elem)
  && (List.length (children elem) =? 0)%nat
  && negb (Py.in_list (tag elem) ["li"]).

Definition unusual_in_defs (t : string) : string :=
  "Незвичний елемент в Defs: <" ++ t ++ ">".
Definition empty_element (t : string) : string := "Порожній елемент: <" ++ t ++ ">".
Definition missing_declaration : string :=
  "Відсутня XML декларація. Рекомендується додати: <?xml version="
  ++ E.quote ++ "1.0" ++ E.quote ++ " encoding=" ++ E.quote ++ "utf-8" ++ E.quote ++ "?>".

End Terms.

(* ================================================================== *)
(** ** Python strings: [endswith] *)
(* ================================================================== *)

Section Strings.

Lemma length_append (a b : string) :
  String.length (a ++ b) = String.length a + String.length b.
Proof. induction a as [|c a IH]; simpl; [reflexivity | now rewrite IH]. Qed.

Lemma substring_whole (s : string) : substring 0 (String.length s) s = s.
Proof. induction s as [|c s IH]; simpl; [reflexivity | now rewrite IH]. Qed.

Lemma substring_append (a b : string) :
  substring (String.length a) (String.length b) (a ++ b) = b.
Proof. induction a as [|c a IH]; simpl; [apply substring_whole | exact IH]. Qed.

Lemma substring_split (s : string) :
  forall k, k <= String.length s ->
    s = substring 0 k s ++ substring k (String.length s - k) s.
Proof.
  induction s as [|c s IH]; intros k Hk; simpl in *.
  - destruct k; reflexivity.
  - destruct k as [|k]; simpl.
    + now rewrite substring_whole.
    + change (String c s
              = String c (substring 0 k s ++ substring k (String.length s - k) s)).
      f_equal. apply IH. lia.
Qed.

(** [endswith] holds exactly of the strings that end with the suffix. *)
Lemma endswith_spec (s suffix : string) :
  Py.endswith s suffix = true <-> exists p, s = p ++ suffix.
Proof.
  unfold Py.endswith. split.
  - destruct (String.length suffix <=? String.length s)%nat eqn:Hle; [|discriminate].
    apply Nat.leb_le in Hle. intros H. apply String.eqb_eq in H.
    pose proof (substring_split s (String.length s - String.length suffix)) as Hs.
    replace (String.length s - (String.length s - String.length suffix))
      with (String.length suffix) in Hs by lia.
    rewrite H in Hs. eexists. apply Hs. lia.
  - intros [p ->]. rewrite length_append.
    replace (String.length suffix <=? String.length p + String.length suffix)%nat
      with true by (symmetry; apply Nat.leb_le; lia).
    replace (String.length p + String.length suffix - String.length suffix)
      with (String.length p) by lia.
    rewrite substring_append. apply String.eqb_refl.
Qed.

End Strings.

(* ================================================================== *)
(** ** The steps of [SimpleXMLValidator] as logs *)
(* ================================================================== *)

(** Case analysis on the first test of the goal. *)
Ltac case_if :=
  match goal with
  | |- context [if ?c then _ else _] => destruct c eqn:?
  end.

Section SimpleLogs.

Import Log.

Lemma emits_ret : emits (S.ret tt) [] [].
Proof. intros [es ws]. unfold S.ret. cbn. now rewrite !app_nil_r. Qed.

Lemma emits_error msg : emits (S.append_error msg) [msg] [].
Proof. intros [es ws]. unfold S.append_error. cbn. now rewrite app_nil_r. Qed.

Lemma emits_warning msg : emits (S.append_warning msg) [] [msg].
Proof. intros [es ws]. unfold S.append_warning. cbn. now rewrite app_nil_r. Qed.

Lemma emits_seq m1 m2 es1 ws1 es2 ws2 :
  emits m1 es1 ws1 -> emits m2 es2 ws2 ->
  emits (S.bind m1 (fun _ => m2)) (es1 ++ es2) (ws1 ++ ws2).
Proof.
  intros H1 H2 st. unfold S.bind. rewrite H1, H2. cbn.
  now rewrite <- !app_assoc.
Qed.

Lemma emits_when (c : bool) m es ws :
  emits m es ws ->
  emits (S.when c m) (if c then es else []) (if c then ws else []).
Proof. intros H. destruct c; cbn; [exact H | exact emits_ret]. Qed.

Lemma emits_eq m es ws es' ws' :
  emits m es ws -> es = es' -> ws = ws' -> emits m es' ws'.
Proof. now intros H <- <-. Qed.

Lemma emits_for_each {A} (body : A -> S.M unit) (es ws : A -> list string) l :
  (forall x, In x l -> emits (body x) (es x) (ws x)) ->
  emits (S.for_each body l) (flat_map es l) (flat_map ws l).
Proof.
  induction l as [|x l IH]; intros H.
  - exact emits_ret.
  - cbn [S.for_each flat_map]. apply emits_seq.
    + apply H. now left.
    + apply IH. intros y Hy. apply H. now right.
Qed.

Lemma flat_map_nil {A B} (l : list A) : flat_map (fun _ => @nil B) l = [].
Proof. induction l; cbn; auto. Qed.

Lemma emits_check_unknown_tags e :
  forall path, emits (S.check_unknown_tags e path) [] (unknown_warnings e path).
Proof.
  induction e as [t a x tl cs IH] using Element_ind. intros path.
  cbn [S.check_unknown_tags].
  eapply emits_eq.
  - apply emits_seq.
    + apply emits_when, emits_when, emits_warning.
    + apply (emits_for_each _ (fun _ => []) (fun c => unknown_warnings c (join path t))).
      intros c Hc. rewrite List.Forall_forall in IH. apply IH, Hc.
  - rewrite flat_map_nil. repeat case_if; reflexivity.
  - unfold unknown_warnings. cbn [unknown_paths]. unfold unknown, join.
    rewrite map_app. apply (f_equal2 (@app string)).
    + repeat case_if; reflexivity || discriminate.
    + clear IH. induction cs as [|c cs IHcs]; cbn [flat_map List.map]; [reflexivity|].
      rewrite map_app, IHcs. reflexivity.
Qed.

Lemma flat_map_filter {A B} (p : A -> bool) (f : A -> B) l :
  flat_map (fun x => if p x then [f x] else []) l = List.map f (List.filter p l).
Proof.
  induction l as [|x l IH]; cbn; [reflexivity|].
  rewrite IH. now destruct (p x).
Qed.

Lemma emits_validate_mod_metadata root :
  emits (S.validate_mod_metadata root) (metadata_errors root) (metadata_warnings root).
Proof.
  unfold S.validate_mod_metadata.
  eapply emits_eq.
  - apply emits_seq;
      [|apply emits_seq
          with (es1 := match find root "packageId" with
                       | Some e => if S.validate_package_id (text e) then []
                                   else [bad_package_id (text e)]
                       | None => [] end)
               (ws1 := []) (es2 := []) (ws2 := metadata_warnings root)].
    + apply (emits_for_each _
               (fun t => if Py.is_none (find root t) then [missing_tag t] else [])
               (fun _ => [])).
      intros t _. eapply emits_eq; [apply emits_when, emits_error| |];
        destruct (Py.is_none _); reflexivity.
    + destruct (find root "packageId") as [e|]; [|exact emits_ret].
      eapply emits_eq; [apply emits_when, emits_error| |];
        destruct (S.validate_package_id _); reflexivity.
    + unfold metadata_warnings.
      destruct (find root "supportedVersions") as [v|]; [|exact emits_ret].
      eapply emits_eq; [apply emits_when, emits_warning| |];
        destruct (_ =? _)%nat; reflexivity.
  - unfold metadata_errors. rewrite flat_map_filter, app_nil_r. reflexivity.
  - rewrite flat_map_nil. reflexivity.
Qed.

Lemma emits_validate_def child :
  emits (S.validate_def child) (def_errors child) (def_warnings child).
Proof.
  unfold S.validate_def.
  eapply emits_eq.
  - apply emits_seq with (es1 := def_errors child) (ws1 := []).
    + unfold def_errors.
      destruct (find child "defName") as [d|]; [|apply emits_error].
      eapply emits_eq; [apply emits_when, emits_error| |];
        destruct (Py.truthy_opt _); reflexivity.
    + apply emits_when, emits_when, emits_warning.
  - repeat case_if; apply app_nil_r.
  - unfold def_warnings.
    destruct (Py.in_list _ _), (Py.is_none (find child "label")); reflexivity.
Qed.

Lemma emits_validate_defs_structure root :
  emits (S.validate_defs_structure root) (defs_errors root) (defs_warnings root).
Proof.
  unfold S.validate_defs_structure, defs_errors, defs_warnings.
  eapply emits_eq.
  - apply emits_seq.
    + apply emits_for_each. intros c _. apply emits_validate_def.
    + apply emits_when, emits_warning.
  - destruct (_ =? _)%nat; rewrite ?app_nil_r; reflexivity.
  - reflexivity.
Qed.

Variable fromstring : string -> ParseResult.

Lemma validate_xml_syntax_parsed content root st :
  fromstring content = Parsed root ->
  S.validate_xml_syntax fromstring content st = (true, S.init).
Proof. intros Hp. unfold S.validate_xml_syntax. now rewrite Hp. Qed.

Lemma emits_validate_rimworld_structure content root :
  fromstring content = Parsed root ->
  emits (S.validate_rimworld_structure fromstring content)
    (root_errors root) (root_warnings root ++ unknown_warnings root EmptyString).
Proof.
  intros Hp. unfold S.validate_rimworld_structure. rewrite Hp.
  eapply emits_eq.
  - apply emits_seq with (es1 := root_errors root) (ws1 := root_warnings root);
      [|apply emits_check_unknown_tags].
    unfold root_errors, root_warnings.
    destruct (String.eqb (tag root) "ModMetaData");
      [apply emits_validate_mod_metadata|].
    destruct (String.eqb (tag root) "Defs");
      [apply emits_validate_defs_structure | apply emits_warning].
  - apply app_nil_r.
  - reflexivity.
Qed.

(** [validate_content] on a text that parses. *)
Lemma validate_content_parsed content root st :
  fromstring content = Parsed root ->
  S.validate_content fromstring content st =
    ((List.length (root_errors root) =? 0)%nat,
     {| S.errors := root_errors root;
        S.warnings := (root_warnings root ++ unknown_warnings root EmptyString)%list |}).
Proof.
  intros Hp. unfold S.validate_content, S.bind.
  rewrite (validate_xml_syntax_parsed _ _ _ Hp). cbn [negb].
  rewrite (emits_validate_rimworld_structure _ _ Hp). reflexivity.
Qed.

(** [validate_content] on a text that does not parse. *)
Lemma validate_content_parse_error content msg st :
  fromstring content = ParseError msg ->
  S.validate_content fromstring content st =
    (false, {| S.errors := ["Синтаксична помилка XML: " ++ msg]; S.warnings := [] |}).
Proof.
  intros Hp. unfold S.validate_content, S.validate_xml_syntax.
  rewrite Hp. reflexivity.
Qed.

End SimpleLogs.

(* ================================================================== *)
(** ** The packageId pattern *)
(* ================================================================== *)

Section PackageId.

Import Log.

Lemma greedy_rest a k t m : k t = Some m -> exists m', Re.greedy a k t = Some m'.
Proof.
  intros H. destruct t as [|d t]; cbn; [eauto|].
  destruct (Re.atom_matches a d); [destruct (Re.greedy a k t)|]; eauto.
Qed.

(** [greedy] succeeds exactly on a run of [a] followed by something the
    rest of the pattern accepts. *)
Lemma greedy_spec a k t :
  (exists m, Re.greedy a k t = Some m) <->
  exists u v, t = (u ++ v)%list /\ forallb (Re.atom_matches a) u = true
              /\ exists m, k v = Some m.
Proof.
  split.
  - induction t as [|d t IH]; cbn; intros [m H].
    + exists [], []. eauto.
    + destruct (Re.atom_matches a d) eqn:Hd.
      * destruct (Re.greedy a k t) as [m'|] eqn:Hg.
        -- destruct (IH (ex_intro _ m' eq_refl)) as (u & v & -> & Hu & Hv).
           exists (d :: u), v. cbn. rewrite Hd, Hu. auto.
        -- exists [], (d :: t). eauto.
      * exists [], (d :: t). eauto.
  - intros (u & v & -> & Hu & [m Hv]).
    induction u as [|d u IH]; cbn in *.
    + exact (greedy_rest a k v m Hv).
    + apply andb_true_iff in Hu as [Hd Hu]. rewrite Hd.
      destruct (IH Hu) as [m' ->]. eauto.
Qed.

Lemma at_eol_spec s : Re.at_eol s = true <-> s = [] \/ s = [Py.LF].
Proof.
  destruct s as [|c [|d s]]; cbn.
  - tauto.
  - rewrite Ascii.eqb_eq. split; [intros ->; auto | intros [H|H]; congruence].
  - split; [discriminate | intros [H|H]; discriminate].
Qed.

(** A greedy [class+] followed by the rest of the pattern. *)
Lemma plus_spec a k s :
  (exists m,
     match s with
     | c :: s' => if Re.atom_matches a c then Re.greedy a k s' else None
     | [] => None
     end = Some m) <->
  exists u v, u <> [] /\ s = (u ++ v)%list
              /\ forallb (Re.atom_matches a) u = true /\ exists m, k v = Some m.
Proof.
  split.
  - destruct s as [|c s]; [intros [m H]; discriminate|].
    destruct (Re.atom_matches a c) eqn:Hc; [|intros [m H]; discriminate].
    intros H. apply greedy_spec in H as (u & v & -> & Hu & Hv).
    exists (c :: u), v. cbn. rewrite Hc, Hu. repeat split; auto; discriminate.
  - intros (u & v & Hne & -> & Hu & Hv).
    destruct u as [|c u]; [congruence|]. cbn in *.
    apply andb_true_iff in Hu as [Hc Hu]. rewrite Hc.
    apply greedy_spec. eauto.
Qed.

(** What the pattern of [validate_package_id] accepts. *)
Lemma package_id_pattern_spec s :
  (exists m, Re.exec S.package_id_pattern true Re.no_capture s = Some m) <->
  exists a b, a <> [] /\ b <> []
    /\ forallb word_char a = true /\ forallb word_char b = true
    /\ (s = a ++ "."%char :: b \/ s = a ++ "."%char :: b ++ [Py.LF])%list.
Proof.
  unfold S.package_id_pattern. cbn [Re.exec].
  rewrite plus_spec. split.
  - intros (a & v & Ha & -> & Hwa & [m Hk]).
    destruct v as [|dot v]; [discriminate|].
    cbn [Re.atom_matches] in Hk.
    destruct (Ascii.eqb dot ".") eqn:Hdot; [|discriminate].
    apply Ascii.eqb_eq in Hdot as ->.
    assert (Hb : exists m, match v with
                           | c :: s' =>
                               if Re.atom_matches S.word_class c
                               then Re.greedy S.word_class
                                      (Re.exec [Re.Eol] false Re.no_capture) s'
                               else None
                           | [] => None
                           end = Some m) by eauto.
    apply plus_spec in Hb as (b & w & Hb & -> & Hwb & [m' Hw]).
    cbn [Re.exec] in Hw. destruct (Re.at_eol w) eqn:Heol; [|discriminate].
    apply at_eol_spec in Heol.
    exists a, b. repeat split; auto.
    destruct Heol as [-> | ->]; [left; now rewrite app_nil_r | now right].
  - intros (a & b & Ha & Hb & Hwa & Hwb & Hs).
    assert (Htail : exists w, s = (a ++ "."%char :: b ++ w)%list /\ Re.at_eol w = true).
    { destruct Hs as [-> | ->]; [exists [] | exists [Py.LF]]; split;
        rewrite ?app_nil_r; reflexivity. }
    destruct Htail as (w & -> & Hw).
    exists a, ("."%char :: b ++ w)%list. repeat split; auto.
    cbn [Re.atom_matches]. rewrite Ascii.eqb_refl.
    apply plus_spec. exists b, w. repeat split; auto.
    cbn [Re.exec]. rewrite Hw. eauto.
Qed.

Lemma list_ascii_of_string_app a b :
  list_ascii_of_string (a ++ b) = (list_ascii_of_string a ++ list_ascii_of_string b)%list.
Proof. induction a as [|c a IH]; simpl; [reflexivity | now f_equal]. Qed.

Lemma segment_spec s :
  segment s = true <->
  list_ascii_of_string s <> [] /\ forallb word_char (list_ascii_of_string s) = true.
Proof.
  unfold segment. rewrite andb_true_iff.
  destruct s; cbn; split; intros [H1 H2]; split; auto; discriminate || congruence.
Qed.

(** [validate_package_id] accepts exactly two segments joined by one
    dot, possibly followed by one line feed. *)
Lemma re_match_spec p s :
  Re.re_match p s = true <->
  exists m, Re.exec p true Re.no_capture (list_ascii_of_string s) = Some m.
Proof.
  unfold Re.re_match. destruct (Re.exec _ _ _ _) as [m|].
  - split; eauto.
  - split; [discriminate | intros [m H]; discriminate].
Qed.

(** [validate_package_id] accepts exactly two segments joined by one
    dot, possibly followed by one line feed. *)
Lemma validate_package_id_spec s :
  S.validate_package_id (Some s) = true <->
  exists a b, segment a = true /\ segment b = true
              /\ (s = a ++ "." ++ b \/ s = a ++ "." ++ b ++ newline).
Proof.
  unfold S.validate_package_id.
  assert (Hempty : Re.re_match S.package_id_pattern EmptyString = false) by reflexivity.
  split.
  - intros H.
    assert (Hm : Re.re_match S.package_id_pattern s = true)
      by (destruct s; [discriminate | exact H]).
    apply re_match_spec, package_id_pattern_spec in Hm
      as (a & b & Ha & Hb & Hwa & Hwb & Hs).
    exists (string_of_list_ascii a), (string_of_list_ascii b).
    rewrite !segment_spec, !list_ascii_of_string_of_list_ascii.
    repeat split; auto.
    rewrite <- (string_of_list_ascii_of_string s).
    destruct Hs as [-> | ->]; [left | right];
      rewrite <- (string_of_list_ascii_of_string (_ ++ _));
      f_equal; rewrite !list_ascii_of_string_app, ?list_ascii_of_string_of_list_ascii;
      reflexivity.
  - intros (a & b & Ha & Hb & Hs).
    apply segment_spec in Ha as [Ha Hwa]. apply segment_spec in Hb as [Hb Hwb].
    assert (Hm : Re.re_match S.package_id_pattern s = true).
    { apply re_match_spec, package_id_pattern_spec.
      exists (list_ascii_of_string a), (list_ascii_of_string b).
      repeat split; auto.
      destruct Hs as [-> | ->]; [left | right];
        rewrite !list_ascii_of_string_app; reflexivity. }
    destruct s; [congruence | exact Hm].
Qed.

End PackageId.

(* ================================================================== *)
(** ** Properties of [SimpleXMLValidator.validate_content] *)
(* ================================================================== *)

Section ValidateContent.

Import Log.

Variable fromstring : string -> ParseResult.

(** The state in which [validate_content] is entered has no influence
    on what it returns and leaves behind. *)
Lemma validate_content_fresh content st st' :
  S.validate_content fromstring content st = S.validate_content fromstring content st'.
Proof.
  destruct (fromstring content) as [msg|root] eqn:Hp.
  - now rewrite !(validate_content_parse_error _ _ _ _ Hp).
  - now rewrite !(validate_content_parsed _ _ _ _ Hp).
Qed.

(** The report says [valid] exactly when [validate_content] returned
    [True]. *)
Lemma report_valid content st :
  S.valid (fst (S.get_validation_report (snd (S.validate_content fromstring content st))))
  = fst (S.validate_content fromstring content st).
Proof.
  destruct (fromstring content) as [msg|root] eqn:Hp.
  - now rewrite (validate_content_parse_error _ _ _ _ Hp).
  - now rewrite (validate_content_parsed _ _ _ _ Hp).
Qed.

Lemma length_zero {A} (l : list A) : (List.length l =? 0)%nat = true <-> l = [].
Proof. destruct l; cbn; split; congruence. Qed.

(** C5. When the parser raises [ParseError] on the text,
    [validate_content] returns [False], the errors are exactly the one
    syntax error carrying the parser's message, the warnings are
    empty, the outcome is that of [validate_xml_syntax] alone (the
    structural rules add nothing), and the report is not valid.  The
    empty text is such a text for every parser that rejects it, as
    expat does. *)
Theorem C5_parse_error_short_circuits content msg st :
  fromstring content = ParseError msg ->
  S.validate_content fromstring content st
    = (false, {| S.errors := ["Синтаксична помилка XML: " ++ msg];
                 S.warnings := [] |})
  /\ S.validate_content fromstring content st
     = S.validate_xml_syntax fromstring content st
  /\ S.valid (fst (S.get_validation_report
                     (snd (S.validate_content fromstring content st)))) = false.
Proof.
  intros Hp. rewrite report_valid, (validate_content_parse_error _ _ _ _ Hp).
  repeat split. unfold S.validate_xml_syntax. now rewrite Hp.
Qed.

(** C8. Two calls of [validate_content] in a row on the same text
    leave the same errors and the same warnings, and return the same
    value: nothing of the first call reaches the second. *)
Theorem C8_validate_content_twice content st :
  let first := S.validate_content fromstring content st in
  let second := S.validate_content fromstring content (snd first) in
  S.errors (snd second) = S.errors (snd first)
  /\ S.warnings (snd second) = S.warnings (snd first)
  /\ fst second = fst first.
Proof.
  intros first second. unfold second, first.
  now rewrite (validate_content_fresh content (snd _) st).
Qed.

Lemma unknown_Defs : unknown "Defs" = false.
Proof. vm_compute. reflexivity. Qed.

(** C9. A [Defs] root without child elements: [validate_content]
    returns [True], there is no error, and the only warning says that
    the file holds no definition. *)
Theorem C9_defs_without_children content root st :
  fromstring content = Parsed root ->
  tag root = "Defs" ->
  children root = [] ->
  S.validate_content fromstring content st
    = (true, {| S.errors := [];
                S.warnings := ["Файл Defs не містить жодної дефініції"] |}).
Proof.
  intros Hp Htag Hcs. rewrite (validate_content_parsed _ _ _ _ Hp).
  destruct root as [t a x tl cs]. cbn in Htag, Hcs. subst t cs.
  unfold root_errors, root_warnings, unknown_warnings. cbn [tag String.eqb].
  cbn [unknown_paths flat_map]. rewrite unknown_Defs. reflexivity.
Qed.

Lemma unknown_paths_in e :
  forall path d, In d (iter e) -> unknown (tag d) = true ->
    exists p, In (join p (tag d)) (unknown_paths e path).
Proof.
  induction e as [t a x tl cs IH] using Element_ind. intros path d Hd Hu.
  cbn [iter] in Hd. cbn [unknown_paths]. destruct Hd as [<- | Hd].
  - exists path. cbn [tag] in *. rewrite Hu. now left.
  - apply List.in_flat_map in Hd as (c & Hc & Hd).
    rewrite List.Forall_forall in IH.
    destruct (IH c Hc (join path t) d Hd Hu) as (p & Hp).
    exists p. apply in_or_app. right. apply List.in_flat_map. eauto.
Qed.

(** C6. On a text that parses, [validate_content] returns [True] exactly
    when the errors it leaves are empty.  The errors are those of the
    rules chosen by the root tag: the walk over the tags adds none.
    Every element with an unknown tag has its warning (naming its
    slash-joined path) among the warnings; a root that is neither
    [ModMetaData] nor [Defs] gives the result [True], no error, and the
    warning about the unusual root. *)
Theorem C6_valid_iff_no_errors content root st :
  fromstring content = Parsed root ->
  let out := S.validate_content fromstring content st in
  (fst out = true <-> S.errors (snd out) = [])
  /\ S.errors (snd out) = root_errors root
  /\ S.warnings (snd out) = (root_warnings root ++ unknown_warnings root EmptyString)%list
  /\ (forall d, In d (iter root) -> unknown (tag d) = true ->
        exists p, In ("Невідомий тег: " ++ join p (tag d)) (S.warnings (snd out)))
  /\ (tag root <> "ModMetaData" -> tag root <> "Defs" ->
        fst out = true /\ S.errors (snd out) = []
        /\ In ("Незвичний кореневий елемент: " ++ tag root) (S.warnings (snd out))).
Proof.
  intros Hp out. unfold out. rewrite (validate_content_parsed _ _ _ _ Hp).
  cbn [fst snd S.errors S.warnings]. repeat split.
  - apply length_zero.
  - apply length_zero.
  - intros d Hd Hu. destruct (unknown_paths_in root EmptyString d Hd Hu) as (p & Hin).
    exists p. apply in_or_app. right. unfold unknown_warnings.
    apply (in_map (fun q => "Невідомий тег: " ++ q)), Hin.
  - unfold root_errors. apply String.eqb_neq in H, H0. now rewrite H, H0.
  - unfold root_errors. apply String.eqb_neq in H, H0. now rewrite H, H0.
  - unfold root_warnings. apply String.eqb_neq in H, H0. rewrite H, H0. now left.
Qed.




Lemma metadata_format_error content root st e :
  fromstring content = Parsed root ->
  tag root = "ModMetaData" ->
  find root "packageId" = Some e ->
  S.validate_package_id (text e) = false ->
  let out := S.validate_content fromstring content st in
  In ("Неправильний формат packageId: " ++ Py.format_opt (text e)) (S.errors (snd out))
  /\ fst out = false.
Proof.
  intros Hp Htag He Hbad out. unfold out.
  rewrite (validate_content_parsed _ _ _ _ Hp). cbn [fst snd S.errors].
  unfold root_errors. rewrite Htag.
  change ("ModMetaData" =? "ModMetaData") with true. cbn iota.
  assert (Hin : In (bad_package_id (text e)) (metadata_errors root)).
  { unfold metadata_errors. rewrite He, Hbad. apply in_or_app. right. now left. }
  split; [exact Hin|].
  destruct (metadata_errors root); [contradiction | reflexivity].
Qed.

(** A missing-tag error is never a packageId-format error. *)
Lemma missing_tag_not_format t p : missing_tag t <> bad_package_id p.
Proof. unfold missing_tag, bad_package_id. simpl. discriminate. Qed.

Lemma metadata_no_format_error content root st e :
  fromstring content = Parsed root ->
  tag root = "ModMetaData" ->
  find root "packageId" = Some e ->
  S.validate_package_id (text e) = true ->
  let out := S.validate_content fromstring content st in
  forall p, ~ In ("Неправильний формат packageId: " ++ Py.format_opt p)
              (S.errors (snd out)).
Proof.
  intros Hp Htag He Hok out p. unfold out.
  rewrite (validate_content_parsed _ _ _ _ Hp). cbn [snd S.errors].
  unfold root_errors. rewrite Htag.
  change ("ModMetaData" =? "ModMetaData") with true. cbn iota.
  unfold metadata_errors. rewrite He, Hok, app_nil_r.
  intros Hin. apply in_map_iff in Hin as (t & Heq & _).
  exact (missing_tag_not_format t p Heq).
Qed.

End ValidateContent.

(* ================================================================== *)
(** ** The packageId format *)
(* ================================================================== *)

Section PackageIdClaims.

Import Log.

Lemma word_char_spec c :
  word_char c = true <->
  let n := nat_of_ascii c in
  (97 <= n <= 122) \/ (65 <= n <= 90) \/ (48 <= n <= 57) \/ n = 95.
Proof.
  unfold word_char, S.word_class.
  cbn [Re.atom_matches existsb]. unfold Re.in_range. cbn [fst snd].
  change (nat_of_ascii "a") with 97. change (nat_of_ascii "z") with 122.
  change (nat_of_ascii "A") with 65. change (nat_of_ascii "Z") with 90.
  change (nat_of_ascii "0") with 48. change (nat_of_ascii "9") with 57.
  change (nat_of_ascii "_") with 95.
  rewrite !orb_true_iff, !andb_true_iff, !Nat.leb_le. cbv zeta.
  split; [intros [H|[H|[H|[H|H]]]]; (discriminate || lia) | lia].
Qed.

(** C4. [validate_package_id] accepts "author.mod" and
    "john_doe.my_mod" and rejects "justauthor", "Author.Mod Name",
    ".mod" and "author."; in a metadata document that parses, a
    packageId element with one of the rejected texts puts the
    packageId-format error naming that text among the errors, and
    [validate_content] returns [False]. *)
Theorem C4_package_id_examples :
  S.validate_package_id (Some "author.mod") = true
  /\ S.validate_package_id (Some "john_doe.my_mod") = true
  /\ S.validate_package_id (Some "justauthor") = false
  /\ S.validate_package_id (Some "Author.Mod Name") = false
  /\ S.validate_package_id (Some ".mod") = false
  /\ S.validate_package_id (Some "author.") = false
  /\ forall fromstring content root st e p,
       fromstring content = Parsed root ->
       tag root = "ModMetaData" ->
       find root "packageId" = Some e ->
       text e = Some p ->
       In p ["justauthor"; "Author.Mod Name"; ".mod"; "author."] ->
       let out := S.validate_content fromstring content st in
       In ("Неправильний формат packageId: " ++ p) (S.errors (snd out))
       /\ fst out = false.
Proof.
  repeat (split; [reflexivity|]).
  intros fromstring content root st e p Hp Htag He Htext Hin.
  assert (Hbad : S.validate_package_id (text e) = false).
  { rewrite Htext. cbn [In] in Hin.
    destruct Hin as [<- | [<- | [<- | [<- | []]]]]; reflexivity. }
  pose proof (metadata_format_error fromstring content root st e Hp Htag He Hbad) as H.
  rewrite Htext in H. exact H.
Qed.

(** C10. Two segments joined by a dot and followed by one line feed
    (for example "author.mod" and a line feed) pass
    [validate_package_id]: [$] matches before the final line feed.  In
    a metadata document that parses, a packageId element with such a
    text leaves no packageId-format error among the errors. *)
Theorem C10_trailing_newline_accepted a b :
  segment a = true -> segment b = true ->
  S.validate_package_id (Some (a ++ "." ++ b ++ newline)) = true
  /\ forall fromstring content root st e,
       fromstring content = Parsed root ->
       tag root = "ModMetaData" ->
       find root "packageId" = Some e ->
       text e = Some (a ++ "." ++ b ++ newline) ->
       let out := S.validate_content fromstring content st in
       forall p, ~ In ("Неправильний формат packageId: " ++ Py.format_opt p)
                   (S.errors (snd out)).
Proof.
  intros Ha Hb.
  assert (Hok : S.validate_package_id (Some (a ++ "." ++ b ++ newline)) = true).
  { apply validate_package_id_spec. exists a, b. auto. }
  split; [exact Hok|].
  intros fromstring content root st e Hp Htag He Htext.
  apply (metadata_no_format_error fromstring content root st e Hp Htag He).
  now rewrite Htext.
Qed.

(** C3, as the code has it.  [validate_package_id] rejects [None] and
    accepts a text exactly when it is two non-empty segments of ASCII
    letters of either case, digits and underscores, joined by one dot,
    possibly followed by one line feed.  In a metadata document that
    parses, a packageId element whose text is rejected puts the
    packageId-format error among the errors and [validate_content]
    returns [False]. *)
Theorem C3_package_id_format :
  S.validate_package_id None = false
  /\ (forall s,
        S.validate_package_id (Some s) = true <->
        exists a b, segment a = true /\ segment b = true
                    /\ (s = a ++ "." ++ b \/ s = a ++ "." ++ b ++ newline))
  /\ (forall c,
        word_char c = true <->
        let n := nat_of_ascii c in
        (97 <= n <= 122) \/ (65 <= n <= 90) \/ (48 <= n <= 57) \/ n = 95)
  /\ forall fromstring content root st e,
       fromstring content = Parsed root ->
       tag root = "ModMetaData" ->
       find root "packageId" = Some e ->
       S.validate_package_id (text e) = false ->
       let out := S.validate_content fromstring content st in
       In ("Неправильний формат packageId: " ++ Py.format_opt (text e))
          (S.errors (snd out))
       /\ fst out = false.
Proof.
  split; [reflexivity|]. split; [exact validate_package_id_spec|].
  split; [exact word_char_spec|]. exact metadata_format_error.
Qed.

End PackageIdClaims.

(* ================================================================== *)
(** ** The structural pass of [EnhancedXMLValidator] as a log *)
(* ================================================================== *)

Create HintDb reports.

Section EnhancedLogs.

Import Log.

Lemma reports_refl r : reports r r [].
Proof. split; cbn; [now rewrite app_nil_r | now rewrite andb_true_r]. Qed.

Lemma reports_trans r1 r2 r3 es es' :
  reports r1 r2 es -> reports r2 r3 es' -> reports r1 r3 (es ++ es').
Proof.
  intros [He Hv] [He' Hv']. split.
  - now rewrite He', He, app_assoc.
  - rewrite Hv', Hv. destruct es, es'; cbn; now rewrite ?andb_true_r, ?andb_false_r.
Qed.

Lemma reports_add_error msg r : reports r (E.add_error msg r) [msg].
Proof. split; cbn; [reflexivity | now rewrite andb_false_r]. Qed.

Lemma reports_add_warning msg r : reports r (E.add_warning msg r) [].
Proof. exact (reports_refl r). Qed.

Lemma reports_add_info msg r : reports r (E.add_info msg r) [].
Proof. exact (reports_refl r). Qed.

#[local] Hint Resolve reports_refl reports_add_error reports_add_warning
  reports_add_info : reports.

(** A loop whose turns only add notes or warnings reports nothing. *)
Lemma reports_fold_quiet {A} (f : E.Result -> A -> E.Result) l :
  (forall r x, reports r (f r x) []) ->
  forall r, reports r (fold_left f l r) [].
Proof.
  intros Hf. induction l as [|x l IH]; intros r; cbn [fold_left].
  - apply reports_refl.
  - apply (reports_trans r (f r x) _ [] []); [apply Hf | apply IH].
Qed.

Lemma reports_then_warning msg r r' es :
  reports r r' es -> reports r (E.add_warning msg r') es.
Proof.
  intros H. rewrite <- (app_nil_r es).
  exact (reports_trans _ _ _ _ _ H (reports_add_warning msg r')).
Qed.

Lemma reports_then_error msg r r' :
  reports r r' [] -> reports r (E.add_error msg r') [msg].
Proof. intros H. exact (reports_trans _ _ _ _ _ H (reports_add_error msg r')). Qed.

Lemma reports_validate_single_def def_elem expected_type r :
  reports r (E._validate_single_def def_elem expected_type r) (single_def_errors def_elem).
Proof.
  unfold E._validate_single_def. cbv zeta.
  assert (H1 : reports r
            match expected_type with
            | Some t =>
                if Py.truthy t && negb (tag def_elem =? t)
                then E.add_warning ("Очікувався " ++ t ++ ", знайдено " ++ tag def_elem) r
                else r
            | None => r
            end []).
  { destruct expected_type as [t|]; [|auto with reports].
    destruct (_ && _); auto with reports. }
  revert H1. generalize (match expected_type with
                         | Some t =>
                             if Py.truthy t && negb (tag def_elem =? t)
                             then E.add_warning
                                    ("Очікувався " ++ t ++ ", знайдено " ++ tag def_elem) r
                             else r
                         | None => r
                         end).
  intros r1 H1.
  assert (Htail : forall r', reports r r' (single_def_errors def_elem) ->
            reports r
              match E.rimworld_tags !! tag def_elem with
              | Some expected_children =>
                  fold_left (fun result child =>
                      if negb (Py.in_list (tag child) expected_children)
                         && negb (Py.in_list (tag child) ["defName"; "label"; "description"])
                      then E.add_info ("Незвичний елемент в " ++ tag def_elem ++ ": <"
                                       ++ tag child ++ ">") result
                      else result)
                    (children def_elem) r'
              | None => r'
              end (single_def_errors def_elem)).
  { intros r' H. destruct (E.rimworld_tags !! tag def_elem) as [ec|]; [|exact H].
    rewrite <- (app_nil_r (single_def_errors def_elem)).
    apply (reports_trans _ _ _ _ _ H). apply reports_fold_quiet.
    intros r'' c. destruct (_ && _); auto with reports. }
  apply Htail.
  destruct (Py.is_none (find def_elem "description")); [apply reports_then_warning|];
    (destruct (Py.is_none (find def_elem "label")); [apply reports_then_warning|]);
    unfold single_def_errors;
    (destruct (find def_elem "defName") as [d|];
     [destruct (E.blank (text d)); [apply reports_then_error|] | apply reports_then_error]);
    exact H1.
Qed.

Lemma reports_defs_loop cs :
  forall n r,
    reports r (snd (fold_left E.defs_step cs (n, r)))
      (flat_map (fun c => if Py.endswith (tag c) "Def" then single_def_errors c else []) cs).
Proof.
  induction cs as [|c cs IH]; intros n r; cbn [fold_left flat_map].
  - apply reports_refl.
  - unfold E.defs_step at 2. destruct (Py.endswith (tag c) "Def").
    + eapply reports_trans; [apply reports_validate_single_def | apply IH].
    + eapply (reports_trans _ _ _ []); [apply reports_add_warning | apply IH].
Qed.

Lemma reports_validate_defs_structure root r :
  reports r (E._validate_defs_structure root r) (enhanced_defs_errors root).
Proof.
  unfold E._validate_defs_structure, enhanced_defs_errors.
  pose proof (reports_defs_loop (children root) 0 r) as H.
  destruct (fold_left E.defs_step (children root) (0, r)) as [n r'].
  cbn [snd] in H. rewrite <- (app_nil_r (flat_map _ _)).
  apply (reports_trans _ _ _ _ _ H).
  destruct (n =? 0)%nat; auto with reports.
Qed.

Lemma reports_duplicates_loop l :
  forall seen r,
    reports r (snd (fold_left E.duplicate_step l (seen, r)))
      (List.map duplicate (repeats seen (names_of l))).
Proof.
  induction l as [|e l IH]; intros seen r; cbn [fold_left names_of].
  - apply reports_refl.
  - unfold E.duplicate_step at 2. unfold registered_name.
    destruct (Py.endswith (tag e) "Def"); [|apply IH].
    destruct (find e "defName") as [d|]; [|apply IH].
    destruct (text d) as [name|]; [|apply IH].
    destruct (Py.truthy name); [|apply IH].
    cbn [repeats]. destruct (Py.in_list name seen); [|apply IH].
    cbn [List.map].
    apply (reports_trans r (E.add_error ("Дублікат defName: " ++ name) r) _
             [duplicate name] (List.map duplicate (repeats seen (names_of l))));
      [apply reports_add_error | apply IH].
Qed.

Lemma reports_check_common_issues root r :
  reports r (E._check_common_issues root r)
    (List.map duplicate (repeats [] (registered_names root))).
Proof.
  unfold E._check_common_issues, registered_names.
  eapply (reports_trans _ _ _ []); [|apply reports_duplicates_loop].
  apply reports_fold_quiet. intros r' x. unfold E.empty_step.
  destruct (_ && _); auto with reports.
Qed.

Lemma reports_check_xml_declaration content r :
  reports r (E._check_xml_declaration content r) [].
Proof.
  unfold E._check_xml_declaration.
  repeat case_if; auto with reports.
Qed.

Lemma reports_check_well_formed content r r' :
  E._check_well_formed content r = Py.Returns r' -> reports r r' [].
Proof.
  unfold E._check_well_formed.
  destruct (E.not_self_closing _ _) as [open_tags|e]; [|discriminate].
  intros H. injection H as <-.
  case_if; auto with reports.
Qed.

Lemma reports_analyze_parse_error content msg r :
  reports r (E._analyze_parse_error content msg r) [].
Proof.
  unfold E._analyze_parse_error.
  destruct (Re.search _ _) as [digits|]; [|apply reports_refl].
  case_if; [|apply reports_refl].
  repeat case_if;
    repeat (apply reports_refl || apply reports_add_info
            || (eapply (reports_trans _ _ _ [] []); [apply reports_add_info|])).
Qed.

(** The syntax stage clears [valid] whenever it leaves an error. *)
Lemma validate_xml_syntax_valid fromstring content :
  E.valid (E.validate_xml_syntax fromstring content) = true ->
  E.errors (E.validate_xml_syntax fromstring content) = [].
Proof.
  unfold E.validate_xml_syntax. cbv zeta.
  destruct (negb (Py.truthy (Py.strip content))); [discriminate|].
  destruct (fromstring content) as [msg|root].
  - intros H.
    destruct (reports_analyze_parse_error content msg
                (E.add_error ("XML синтаксична помилка: " ++ msg) E.new_result))
      as [_ Hv].
    rewrite Hv in H. discriminate.
  - unfold E._check_encoding.
    destruct (E._check_well_formed _ _) as [r'|e] eqn:Hwf; [|discriminate].
    intros _.
    destruct (reports_check_well_formed _ _ _ Hwf) as [He _].
    destruct (reports_check_xml_declaration content
                (E.add_info ("XML синтаксично коректний. Кореневий елемент: <"
                             ++ tag root ++ ">") E.new_result)) as [He' _].
    rewrite He, He'. reflexivity.
Qed.

(** [validate_rimworld_structure] on a [Defs] document. *)
Lemma reports_validate_rimworld_structure fromstring content root :
  E.valid (E.validate_xml_syntax fromstring content) = true ->
  fromstring content = Parsed root ->
  tag root = "Defs" ->
  reports (E.validate_xml_syntax fromstring content)
    (E.validate_rimworld_structure fromstring content)
    (enhanced_defs_errors root
     ++ List.map duplicate (repeats [] (registered_names root))).
Proof.
  intros Hv Hp Htag. unfold E.validate_rimworld_structure. cbv zeta.
  rewrite Hv, Hp, Htag. cbn [negb].
  change (Py.in_list "Defs" _) with true. change ("Defs" =? "Defs") with true.
  cbn [negb]. cbv iota.
  eapply reports_trans;
    [apply reports_validate_defs_structure | apply reports_check_common_issues].
Qed.

(** On a [Defs] document that passed the syntax stage, the errors are
    those of the definitions followed by the duplicates, and the result
    is valid exactly when there are none. *)
Lemma validate_rimworld_structure_defs fromstring content root :
  E.valid (E.validate_xml_syntax fromstring content) = true ->
  fromstring content = Parsed root ->
  tag root = "Defs" ->
  reports E.new_result (E.validate_rimworld_structure fromstring content)
    (enhanced_defs_errors root
     ++ List.map duplicate (repeats [] (registered_names root))).
Proof.
  intros Hv Hp Htag.
  destruct (reports_validate_rimworld_structure fromstring content root Hv Hp Htag)
    as [He Hval].
  split.
  - now rewrite He, (validate_xml_syntax_valid fromstring content Hv).
  - now rewrite Hval, Hv.
Qed.

(** The syntax stage accepts a text that parses unless it is blank or
    [_check_well_formed] raises. *)
Lemma validate_xml_syntax_parsed_valid fromstring content root :
  fromstring content = Parsed root ->
  E.valid (E.validate_xml_syntax fromstring content) = true <->
  Py.truthy (Py.strip content) = true
  /\ exists open_tags,
       E.not_self_closing (Re.findall E.open_tag_pattern content)
                          (Re.findall E.self_closing_pattern content)
       = Py.Returns open_tags.
Proof.
  intros Hp. unfold E.validate_xml_syntax. cbv zeta. rewrite Hp.
  destruct (Py.truthy (Py.strip content)); cbn [negb];
    [|split; [discriminate | intros [H _]; discriminate]].
  destruct (E._check_well_formed content _) as [r'|e] eqn:Hwf.
  - destruct (reports_check_well_formed _ _ _ Hwf) as [_ Hv].
    unfold E._check_encoding in Hv.
    destruct (reports_check_xml_declaration content
                (E.add_info ("XML синтаксично коректний. Кореневий елемент: <"
                             ++ tag root ++ ">") E.new_result)) as [_ Hv'].
    rewrite Hv, Hv'. cbn.
    unfold E._check_well_formed in Hwf.
    destruct (E.not_self_closing _ _) as [open_tags|]; [|discriminate].
    split; eauto.
  - cbn. unfold E._check_well_formed in Hwf.
    destruct (E.not_self_closing _ _) as [open_tags|]; [discriminate|].
    split; [discriminate | intros [_ [ot H]]; discriminate].
Qed.

(** Such a text exists: [< >] inside a comment makes [tag.split()[0]]
    raise [IndexError], and the syntax stage rejects the well-formed
    document. *)
Remark syntax_stage_rejects_commented :
  E.validate_rimworld_structure
    (Docs.parser [(Docs.commented_text, Docs.commented)]) Docs.commented_text
  = {| E.valid := false;
       E.errors := ["Неочікувана помилка при парсингу XML: list index out of range"];
       E.warnings := [];
       E.info := ["XML синтаксично коректний. Кореневий елемент: <Defs>"] |}.
Proof. vm_compute. reflexivity. Qed.

Lemma in_list_In x l : Py.in_list x l = true <-> In x l.
Proof.
  unfold Py.in_list. rewrite existsb_exists. split.
  - intros (y & Hy & Heq). apply String.eqb_eq in Heq. now subst.
  - intros H. exists x. split; [exact H | apply String.eqb_refl].
Qed.

Lemma in_list_snoc x l y :
  Py.in_list x (l ++ [y]) = Py.in_list x l || String.eqb x y.
Proof. unfold Py.in_list. rewrite existsb_app. cbn. now rewrite orb_false_r. Qed.

(** Each name is reported once for every occurrence after the first
    one that is not yet in [seen]. *)
Lemma count_repeats l :
  forall seen v,
    count_occ string_dec (repeats seen l) v =
    if Py.in_list v seen then count_occ string_dec l v
    else count_occ string_dec l v - 1.
Proof.
  induction l as [|n l IH]; intros seen v; cbn [repeats count_occ].
  - now destruct (Py.in_list v seen).
  - destruct (Py.in_list n seen) eqn:Hn; cbn [count_occ].
    + rewrite IH. destruct (string_dec n v) as [->|Hne].
      * now rewrite Hn.
      * reflexivity.
    + rewrite IH, in_list_snoc. destruct (string_dec n v) as [->|Hne].
      * rewrite Hn, String.eqb_refl. cbn. lia.
      * apply String.eqb_neq in Hne. rewrite String.eqb_sym in Hne.
        rewrite Hne, orb_false_r. reflexivity.
Qed.

Lemma names_of_app l1 l2 : names_of (l1 ++ l2) = (names_of l1 ++ names_of l2)%list.
Proof.
  induction l1 as [|e l1 IH]; cbn; [reflexivity|].
  destruct (registered_name e); cbn; now rewrite IH.
Qed.

Lemma names_of_iter_head c v :
  registered_name c = Some v -> 1 <= count_occ string_dec (names_of (iter c)) v.
Proof.
  intros H. destruct c as [t a x tl cs]. cbn [iter names_of]. rewrite H.
  cbn [count_occ]. destruct (string_dec v v); [lia | congruence].
Qed.

Lemma count_names_cons e l v :
  count_occ string_dec (names_of l) v <= count_occ string_dec (names_of (e :: l)) v.
Proof.
  cbn [names_of]. destruct (registered_name e) as [n|]; [|lia].
  cbn [count_occ]. destruct (string_dec n v); lia.
Qed.

(** Two children that register the same name make it occur twice
    among the names of the tree. *)
Lemma siblings_registered_twice root l1 c1 l2 c2 l3 v :
  children root = (l1 ++ c1 :: l2 ++ c2 :: l3)%list ->
  registered_name c1 = Some v ->
  registered_name c2 = Some v ->
  2 <= count_occ string_dec (registered_names root) v.
Proof.
  intros Hcs H1 H2. unfold registered_names.
  destruct root as [t a x tl cs]. cbn [children] in Hcs. subst cs. cbn [iter].
  etransitivity; [|apply count_names_cons].
  rewrite flat_map_app. cbn [flat_map]. rewrite flat_map_app. cbn [flat_map].
  rewrite !names_of_app, !count_occ_app.
  pose proof (names_of_iter_head c1 v H1). pose proof (names_of_iter_head c2 v H2).
  lia.
Qed.

Lemma whitespace_only_strip s : whitespace_only s = true -> Py.strip s = EmptyString.
Proof.
  unfold whitespace_only, Py.strip. intros H.
  replace (Py.dropwhile Py.isspace (Py.chars s)) with (@nil string); [reflexivity|].
  induction (Py.chars s) as [|ch l IH]; [reflexivity|].
  cbn in H |- *. apply andb_true_iff in H as [Hch Hl]. rewrite Hch. auto.
Qed.

Lemma whitespace_only_blank s : whitespace_only s = true -> E.blank (Some s) = true.
Proof.
  intros H. unfold E.blank. rewrite (whitespace_only_strip s H). cbn.
  apply orb_true_r.
Qed.

End EnhancedLogs.

(* ================================================================== *)
(** ** Missing, empty and duplicate defNames *)
(* ================================================================== *)

Section DefNames.

Import Log.

Variable fromstring : string -> ParseResult.

Lemma reports_nonempty r r' es msg :
  reports r r' es -> In msg es -> In msg (E.errors r') /\ E.valid r' = false.
Proof.
  intros [He Hv] Hin. split.
  - rewrite He. apply in_or_app. now right.
  - rewrite Hv. destruct es; [contradiction | apply andb_false_r].
Qed.

Lemma append_left_injective (t a b : string) : t ++ a = t ++ b -> a = b.
Proof. induction t as [|c t IH]; cbn; [auto | intros H; injection H; auto]. Qed.

(** C1, as the code has it.  [EnhancedXMLValidator] checks duplicates,
    in [validate_rimworld_structure].  On a [Defs] document that parses
    and passed the syntax stage, the errors are those of the
    definitions and one "Дублікат defName" error per repeated name: the
    check reads the non-empty text of the first defName child of every
    element of the tree whose tag ends in [Def], and reports a name once
    for each occurrence after the first.  A name read n times is thus
    reported n - 1 times, once when it is read twice (the count of the
    message among the errors is that number, plus the messages of the
    definitions that happen to read the same); a name read at least
    twice, as with two children of the root that carry it, is reported
    and the result is not valid. *)
Theorem C1_duplicate_def_names content root :
  E.valid (E.validate_xml_syntax fromstring content) = true ->
  fromstring content = Parsed root ->
  tag root = "Defs" ->
  let out := E.validate_rimworld_structure fromstring content in
  let names := registered_names root in
  E.errors out
    = (enhanced_defs_errors root
       ++ List.map (fun v => ("Дублікат defName: " ++ v)%string) (repeats [] names))%list
  /\ (forall v, count_occ string_dec (repeats [] names) v
                = count_occ string_dec names v - 1)
  /\ (forall v, count_occ string_dec names v = 2 ->
                count_occ string_dec (repeats [] names) v = 1)
  /\ (forall v, count_occ string_dec (E.errors out) ("Дублікат defName: " ++ v)
                = count_occ string_dec (enhanced_defs_errors root)
                    ("Дублікат defName: " ++ v)
                  + (count_occ string_dec names v - 1))
  /\ (forall v, 2 <= count_occ string_dec names v ->
                In ("Дублікат defName: " ++ v) (E.errors out) /\ E.valid out = false)
  /\ (forall l1 c1 l2 c2 l3 v,
        children root = (l1 ++ c1 :: l2 ++ c2 :: l3)%list ->
        registered_name c1 = Some v ->
        registered_name c2 = Some v ->
        In ("Дублікат defName: " ++ v) (E.errors out) /\ E.valid out = false).
Proof.
  intros Hv Hp Htag out names.
  pose proof (validate_rimworld_structure_defs fromstring content root Hv Hp Htag) as Hrep.
  fold out in Hrep. fold names in Hrep.
  assert (Hcount : forall v, count_occ string_dec (repeats [] names) v
                             = count_occ string_dec names v - 1).
  { intros v. now rewrite count_repeats. }
  assert (Htwice : forall v, 2 <= count_occ string_dec names v ->
                     In ("Дублікат defName: " ++ v) (E.errors out) /\ E.valid out = false).
  { intros v Hge. apply (reports_nonempty _ _ _ _ Hrep).
    apply in_or_app. right. apply (in_map duplicate).
    apply (count_occ_In string_dec). rewrite Hcount. lia. }
  split; [exact (proj1 Hrep)|]. split; [exact Hcount|].
  split; [intros v H2; rewrite Hcount, H2; reflexivity|].
  split.
  { intros v. rewrite (proj1 Hrep). cbn [E.errors E.new_result app].
    rewrite count_occ_app. f_equal. rewrite <- Hcount.
    symmetry. apply (count_occ_map duplicate string_dec string_dec).
    intros x y. apply append_left_injective. }
  split; [exact Htwice|].
  intros l1 c1 l2 c2 l3 v Hcs H1 H2. apply Htwice.
  exact (siblings_registered_twice root l1 c1 l2 c2 l3 v Hcs H1 H2).
Qed.

(** [SimpleXMLValidator] has no duplicate check: whatever the text,
    no error of [validate_content] is a duplicate message. *)
Remark simple_reports_no_duplicate content st v :
  ~ In ("Дублікат defName: " ++ v)
       (S.errors (snd (S.validate_content fromstring content st))).
Proof.
  destruct (fromstring content) as [msg|root] eqn:Hp.
  - rewrite (validate_content_parse_error _ _ _ _ Hp). cbn [snd S.errors In].
    intros [H | []]. simpl in H. discriminate.
  - rewrite (validate_content_parsed _ _ _ _ Hp). cbn [snd S.errors].
    unfold root_errors, metadata_errors, defs_errors, def_errors.
    repeat case_if; rewrite ?in_app_iff, ?in_map_iff, ?List.in_flat_map;
      intros H; cbn [In] in H;
      repeat match goal with
             | H : _ \/ _ |- _ => destruct H as [H | H]
             | H : exists _, _ |- _ => destruct H as [? H]
             | H : _ /\ _ |- _ => destruct H as [H ?]
             | H : False |- _ => destruct H
             | H : In _ (match ?o with Some _ => _ | None => _ end) |- _ =>
                 destruct o; cbn [In] in H
             | H : In _ (if ?c then _ else _) |- _ => destruct c; cbn [In] in H
             | H : ?a = ?b |- _ =>
                 unfold missing_tag, bad_package_id, no_def_name, empty_def_name in H;
                 simpl in H; discriminate H
             end.
Qed.

Lemma defs_errors_in root child msg :
  In child (children root) -> In msg (def_errors child) -> In msg (defs_errors root).
Proof. intros Hc Hm. unfold defs_errors. apply List.in_flat_map. eauto. Qed.

Lemma simple_defs_error content root st msg :
  fromstring content = Parsed root ->
  tag root = "Defs" ->
  In msg (defs_errors root) ->
  let out := S.validate_content fromstring content st in
  In msg (S.errors (snd out)) /\ fst out = false.
Proof.
  intros Hp Htag Hin out. unfold out.
  rewrite (validate_content_parsed _ _ _ _ Hp). cbn [fst snd S.errors].
  unfold root_errors. rewrite Htag.
  change ("Defs" =? "ModMetaData") with false. change ("Defs" =? "Defs") with true.
  cbv iota. split; [exact Hin|].
  destruct (defs_errors root); [contradiction | reflexivity].
Qed.

Lemma enhanced_defs_error content root child msg :
  E.valid (E.validate_xml_syntax fromstring content) = true ->
  fromstring content = Parsed root ->
  tag root = "Defs" ->
  In child (children root) ->
  Py.endswith (tag child) "Def" = true ->
  In msg (single_def_errors child) ->
  let out := E.validate_rimworld_structure fromstring content in
  In msg (E.errors out) /\ E.valid out = false.
Proof.
  intros Hv Hp Htag Hc Hdef Hin out.
  apply (reports_nonempty _ _ _ _
           (reports_validate_rimworld_structure fromstring content root Hv Hp Htag)).
  apply in_or_app. left. unfold enhanced_defs_errors. apply List.in_flat_map.
  exists child. split; [exact Hc | now rewrite Hdef].
Qed.

(** C2, as the code has it.  In a [Defs] document that parses:
    [SimpleXMLValidator] reports every child of the root that has no
    defName child with "не має defName", and every child whose first
    defName child has no text ([None] or the empty text) with
    "Порожній defName"; [EnhancedXMLValidator], on a document that
    passed its syntax stage, does the same, with its own two messages,
    for every child whose tag ends in [Def], and there the empty case
    covers a text of whitespace only.  Each of these errors makes the
    document invalid, and in each validator the two messages differ. *)
Theorem C2_missing_and_empty_def_name content root child :
  fromstring content = Parsed root ->
  tag root = "Defs" ->
  In child (children root) ->
  (forall st,
     let out := S.validate_content fromstring content st in
     (find child "defName" = None ->
      In ("Дефініція " ++ tag child ++ " не має defName") (S.errors (snd out))
      /\ fst out = false)
     /\ (forall d, find child "defName" = Some d ->
           text d = None \/ text d = Some EmptyString ->
           In ("Порожній defName у дефініції " ++ tag child) (S.errors (snd out))
           /\ fst out = false))
  /\ (E.valid (E.validate_xml_syntax fromstring content) = true ->
      Py.endswith (tag child) "Def" = true ->
      let out := E.validate_rimworld_structure fromstring content in
        (find child "defName" = None ->
         In (tag child ++ " не має обов'язкового елемента <defName>") (E.errors out)
         /\ E.valid out = false)
        /\ (forall d, find child "defName" = Some d ->
              text d = None \/ (exists t, text d = Some t /\ whitespace_only t = true) ->
              In (tag child ++ " має порожній <defName>") (E.errors out)
              /\ E.valid out = false))
  /\ (forall t t', "Дефініція " ++ t ++ " не має defName"
                   <> "Порожній defName у дефініції " ++ t')
  /\ (forall t, t ++ " не має обов'язкового елемента <defName>"
                <> t ++ " має порожній <defName>").
Proof.
  intros Hp Htag Hc. split; [|split; [|split]].
  - intros st out. split.
    + intros Hnone. apply (simple_defs_error content root st _ Hp Htag).
      apply (defs_errors_in root child _ Hc). unfold def_errors. rewrite Hnone. now left.
    + intros d Hd Htext. apply (simple_defs_error content root st _ Hp Htag).
      apply (defs_errors_in root child _ Hc). unfold def_errors. rewrite Hd.
      destruct Htext as [-> | ->]; now left.
  - intros Hv Hdef out. split.
    + intros Hnone.
      apply (enhanced_defs_error content root child _ Hv Hp Htag Hc Hdef).
      unfold single_def_errors. rewrite Hnone. now left.
    + intros d Hd Htext.
      apply (enhanced_defs_error content root child _ Hv Hp Htag Hc Hdef).
      unfold single_def_errors. rewrite Hd.
      destruct Htext as [-> | (t & -> & Hws)];
        [|rewrite (whitespace_only_blank t Hws)]; now left.
  - intros t t'. simpl. discriminate.
  - intros t H. apply append_left_injective in H. simpl in H. discriminate.
Qed.

End DefNames.

(* ================================================================== *)
(** ** The statements at sample documents *)
(* ================================================================== *)

Lemma C5_parse_error_short_circuits_witness :
  Docs.parser [] EmptyString = ParseError "no element found: line 1, column 0"
  /\ S.validate_content (Docs.parser []) EmptyString S.init
     = (false, {| S.errors := ["Синтаксична помилка XML: no element found: line 1, column 0"];
                  S.warnings := [] |}).
Proof.
  split; [reflexivity|].
  apply (C5_parse_error_short_circuits (Docs.parser []) EmptyString
           "no element found: line 1, column 0" S.init).
  reflexivity.
Defined.

Lemma C9_defs_without_children_witness :
  Docs.parser [(Docs.empty_defs_text, Docs.empty_defs)] Docs.empty_defs_text
    = Parsed Docs.empty_defs
  /\ S.validate_content (Docs.parser [(Docs.empty_defs_text, Docs.empty_defs)])
       Docs.empty_defs_text S.init
     = (true, {| S.errors := [];
                 S.warnings := ["Файл Defs не містить жодної дефініції"] |}).
Proof.
  split; [reflexivity|].
  apply (C9_defs_without_children _ Docs.empty_defs_text Docs.empty_defs S.init);
    reflexivity.
Defined.

Lemma C6_valid_iff_no_errors_witness :
  let parse := Docs.parser [(Docs.patch_text, Docs.patch)] in
  parse Docs.patch_text = Parsed Docs.patch
  /\ fst (S.validate_content parse Docs.patch_text S.init) = true
  /\ S.errors (snd (S.validate_content parse Docs.patch_text S.init)) = []
  /\ In "Незвичний кореневий елемент: Patch"
        (S.warnings (snd (S.validate_content parse Docs.patch_text S.init))).
Proof.
  intros parse.
  pose proof (C6_valid_iff_no_errors parse Docs.patch_text Docs.patch S.init eq_refl) as H.
  cbv zeta in H. destruct H as (_ & _ & _ & _ & H).
  split; [reflexivity|]. apply H; discriminate.
Defined.


Lemma C4_package_id_examples_witness :
  let parse := Docs.parser [(Docs.about_text "justauthor", Docs.about "justauthor")] in
  parse (Docs.about_text "justauthor") = Parsed (Docs.about "justauthor")
  /\ In "Неправильний формат packageId: justauthor"
        (S.errors (snd (S.validate_content parse (Docs.about_text "justauthor") S.init)))
  /\ fst (S.validate_content parse (Docs.about_text "justauthor") S.init) = false.
Proof.
  intros parse. split; [reflexivity|].
  destruct C4_package_id_examples as (_ & _ & _ & _ & _ & _ & H).
  apply (H parse (Docs.about_text "justauthor") (Docs.about "justauthor") S.init
           (leaf "packageId" "justauthor") "justauthor"); try reflexivity.
  cbn. auto.
Defined.

Lemma C10_trailing_newline_accepted_witness :
  Log.segment "author" = true /\ Log.segment "mod" = true
  /\ S.validate_package_id (Some ("author" ++ "." ++ "mod" ++ Log.newline)) = true.
Proof.
  split; [reflexivity|]. split; [reflexivity|].
  apply (C10_trailing_newline_accepted "author" "mod"); reflexivity.
Defined.

Lemma C3_package_id_format_witness :
  let parse := Docs.parser [(Docs.about_text "bad id", Docs.about "bad id")] in
  parse (Docs.about_text "bad id") = Parsed (Docs.about "bad id")
  /\ S.validate_package_id (Some "bad id") = false
  /\ In "Неправильний формат packageId: bad id"
        (S.errors (snd (S.validate_content parse (Docs.about_text "bad id") S.init)))
  /\ fst (S.validate_content parse (Docs.about_text "bad id") S.init) = false.
Proof.
  intros parse. split; [reflexivity|]. split; [reflexivity|].
  destruct C3_package_id_format as (_ & _ & _ & H).
  apply (H parse (Docs.about_text "bad id") (Docs.about "bad id") S.init
           (leaf "packageId" "bad id")); reflexivity.
Defined.

(** C3 as stated fails: "Author.Mod" has uppercase letters in both
    segments, passes [validate_package_id], and the metadata document
    carrying it is valid without any error. *)
Lemma C3_uppercase_accepted :
  Log.has_uppercase "Author" = true /\ Log.has_uppercase "Mod" = true
  /\ S.validate_package_id (Some "Author.Mod") = true
  /\ S.validate_content
       (Docs.parser [(Docs.about_text "Author.Mod", Docs.about "Author.Mod")])
       (Docs.about_text "Author.Mod") S.init
     = (true, {| S.errors := []; S.warnings := [] |}).
Proof. split; [|split; [|split]]; vm_compute; reflexivity. Qed.

Lemma C1_duplicate_def_names_witness :
  let parse := Docs.parser [(Docs.twins_text, Docs.twins)] in
  let out := E.validate_rimworld_structure parse Docs.twins_text in
  (E.valid (E.validate_xml_syntax parse Docs.twins_text) = true
   /\ parse Docs.twins_text = Parsed Docs.twins
   /\ tag Docs.twins = "Defs"
   /\ Log.registered_name (Docs.thing "Dup" "a") = Some "Dup"
   /\ Log.registered_name (Docs.thing "Dup" "b") = Some "Dup")
  /\ In "Дублікат defName: Dup" (E.errors out) /\ E.valid out = false.
Proof.
  intros parse out.
  assert (Hv : E.valid (E.validate_xml_syntax parse Docs.twins_text) = true)
    by (vm_compute; reflexivity).
  split; [split; [exact Hv|]; repeat (split; [vm_compute; reflexivity|]);
          vm_compute; reflexivity|].
  pose proof (C1_duplicate_def_names parse Docs.twins_text Docs.twins
                Hv eq_refl eq_refl) as H.
  cbv zeta in H. destruct H as (_ & _ & _ & _ & _ & H).
  apply (H [] (Docs.thing "Dup" "a") [] (Docs.thing "Dup" "b") [] "Dup");
    vm_compute; reflexivity.
Defined.

(** C1 as stated fails.  Three definitions named "Dup" contain two
    siblings with the same defName, and [EnhancedXMLValidator] reports
    the duplicate twice, not once; [SimpleXMLValidator] has no
    duplicate check, so two definitions named "Dup" leave no error and
    [validate_content] returns [True]. *)
Lemma C1_duplicates_counterexample :
  count_occ string_dec
    (E.errors (E.validate_rimworld_structure
                 (Docs.parser [(Docs.triplets_text, Docs.triplets)])
                 Docs.triplets_text))
    "Дублікат defName: Dup" = 2
  /\ S.validate_content (Docs.parser [(Docs.twins_text, Docs.twins)])
       Docs.twins_text S.init
     = (true, {| S.errors := []; S.warnings := [] |}).
Proof. split; vm_compute; reflexivity. Qed.

Lemma C2_missing_and_empty_def_name_witness :
  let parse := Docs.parser [(Docs.nameless_text, Docs.nameless)] in
  let child := node "ThingDef" [node "defName" []; leaf "label" "b"] in
  (parse Docs.nameless_text = Parsed Docs.nameless
   /\ tag Docs.nameless = "Defs"
   /\ In child (children Docs.nameless)
   /\ find child "defName" = Some (node "defName" [])
   /\ text (node "defName" []) = None
   /\ E.valid (E.validate_xml_syntax parse Docs.nameless_text) = true)
  /\ In "Порожній defName у дефініції ThingDef"
        (S.errors (snd (S.validate_content parse Docs.nameless_text S.init)))
  /\ In "ThingDef має порожній <defName>"
        (E.errors (E.validate_rimworld_structure parse Docs.nameless_text)).
Proof.
  intros parse child.
  assert (Hin : In child (children Docs.nameless)) by (cbn; auto).
  assert (Hv : E.valid (E.validate_xml_syntax parse Docs.nameless_text) = true)
    by (vm_compute; reflexivity).
  split; [repeat (split; [first [exact Hin | vm_compute; reflexivity]|]); exact Hv|].
  pose proof (C2_missing_and_empty_def_name parse Docs.nameless_text Docs.nameless
                child eq_refl eq_refl Hin) as (Hs & He & _).
  split.
  - specialize (Hs S.init). cbv zeta in Hs. destruct Hs as [_ Hs].
    exact (proj1 (Hs (node "defName" []) eq_refl (or_introl eq_refl))).
  - specialize (He Hv eq_refl). cbv zeta in He.
    destruct He as [_ He].
    exact (proj1 (He (node "defName" []) eq_refl (or_introl eq_refl))).
Defined.

(** C2 as stated fails.  A defName made of one space is text of
    whitespace only, and [SimpleXMLValidator] leaves no error and
    returns [True]; a child of [Defs] whose tag does not end in [Def]
    and that has no defName leaves no error in [EnhancedXMLValidator]
    and the result stays valid. *)
Lemma C2_def_name_counterexample :
  (find (Docs.thing " " "a") "defName" = Some (leaf "defName" " ")
   /\ Log.whitespace_only " " = true
   /\ S.validate_content (Docs.parser [(Docs.blank_name_text, Docs.blank_name)])
        Docs.blank_name_text S.init
      = (true, {| S.errors := []; S.warnings := [] |}))
  /\ (find (leaf "Building" "x") "defName" = None
      /\ E.errors (E.validate_rimworld_structure
                     (Docs.parser [(Docs.stray_text, Docs.stray)])
                     Docs.stray_text) = []
      /\ E.valid (E.validate_rimworld_structure
                    (Docs.parser [(Docs.stray_text, Docs.stray)])
                    Docs.stray_text) = true).
Proof.
  split; (split; [|split]); vm_compute; reflexivity.
Qed.

(* ================================================================== *)
(** ** [SimpleXMLValidator]: what makes a document valid *)
(* ================================================================== *)

Section SimpleCauses.

Import Log Terms.

Variable fromstring : string -> ParseResult.

Lemma def_errors_named child :
  List.length (def_errors child) = if named child then 0 else 1.
Proof.
  unfold def_errors, named. destruct (find child "defName") as [d|]; [|reflexivity].
  destruct (Py.truthy_opt (text d)); reflexivity.
Qed.

Lemma length_flat_map_filter {A B} (f : A -> list B) (p : A -> bool) l :
  (forall x, List.length (f x) = if p x then 0 else 1) ->
  List.length (flat_map f l) = List.length (List.filter (fun x => negb (p x)) l).
Proof.
  intros H. induction l as [|x l IH]; [reflexivity|].
  cbn [flat_map List.filter]. rewrite length_app, H, IH.
  destruct (p x); reflexivity.
Qed.

Lemma filter_nil_forallb {A} (p : A -> bool) l :
  List.filter (fun x => negb (p x)) l = [] <-> forallb p l = true.
Proof.
  induction l as [|x l IH]; cbn; [tauto|].
  destruct (p x); cbn; [exact IH|]. split; discriminate.
Qed.

Lemma named_spec child :
  named child = true <->
  exists d s, find child "defName" = Some d /\ text d = Some s /\ s <> EmptyString.
Proof.
  unfold named. split.
  - destruct (find child "defName") as [d|]; [|discriminate].
    destruct (text d) as [[|c s]|] eqn:Ht; try discriminate.
    intros _. exists d, (String c s). repeat split; [exact Ht | discriminate].
  - intros (d & s & -> & -> & Hs). destruct s; [congruence | reflexivity].
Qed.

Lemma root_errors_defs root : tag root = "Defs" -> root_errors root = defs_errors root.
Proof. intros H. unfold root_errors. rewrite H. reflexivity. Qed.

Lemma simple_defs_result content root st :
  fromstring content = Parsed root ->
  tag root = "Defs" ->
  fst (S.validate_content fromstring content st) = forallb named (children root).
Proof.
  intros Hp Htag.
  rewrite (validate_content_parsed _ _ _ st Hp). cbn [fst].
  rewrite (root_errors_defs root Htag). unfold defs_errors.
  rewrite (length_flat_map_filter def_errors named (children root) def_errors_named).
  apply eq_true_iff_eq. rewrite Nat.eqb_eq, <- filter_nil_forallb.
  split; [apply length_zero_iff_nil | intros ->; reflexivity].
Qed.

(** X1. A [Defs] document is valid for [validate_content] exactly when
    every child of the root has a defName child and the first defName
    child of each has a non-empty text; each child of which this fails
    accounts for exactly one error. *)
Theorem X1_defs_valid_iff_named content root st :
  fromstring content = Parsed root ->
  tag root = "Defs" ->
  let out := S.validate_content fromstring content st in
  fst out = forallb named (children root)
  /\ (fst out = true <->
      forall child, In child (children root) ->
        exists d s, find child "defName" = Some d /\ text d = Some s /\ s <> EmptyString)
  /\ List.length (S.errors (snd out))
     = List.length (List.filter (fun c => negb (named c)) (children root)).
Proof.
  intros Hp Htag out. subst out.
  pose proof (simple_defs_result content root st Hp Htag) as Hb.
  split; [exact Hb|]. split.
  - rewrite Hb, forallb_forall.
    split; intros H child Hin; apply named_spec, H, Hin.
  - rewrite (validate_content_parsed _ _ _ st Hp). cbn [snd S.errors].
    rewrite (root_errors_defs root Htag).
    exact (length_flat_map_filter def_errors named (children root) def_errors_named).
Qed.

End SimpleCauses.

Section SimpleErrorForms.

Import Log Terms.

Variable fromstring : string -> ParseResult.

Lemma metadata_errors_cause root e :
  In e (metadata_errors root) ->
  (exists t, In t S.required_tags /\ find root t = None /\ e = missing_tag t)
  \/ (exists d, find root "packageId" = Some d
                /\ S.validate_package_id (text d) = false
                /\ e = bad_package_id (text d)).
Proof.
  unfold metadata_errors. rewrite in_app_iff, in_map_iff.
  intros [(t & <- & Ht) | H].
  - apply filter_In in Ht as [Hin Hnone]. left. exists t.
    destruct (find root t); [discriminate|]. auto.
  - right. destruct (find root "packageId") as [d|]; [|destruct H].
    destruct (S.validate_package_id (text d)) eqn:Hv; [destruct H|].
    destruct H as [<- | []]. exists d. auto.
Qed.

Lemma defs_errors_cause root e :
  In e (defs_errors root) ->
  exists child, In child (children root)
    /\ ((find child "defName" = None /\ e = no_def_name (tag child))
        \/ (exists d, find child "defName" = Some d
                      /\ Py.truthy_opt (text d) = false
                      /\ e = empty_def_name (tag child))).
Proof.
  unfold defs_errors. rewrite List.in_flat_map. intros (child & Hin & He).
  exists child. split; [exact Hin|]. unfold def_errors in He.
  destruct (find child "defName") as [d|].
  - destruct (Py.truthy_opt (text d)) eqn:Ht; [destruct He|].
    destruct He as [<- | []]. right. exists d. auto.
  - destruct He as [<- | []]. left. auto.
Qed.

(** X2. Every error [validate_content] leaves has a cause in the
    document: the parser's failure, a required metadata tag that is
    absent, a packageId text the format rejects, a child of [Defs]
    without defName, or one whose defName has no text.  There is no
    other kind of error. *)
Theorem X2_every_error_has_a_cause content st e :
  In e (S.errors (snd (S.validate_content fromstring content st))) ->
  (exists msg, fromstring content = ParseError msg /\ e = syntax_error msg)
  \/ (exists root, fromstring content = Parsed root /\ tag root = "ModMetaData"
        /\ ((exists t, In t S.required_tags /\ find root t = None /\ e = missing_tag t)
            \/ (exists d, find root "packageId" = Some d
                          /\ S.validate_package_id (text d) = false
                          /\ e = bad_package_id (text d))))
  \/ (exists root child, fromstring content = Parsed root /\ tag root = "Defs"
        /\ In child (children root)
        /\ ((find child "defName" = None /\ e = no_def_name (tag child))
            \/ (exists d, find child "defName" = Some d
                          /\ Py.truthy_opt (text d) = false
                          /\ e = empty_def_name (tag child)))).
Proof.
  destruct (fromstring content) as [msg|root] eqn:Hp.
  - rewrite (validate_content_parse_error _ _ _ _ Hp). cbn [snd S.errors In].
    intros [<- | []]. left. exists msg. auto.
  - rewrite (validate_content_parsed _ _ _ _ Hp). cbn [snd S.errors].
    unfold root_errors.
    destruct (String.eqb (tag root) "ModMetaData") eqn:Hm.
    + apply String.eqb_eq in Hm. intros H. right; left. exists root.
      repeat split; [exact Hm|]. apply metadata_errors_cause, H.
    + destruct (String.eqb (tag root) "Defs") eqn:Hd; [|intros []].
      apply String.eqb_eq in Hd. intros H. right; right.
      destruct (defs_errors_cause root e H) as (child & Hin & Hc).
      exists root, child. auto.
Qed.

End SimpleErrorForms.

(* ================================================================== *)
(** ** [SimpleXMLValidator]: the warnings *)
(* ================================================================== *)

Section SimpleWarnings.

Import Log Terms.

Variable fromstring : string -> ParseResult.

Lemma prefix_append (a b : string) : String.prefix a (a ++ b) = true.
Proof.
  induction a as [|c a IH]; [destruct b; reflexivity|].
  change (String.prefix (String c a) (String c (a ++ b)) = true).
  cbn [String.prefix]. destruct (ascii_dec c c); [exact IH | congruence].
Qed.


Lemma filter_flat_map {A B} (p : B -> bool) (f : A -> list B) l :
  List.filter p (flat_map f l) = flat_map (fun x => List.filter p (f x)) l.
Proof.
  induction l as [|x l IH]; [reflexivity|].
  cbn [flat_map]. now rewrite List.filter_app, IH.
Qed.

Lemma length_flat_map_ext {A B C} (f : A -> list B) (g : A -> list C) l :
  Forall (fun x => List.length (f x) = List.length (g x)) l ->
  List.length (flat_map f l) = List.length (flat_map g l).
Proof.
  induction 1 as [|x l Hx _ IH]; [reflexivity|].
  cbn [flat_map]. now rewrite !length_app, Hx, IH.
Qed.

Lemma length_unknown_paths e :
  forall path,
    List.length (unknown_paths e path)
    = List.length (List.filter (fun d => unknown (tag d)) (iter e)).
Proof.
  induction e as [t a x tl cs IH] using Element_ind. intros path.
  cbn [unknown_paths iter List.filter tag]. rewrite length_app, filter_flat_map.
  rewrite (length_flat_map_ext
             (fun c => unknown_paths c (join path t))
             (fun c => List.filter (fun d => unknown (tag d)) (iter c)) cs).
  - destruct (unknown t); reflexivity.
  - eapply List.Forall_impl; [|exact IH]. intros c Hc. apply Hc.
Qed.

(** X3. [check_unknown_tags] touches no error and appends one warning
    for every element of the tree whose tag is unknown, repeated tags
    included; each of these warnings starts with the same words. *)
Theorem X3_one_warning_per_unknown_tag root path st :
  let out := snd (S.check_unknown_tags root path st) in
  S.errors out = S.errors st
  /\ exists ws,
       S.warnings out = (S.warnings st ++ ws)%list
       /\ List.length ws
          = List.length (List.filter (fun e => unknown (tag e)) (iter root))
       /\ forall w, In w ws -> Py.startswith w unknown_prefix = true.
Proof.
  intros out. subst out. rewrite (emits_check_unknown_tags root path st).
  cbn [snd S.errors S.warnings]. split; [apply app_nil_r|].
  exists (unknown_warnings root path). split; [reflexivity|]. split.
  - unfold unknown_warnings. rewrite length_map. apply length_unknown_paths.
  - intros w Hw. unfold unknown_warnings in Hw. apply in_map_iff in Hw as (p & <- & _).
    apply prefix_append.
Qed.




(** X5. For a metadata document the warning about supportedVersions
    is given exactly when the root has a supportedVersions child and
    the first one has no [li] child. *)
Theorem X5_versions_warning_iff content root st :
  fromstring content = Parsed root ->
  tag root = "ModMetaData" ->
  let out := S.validate_content fromstring content st in
  In versions_warning (S.warnings (snd out)) <->
  exists v, find root "supportedVersions" = Some v /\ findall v "li" = [].
Proof.
  intros Hp Htag out. subst out.
  rewrite (validate_content_parsed _ _ _ st Hp). cbn [snd S.warnings].
  unfold root_warnings. rewrite Htag. cbn [String.eqb Ascii.eqb Bool.eqb].
  unfold metadata_warnings. rewrite in_app_iff. split.
  - intros [Hw | Hw].
    + destruct (find root "supportedVersions") as [v|]; [|destruct Hw].
      exists v. split; [reflexivity|].
      destruct (findall v "li"); [reflexivity | destruct Hw].
    + exfalso. unfold unknown_warnings in Hw. apply in_map_iff in Hw as (p & Hw & _).
      unfold versions_warning in Hw. simpl in Hw. discriminate.
  - intros (v & -> & ->). left. now left.
Qed.

End SimpleWarnings.

(* ================================================================== *)
(** ** [SimpleXMLValidator]: the formatted report, files and the quick check *)
(* ================================================================== *)

Section SimpleReports.

Import Log Terms.

Variable fromstring : string -> ParseResult.
Variable read_text : string -> Py.outcome string.

Lemma join_cons sep b rest :
  Py.join sep (b :: rest)
  = match rest with
    | [] => b
    | _ :: _ => b ++ sep ++ Py.join sep rest
    end.
Proof. destruct rest; reflexivity. Qed.

Lemma startswith_join (p b : string) (v : bool) rest :
  String.prefix p b = v ->
  (forall x, String.prefix p (b ++ x) = v) ->
  Py.startswith (Py.join Py.nl (b :: rest)) p = v.
Proof.
  intros Hb Hx. unfold Py.startswith. rewrite join_cons.
  destruct rest; [exact Hb | apply Hx].
Qed.

Lemma shown_report_eq content st :
  fst (S.shown_report fromstring content st)
  = S.format_report
      (fst (S.get_validation_report (snd (S.validate_content fromstring content st)))).
Proof.
  unfold S.shown_report, S.bind.
  destruct (S.validate_content fromstring content st) as [b s']. reflexivity.
Qed.

Lemma validate_content_true content st :
  fst (S.validate_content fromstring content st) = true ->
  S.errors (snd (S.validate_content fromstring content st)) = [].
Proof.
  destruct (fromstring content) as [msg|root] eqn:Hp.
  - rewrite (validate_content_parse_error _ _ _ _ Hp). discriminate.
  - rewrite (validate_content_parsed _ _ _ _ Hp). cbn [fst snd S.errors].
    apply length_zero.
Qed.

(** X6. The text [main.py] shows after validating starts with the
    line for a valid file exactly when [validate_content] returned
    [True], and with the line for an invalid file exactly when it
    returned [False]; for a valid file without warnings the text is
    the valid line, an empty line and the line saying that nothing
    was found. *)
Theorem X6_report_banner content st :
  let out := S.validate_content fromstring content st in
  let shown := fst (S.shown_report fromstring content st) in
  Py.startswith shown valid_banner = fst out
  /\ Py.startswith shown invalid_banner = negb (fst out)
  /\ (fst out = true -> S.warnings (snd out) = [] ->
      shown = valid_banner ++ Py.nl ++ clean_line).
Proof.
  intros out shown. subst shown. rewrite shown_report_eq.
  pose proof (report_valid fromstring content st) as Hv.
  pose proof (validate_content_true content st) as He.
  fold out in Hv, He |- *.
  unfold S.format_report, S.report_lines.
  set (report := fst (S.get_validation_report (snd out))) in *.
  assert (Hre : S.report_errors report = S.errors (snd out)) by reflexivity.
  assert (Hrw : S.report_warnings report = S.warnings (snd out)) by reflexivity.
  rewrite Hv, Hre, Hrw. cbn [app].
  split; [|split].
  - destruct (fst out).
    + apply startswith_join; [reflexivity | intros x; apply prefix_append].
    + apply startswith_join; [reflexivity | intros x; vm_compute; reflexivity].
  - destruct (fst out).
    + apply startswith_join; [reflexivity | intros x; vm_compute; reflexivity].
    + apply startswith_join; [reflexivity | intros x; apply prefix_append].
  - intros Ht Hw. rewrite Ht, (He Ht), Hw. reflexivity.
Qed.

Lemma nth_error_numbered l :
  forall start i x,
    nth_error l i = Some x ->
    nth_error (S.numbered start l) i = Some (numbered_line (start + i) x).
Proof.
  induction l as [|y l IH]; intros start [|i] x H; try discriminate.
  - injection H as ->. cbn. now rewrite Nat.add_0_r.
  - cbn [S.numbered nth_error] in *. rewrite (IH (S start) i x H).
    now replace (S start + i) with (start + S i) by lia.
Qed.

Lemma length_numbered l : forall start, List.length (S.numbered start l) = List.length l.
Proof. induction l as [|y l IH]; intros start; cbn; [reflexivity | now rewrite IH]. Qed.

Lemma in_numbered l x :
  forall start, In x (S.numbered start l) -> exists k y, x = numbered_line k y.
Proof.
  induction l as [|y l IH]; intros start; cbn [S.numbered In]; [intros []|].
  intros [<- | H]; [now exists start, y | exact (IH _ H)].
Qed.

Lemma split_lines_cons s : exists line rest, Py.split_lines s = line :: rest.
Proof.
  destruct s as [|c s]; cbn [Py.split_lines]; [eauto|].
  destruct (Ascii.eqb c Py.LF); [eauto|].
  destruct (Py.split_lines s); eauto.
Qed.

(** Splitting at a line feed splits the list of lines. *)
Lemma split_lines_app a b :
  Py.split_lines (a ++ String Py.LF b) = (Py.split_lines a ++ Py.split_lines b)%list.
Proof.
  induction a as [|c a IH].
  - change (EmptyString ++ String Py.LF b) with (String Py.LF b). reflexivity.
  - change (String c a ++ String Py.LF b) with (String c (a ++ String Py.LF b)).
    cbn [Py.split_lines]. rewrite IH.
    destruct (Ascii.eqb c Py.LF); [reflexivity|].
    destruct (split_lines_cons a) as (line & rest & ->). reflexivity.
Qed.

Lemma split_lines_single s : line_feeds s = 0 -> Py.split_lines s = [s].
Proof.
  induction s as [|c s IH]; [reflexivity|].
  cbn [line_feeds Py.split_lines]. destruct (Ascii.eqb c Py.LF); [discriminate|].
  intros H. now rewrite (IH H).
Qed.

Lemma split_lines_join l :
  l <> [] -> Py.split_lines (Py.join Py.nl l) = flat_map Py.split_lines l.
Proof.
  induction l as [|x l IH]; [congruence|]. intros _.
  rewrite join_cons. destruct l as [|y l].
  - cbn [flat_map]. now rewrite app_nil_r.
  - change (x ++ Py.nl ++ Py.join Py.nl (y :: l))
      with (x ++ String Py.LF (Py.join Py.nl (y :: l))).
    rewrite split_lines_app, IH by discriminate. reflexivity.
Qed.

Lemma line_feeds_app a b : line_feeds (a ++ b) = line_feeds a + line_feeds b.
Proof.
  induction a as [|c a IH]; [reflexivity|].
  change (String c a ++ b) with (String c (a ++ b)). cbn [line_feeds].
  rewrite IH. lia.
Qed.

Lemma line_feeds_digits d : line_feeds (DecimalString.NilEmpty.string_of_uint d) = 0.
Proof. induction d; cbn; auto. Qed.

Lemma line_feeds_str_nat k : line_feeds (Py.str_nat k) = 0.
Proof.
  unfold Py.str_nat, DecimalString.NilZero.string_of_uint.
  destruct (Nat.to_uint k); try apply line_feeds_digits. reflexivity.
Qed.

Lemma split_lines_numbered l :
  (forall x, In x l -> line_feeds x = 0) ->
  forall start, flat_map Py.split_lines (S.numbered start l) = S.numbered start l.
Proof.
  induction l as [|x l IH]; intros Hl start; [reflexivity|].
  cbn [S.numbered flat_map]. rewrite IH by (intros y Hy; apply Hl; now right).
  rewrite split_lines_single; [reflexivity|].
  rewrite !line_feeds_app, line_feeds_str_nat, (Hl x (or_introl eq_refl)). reflexivity.
Qed.

(** The lines of the text of a report whose messages hold no line
    feed. *)
Lemma report_text_lines report :
  (forall x, In x (S.report_errors report) -> line_feeds x = 0) ->
  (forall x, In x (S.report_warnings report) -> line_feeds x = 0) ->
  Py.split_lines (S.format_report report)
  = ([if S.valid report then valid_banner else invalid_banner]
     ++ (if Py.truthy_list (S.report_errors report)
         then EmptyString :: errors_title :: S.numbered 1 (S.report_errors report)
         else [])
     ++ (if Py.truthy_list (S.report_warnings report)
         then EmptyString :: warnings_title :: S.numbered 1 (S.report_warnings report)
         else [])
     ++ (if negb (Py.truthy_list (S.report_errors report))
            && negb (Py.truthy_list (S.report_warnings report))
         then [EmptyString; clean_title] else []))%list.
Proof.
  intros He Hw. unfold S.format_report.
  rewrite split_lines_join by (unfold S.report_lines; discriminate).
  unfold S.report_lines. rewrite !flat_map_app.
  apply (f_equal2 (@app string)).
  { destruct (S.valid report); reflexivity. }
  apply (f_equal2 (@app string)).
  { destruct (Py.truthy_list (S.report_errors report)); [|reflexivity].
    cbn [flat_map]. rewrite (split_lines_numbered _ He). reflexivity. }
  apply (f_equal2 (@app string)).
  { destruct (Py.truthy_list (S.report_warnings report)); [|reflexivity].
    cbn [flat_map]. rewrite (split_lines_numbered _ Hw). reflexivity. }
  destruct (negb _ && negb _); reflexivity.
Qed.

Lemma nth_error_block pre title post l i x :
  nth_error l i = Some x ->
  let lines := (pre ++ (EmptyString :: title :: S.numbered 1 l) ++ post)%list in
  nth_error lines (List.length pre) = Some EmptyString
  /\ nth_error lines (List.length pre + 1) = Some title
  /\ nth_error lines (List.length pre + 2 + i) = Some (numbered_line (i + 1) x).
Proof.
  intros H lines. subst lines. split; [|split].
  - rewrite nth_error_app2 by lia. now rewrite Nat.sub_diag.
  - rewrite nth_error_app2 by lia.
    now replace (List.length pre + 1 - List.length pre) with 1 by lia.
  - rewrite nth_error_app2 by lia.
    replace (List.length pre + 2 + i - List.length pre) with (S (S i)) by lia.
    cbn [app nth_error]. rewrite nth_error_app1.
    + rewrite (nth_error_numbered _ 1 i x H). now rewrite Nat.add_comm.
    + rewrite length_numbered. apply nth_error_Some. congruence.
Qed.

(** X7. When no error and no warning holds a line feed, the text of a
    formatted report reads, counting its lines from 0: the banner on
    line 0; if there are errors, an empty line 1, their header on line
    2 and error number [i + 1], numbered from 1 in their order, on
    line [i + 3]; after the errors, if there are warnings, an empty
    line, their header and the warnings numbered in the same way; and
    the line saying that nothing was found is there exactly when
    there are neither errors nor warnings. *)
Theorem X7_report_numbering report :
  (forall x, In x (S.report_errors report) -> line_feeds x = 0) ->
  (forall x, In x (S.report_warnings report) -> line_feeds x = 0) ->
  let lines := Py.split_lines (S.format_report report) in
  let es := S.report_errors report in
  let ws := S.report_warnings report in
  let after := match es with [] => 1 | _ :: _ => 3 + List.length es end in
  nth_error lines 0 = Some (if S.valid report then valid_banner else invalid_banner)
  /\ (forall i e, nth_error es i = Some e ->
        nth_error lines 1 = Some EmptyString
        /\ nth_error lines 2 = Some errors_title
        /\ nth_error lines (3 + i) = Some (numbered_line (i + 1) e))
  /\ (forall i w, nth_error ws i = Some w ->
        nth_error lines after = Some EmptyString
        /\ nth_error lines (after + 1) = Some warnings_title
        /\ nth_error lines (after + 2 + i) = Some (numbered_line (i + 1) w))
  /\ (In clean_title lines <-> es = [] /\ ws = []).
Proof.
  intros He Hw lines es ws after. subst lines after.
  rewrite (report_text_lines report He Hw). fold es ws.
  set (banner := if S.valid report then _ else _).
  assert (Hbanner : banner <> clean_title).
  { subst banner. destruct (S.valid report); vm_compute; discriminate. }
  split; [reflexivity|]. split; [|split].
  - intros i e H. destruct es as [|e0 es'] eqn:Hes; [destruct i; discriminate|].
    rewrite <- Hes in *. replace (Py.truthy_list es) with true by now rewrite Hes.
    exact (nth_error_block [banner] _ _ es i e H).
  - intros i w H. destruct ws as [|w0 ws'] eqn:Hws; [destruct i; discriminate|].
    rewrite <- Hws in *. replace (Py.truthy_list ws) with true by now rewrite Hws.
    destruct es as [|e0 es'] eqn:Hes.
    + exact (nth_error_block [banner] _ _ ws i w H).
    + rewrite <- Hes in *. replace (Py.truthy_list es) with true by now rewrite Hes.
      rewrite app_assoc.
      replace (3 + List.length es)
        with (List.length
                ([banner] ++ EmptyString :: errors_title :: S.numbered 1 es)%list)
        by (rewrite length_app; cbn [List.length]; rewrite length_numbered; lia).
      exact (nth_error_block _ _ _ ws i w H).
  - split.
    + intros Hin. destruct es as [|e0 es'], ws as [|w0 ws']; [auto| | |]; exfalso;
        cbn [Py.truthy_list negb andb app] in Hin; rewrite ?app_nil_r in Hin;
        rewrite ?in_app_iff in Hin; cbn [In] in Hin; rewrite ?in_app_iff in Hin;
        cbn [In] in Hin;
        repeat match goal with
               | H : _ \/ _ |- _ => destruct H as [H | H]
               | H : False |- _ => destruct H
               | H : banner = clean_title |- _ => exact (Hbanner H)
               | H : In _ (S.numbered _ _) |- _ =>
                   apply in_numbered in H as (k & y & H);
                   unfold numbered_line in H; vm_compute in H; discriminate H
               | H : _ = clean_title |- _ => vm_compute in H; discriminate H
               end.
    + intros [-> ->]. cbn. right. right. now left.
Qed.

(** The interpreter of [validate_content] inside [validate_file]. *)
Variable interrupted : string -> option (string * list string).


(** X9. [quick_validate] is the syntax stage of [validate_content]:
    the two agree on every text; a text [validate_content] accepts
    passes the quick check; and a text that fails the quick check
    fails [validate_content] with the one syntax error that carries
    the same parser message, and no warning. *)
Theorem X9_quick_validate_is_syntax_stage content st :
  let quick := S.quick_validate fromstring content in
  fst quick = fst (S.validate_xml_syntax fromstring content st)
  /\ (fst (S.validate_content fromstring content st) = true -> fst quick = true)
  /\ (fst quick = true -> snd quick = "XML синтаксично правильний")
  /\ (fst quick = false ->
      exists msg,
        snd quick = "XML помилка: " ++ msg
        /\ S.validate_content fromstring content st
           = (false, {| S.errors := [syntax_error msg]; S.warnings := [] |})).
Proof.
  intros quick. subst quick. unfold S.quick_validate.
  destruct (fromstring content) as [msg|root] eqn:Hp.
  - rewrite (validate_content_parse_error _ _ _ st Hp).
    unfold S.validate_xml_syntax, S.bind, S.reset. rewrite Hp. cbn [fst snd].
    split; [reflexivity|]. split; [discriminate|]. split; [discriminate|].
    intros _. exists msg. split; reflexivity.
  - rewrite (validate_xml_syntax_parsed _ _ _ st Hp). cbn [fst snd].
    split; [reflexivity|]. split; [reflexivity|]. split; [reflexivity|]. discriminate.
Qed.

End SimpleReports.

(* ================================================================== *)
(** ** [EnhancedXMLValidator]: validity and the errors of every entry point *)
(* ================================================================== *)

Section EnhancedResults.

Import Log Terms.

Variable fromstring : string -> ParseResult.

Lemma reports_patch_loop cs :
  forall n r, reports r (snd (fold_left E.patch_step cs (n, r))) [].
Proof.
  induction cs as [|c cs IH]; intros n r; cbn [fold_left].
  - apply reports_refl.
  - unfold E.patch_step at 2. destruct (Py.in_list (Py.lower (tag c)) E.operations).
    + apply IH.
    + eapply (reports_trans _ _ _ [] []); [apply reports_add_warning | apply IH].
Qed.

Lemma reports_validate_patch_structure root r :
  reports r (E._validate_patch_structure root r) [].
Proof.
  unfold E._validate_patch_structure.
  pose proof (reports_patch_loop (children root) 0 r) as H.
  destruct (fold_left E.patch_step (children root) (0, r)) as [n r'].
  cbn [snd] in H.
  destruct (n =? 0)%nat.
  - exact (reports_then_warning _ _ _ _ H).
  - eapply (reports_trans _ _ _ [] []); [exact H | apply reports_add_info].
Qed.

(** The structural pass on a document that passed the syntax stage. *)
Lemma reports_structure content root :
  E.valid (E.validate_xml_syntax fromstring content) = true ->
  fromstring content = Parsed root ->
  reports E.new_result (E.validate_rimworld_structure fromstring content)
    ((if String.eqb (tag root) "Defs" then enhanced_defs_errors root else [])
     ++ List.map duplicate (repeats [] (registered_names root))).
Proof.
  intros Hv Hp.
  assert (H : reports (E.validate_xml_syntax fromstring content)
                (E.validate_rimworld_structure fromstring content)
                ((if String.eqb (tag root) "Defs" then enhanced_defs_errors root else [])
                 ++ List.map duplicate (repeats [] (registered_names root)))).
  { unfold E.validate_rimworld_structure. cbv zeta. rewrite Hv, Hp. cbn [negb]. cbv iota.
    eapply reports_trans; [|apply reports_check_common_issues].
    assert (Hw : forall msg,
               reports (E.validate_xml_syntax fromstring content)
                 (if negb (Py.in_list (tag root) ["Defs"; "GameData"; "LanguageData"; "Patch"])
                  then E.add_warning msg (E.validate_xml_syntax fromstring content)
                  else E.validate_xml_syntax fromstring content) []).
    { intros msg. case_if; [apply reports_add_warning | apply reports_refl]. }
    destruct (String.eqb (tag root) "Defs").
    - eapply (reports_trans _ _ _ []); [apply Hw | apply reports_validate_defs_structure].
    - destruct (String.eqb (tag root) "Patch").
      + eapply (reports_trans _ _ _ [] []);
          [apply Hw | apply reports_validate_patch_structure].
      + apply Hw. }
  destruct H as [He Hval]. split.
  - now rewrite He, (validate_xml_syntax_valid fromstring content Hv).
  - now rewrite Hval, Hv.
Qed.

Lemma reports_valid_iff r es :
  reports E.new_result r es -> (E.valid r = true <-> E.errors r = []) /\ E.errors r = es.
Proof.
  intros [He Hv]. cbn in He, Hv. rewrite He, Hv. split; [|reflexivity].
  destruct es; cbn; split; congruence.
Qed.

Lemma syntax_reports content :
  exists es, reports E.new_result (E.validate_xml_syntax fromstring content) es.
Proof.
  unfold E.validate_xml_syntax. cbv zeta.
  destruct (negb (Py.truthy (Py.strip content))); [eexists; apply reports_add_error|].
  destruct (fromstring content) as [msg|root].
  - eexists. eapply reports_trans; [apply reports_add_error|].
    apply reports_analyze_parse_error.
  - unfold E._check_encoding.
    destruct (E._check_well_formed _ _) as [r'|e] eqn:Hwf.
    + exists []. eapply (reports_trans _ _ _ [] []); [apply reports_add_info|].
      eapply (reports_trans _ _ _ [] []); [apply reports_check_xml_declaration|].
      exact (reports_check_well_formed _ _ _ Hwf).
    + eexists. apply reports_then_error.
      eapply (reports_trans _ _ _ [] []); [apply reports_add_info|].
      apply reports_check_xml_declaration.
Qed.

Lemma reports_single_defs def_type defs :
  forall r,
    reports r
      (fold_left (fun result def_elem => E._validate_single_def def_elem def_type result)
                 defs r)
      (flat_map single_def_errors defs).
Proof.
  induction defs as [|d defs IH]; intros r; cbn [fold_left flat_map].
  - apply reports_refl.
  - eapply reports_trans; [apply reports_validate_single_def | apply IH].
Qed.

(** [validate_def_structure] on a document that passed the syntax
    stage. *)
Lemma reports_def_structure content root def_type :
  E.valid (E.validate_xml_syntax fromstring content) = true ->
  fromstring content = Parsed root ->
  reports E.new_result (E.validate_def_structure fromstring content def_type)
    (flat_map single_def_errors (selected_defs root)).
Proof.
  intros Hv Hp. unfold E.validate_def_structure. cbv zeta. rewrite Hv, Hp.
  cbn [negb]. cbv iota.
  pose proof (reports_single_defs def_type (selected_defs root)
                (E.validate_xml_syntax fromstring content)) as [He Hval].
  unfold selected_defs, is_def in *. split.
  - now rewrite He, (validate_xml_syntax_valid fromstring content Hv).
  - now rewrite Hval, Hv.
Qed.

Lemma syntax_parses content :
  E.valid (E.validate_xml_syntax fromstring content) = true ->
  exists root, fromstring content = Parsed root.
Proof.
  unfold E.validate_xml_syntax. cbv zeta.
  destruct (negb (Py.truthy (Py.strip content))); [discriminate|].
  destruct (fromstring content) as [msg|root]; [|eauto].
  intros H.
  destruct (reports_analyze_parse_error content msg
              (E.add_error ("XML синтаксична помилка: " ++ msg) E.new_result))
    as [_ Hv].
  rewrite Hv in H. discriminate.
Qed.

(** X10. Every entry point of [EnhancedXMLValidator] returns a result
    that is valid exactly when its list of errors is empty, whatever
    the text and whatever the parser answers. *)
Theorem X10_enhanced_valid_iff_no_errors content def_type :
  (E.valid (E.validate_xml_syntax fromstring content) = true
   <-> E.errors (E.validate_xml_syntax fromstring content) = [])
  /\ (E.valid (E.validate_rimworld_structure fromstring content) = true
      <-> E.errors (E.validate_rimworld_structure fromstring content) = [])
  /\ (E.valid (E.validate_def_structure fromstring content def_type) = true
      <-> E.errors (E.validate_def_structure fromstring content def_type) = []).
Proof.
  destruct (syntax_reports content) as [es Hs].
  pose proof (proj1 (reports_valid_iff _ _ Hs)) as Hsyn.
  split; [exact Hsyn|].
  destruct (E.valid (E.validate_xml_syntax fromstring content)) eqn:Hv.
  - destruct (syntax_parses content Hv) as [root Hp]. split.
    + exact (proj1 (reports_valid_iff _ _ (reports_structure content root Hv Hp))).
    + exact (proj1 (reports_valid_iff _ _
                      (reports_def_structure content root def_type Hv Hp))).
  - unfold E.validate_rimworld_structure, E.validate_def_structure. cbv zeta.
    rewrite Hv. cbn [negb]. cbv iota. rewrite Hv. split.
    + split; [discriminate|]. intros H. apply Hsyn in H. discriminate.
    + split; [discriminate|]. intros H. apply Hsyn in H. discriminate.
Qed.

End EnhancedResults.

(* ================================================================== *)
(** ** [EnhancedXMLValidator]: blank texts, parse errors and root tags *)
(* ================================================================== *)

Section EnhancedDocuments.

Import Log Terms.

Variable fromstring : string -> ParseResult.

(** X11. A text of whitespace only (the empty text included) is
    rejected by every entry point with the one error that the file is
    empty, no warning and no note, whatever the parser would say of
    it. *)
Theorem X11_blank_text_rejected content def_type :
  whitespace_only content = true ->
  let rejected :=
    {| E.valid := false; E.errors := ["XML файл порожній"];
       E.warnings := []; E.info := [] |} in
  E.validate_xml_syntax fromstring content = rejected
  /\ E.validate_rimworld_structure fromstring content = rejected
  /\ E.validate_def_structure fromstring content def_type = rejected.
Proof.
  intros Hws rejected.
  assert (Hs : E.validate_xml_syntax fromstring content = rejected).
  { unfold E.validate_xml_syntax. cbv zeta.
    rewrite (whitespace_only_strip content Hws). reflexivity. }
  split; [exact Hs|].
  unfold E.validate_rimworld_structure, E.validate_def_structure. cbv zeta.
  rewrite Hs. split; reflexivity.
Qed.

Lemma analyze_parse_error_notes content msg r :
  let r' := E._analyze_parse_error content msg r in
  E.warnings r' = E.warnings r
  /\ exists notes, E.info r' = (E.info r ++ notes)%list /\ List.length notes <= 2.
Proof.
  unfold E._analyze_parse_error. cbv zeta.
  destruct (Re.search _ _) as [digits|];
    [|split; [reflexivity | exists []; rewrite app_nil_r; auto]].
  case_if; [|split; [reflexivity | exists []; rewrite app_nil_r; auto]].
  repeat case_if; (split; [reflexivity|]); cbn [E.add_info E.info].
  - rewrite <- app_assoc. eexists; split; [reflexivity | cbn; lia].
  - rewrite <- app_assoc. eexists; split; [reflexivity | cbn; lia].
  - eexists; split; [reflexivity | cbn; lia].
Qed.

(** X12. On a text that is not blank and that the parser rejects,
    [validate_rimworld_structure] stops after the syntax stage: the
    result is not valid, its errors are the one syntax error with the
    parser's message, it has no warning and at most two notes. *)
Theorem X12_enhanced_parse_error content msg :
  Py.truthy (Py.strip content) = true ->
  fromstring content = ParseError msg ->
  let out := E.validate_rimworld_structure fromstring content in
  out = E.validate_xml_syntax fromstring content
  /\ E.valid out = false
  /\ E.errors out = ["XML синтаксична помилка: " ++ msg]
  /\ E.warnings out = []
  /\ List.length (E.info out) <= 2.
Proof.
  intros Hc Hp out. subst out.
  assert (Hs : E.validate_xml_syntax fromstring content
               = E._analyze_parse_error content msg
                   (E.add_error ("XML синтаксична помилка: " ++ msg) E.new_result)).
  { unfold E.validate_xml_syntax. cbv zeta. now rewrite Hc, Hp. }
  destruct (reports_analyze_parse_error content msg
              (E.add_error ("XML синтаксична помилка: " ++ msg) E.new_result))
    as [He Hv].
  destruct (analyze_parse_error_notes content msg
              (E.add_error ("XML синтаксична помилка: " ++ msg) E.new_result))
    as [Hw (notes & Hi & Hn)].
  rewrite <- Hs in He, Hv, Hw, Hi. cbn in He, Hv, Hw, Hi.
  assert (Hr : E.validate_rimworld_structure fromstring content
               = E.validate_xml_syntax fromstring content).
  { unfold E.validate_rimworld_structure. cbv zeta. now rewrite Hv. }
  rewrite Hr, Hv, He, Hw, Hi. auto.
Qed.

Lemma repeats_nil_NoDup l : repeats [] l = [] <-> List.NoDup l.
Proof.
  rewrite (List.NoDup_count_occ string_dec).
  rewrite <- (count_occ_inv_nil string_dec).
  split; intros H v; specialize (H v); rewrite (count_repeats l [] v) in *;
    cbn [Py.in_list existsb] in *; lia.
Qed.

Lemma single_def_errors_nil d : single_def_errors d = [] <-> well_named d = true.
Proof.
  unfold single_def_errors, well_named.
  destruct (find d "defName") as [n|]; [|split; discriminate].
  destruct (E.blank (text n)); cbn; split; congruence.
Qed.

Lemma flat_map_nil_iff {A B} (f : A -> list B) l :
  flat_map f l = [] <-> forall x, In x l -> f x = [].
Proof.
  induction l as [|x l IH]; cbn [flat_map In]; [tauto|].
  split.
  - intros H. apply app_eq_nil in H as [Hx Hl]. intros y [<- | Hy]; [exact Hx|].
    now apply IH.
  - intros H. rewrite (H x (or_introl eq_refl)). apply IH. auto.
Qed.

Lemma enhanced_defs_errors_nil root :
  enhanced_defs_errors root = [] <->
  forall child, In child (children root) -> is_def child = true -> well_named child = true.
Proof.
  unfold enhanced_defs_errors, is_def. rewrite flat_map_nil_iff.
  split; intros H child Hin.
  - intros Hd. specialize (H child Hin). rewrite Hd in H.
    now apply single_def_errors_nil.
  - destruct (Py.endswith (tag child) "Def") eqn:Hd; [|reflexivity].
    apply single_def_errors_nil. auto.
Qed.

(** X13. A [Defs] document that passed the syntax stage is valid for
    [validate_rimworld_structure] exactly when every child of the root
    whose tag ends in [Def] has a defName child and the text of its
    first defName child is not blank, and no name is read twice, the
    name read from an element of the tree whose tag ends in [Def]
    being the non-empty text of its first defName child. *)
Theorem X13_enhanced_defs_valid_iff content root :
  E.valid (E.validate_xml_syntax fromstring content) = true ->
  fromstring content = Parsed root ->
  tag root = "Defs" ->
  E.valid (E.validate_rimworld_structure fromstring content) = true <->
  (forall child, In child (children root) -> is_def child = true ->
                 well_named child = true)
  /\ List.NoDup (registered_names root).
Proof.
  intros Hv Hp Htag.
  destruct (reports_valid_iff _ _ (reports_structure fromstring content root Hv Hp))
    as [Hiff He].
  rewrite Hiff, He, Htag. cbn [String.eqb Ascii.eqb Bool.eqb].
  rewrite <- enhanced_defs_errors_nil, <- repeats_nil_NoDup.
  split.
  - intros H. apply app_eq_nil in H as [H1 H2]. split; [exact H1|].
    now apply map_eq_nil in H2.
  - intros [-> ->]. reflexivity.
Qed.

Lemma metadata_errors_bare root :
  children root = [] -> List.length (metadata_errors root) = 4.
Proof.
  intros Hc. unfold metadata_errors.
  assert (Hf : forall t, find root t = None).
  { intros t. destruct root as [rt a x tl cs]. cbn in Hc. subst cs. reflexivity. }
  rewrite (Hf "packageId"), app_nil_r, length_map.
  cbn [S.required_tags List.filter]. rewrite !Hf. reflexivity.
Qed.

(** X14. For a document that passed the syntax stage and whose root
    is not [Defs], the structural pass of [EnhancedXMLValidator] has
    no rule that can fail except the duplicate check: the errors are
    the duplicate messages, and the result is valid exactly when no
    name is read twice, the name read from an element whose tag ends
    in [Def] being the non-empty text of its first defName child.
    Metadata is not checked at all: such a document with a
    ModMetaData root without children is valid here, while
    [SimpleXMLValidator] rejects it with four errors. *)
Theorem X14_enhanced_other_roots content root :
  E.valid (E.validate_xml_syntax fromstring content) = true ->
  fromstring content = Parsed root ->
  tag root <> "Defs" ->
  let out := E.validate_rimworld_structure fromstring content in
  E.errors out = List.map duplicate (repeats [] (registered_names root))
  /\ (E.valid out = true <-> List.NoDup (registered_names root))
  /\ (tag root = "ModMetaData" -> children root = [] ->
      E.valid out = true
      /\ forall st,
           fst (S.validate_content fromstring content st) = false
           /\ List.length (S.errors (snd (S.validate_content fromstring content st))) = 4).
Proof.
  intros Hv Hp Htag out. subst out.
  destruct (reports_valid_iff _ _ (reports_structure fromstring content root Hv Hp))
    as [Hiff He].
  apply String.eqb_neq in Htag. rewrite Htag in He. cbn [app] in He.
  assert (Hnd : E.valid (E.validate_rimworld_structure fromstring content) = true
                <-> List.NoDup (registered_names root)).
  { rewrite Hiff, He, <- repeats_nil_NoDup. split; [apply map_eq_nil | now intros ->]. }
  split; [exact He|]. split; [exact Hnd|].
  intros Hm Hc. split.
  - apply Hnd. unfold registered_names. destruct root as [rt a x tl cs].
    cbn in Hm, Hc. subst rt cs. cbn. constructor.
  - intros st. rewrite (validate_content_parsed _ _ _ st Hp). cbn [fst snd S.errors].
    unfold root_errors. rewrite Hm. cbn [String.eqb Ascii.eqb Bool.eqb].
    rewrite (metadata_errors_bare root Hc). split; reflexivity.
Qed.

Lemma well_named_named d : well_named d = true -> named d = true.
Proof.
  unfold well_named, named. destruct (find d "defName") as [n|]; [|discriminate].
  destruct (text n) as [s|]; [|discriminate].
  unfold E.blank. cbn [Py.truthy_opt]. destruct (Py.truthy s); [reflexivity|discriminate].
Qed.

(** X15. On a [Defs] document whose children all have a tag ending in
    [Def], [EnhancedXMLValidator] is the stricter of the two: whatever
    it accepts, [SimpleXMLValidator] accepts as well. *)
Theorem X15_enhanced_stricter_on_defs content root st :
  fromstring content = Parsed root ->
  tag root = "Defs" ->
  (forall child, In child (children root) -> is_def child = true) ->
  E.valid (E.validate_rimworld_structure fromstring content) = true ->
  fst (S.validate_content fromstring content st) = true.
Proof.
  intros Hp Htag Hdefs Hvalid.
  assert (Hv : E.valid (E.validate_xml_syntax fromstring content) = true).
  { revert Hvalid. unfold E.validate_rimworld_structure. cbv zeta.
    destruct (E.valid (E.validate_xml_syntax fromstring content)) eqn:Hv; [reflexivity|].
    cbn [negb]. cbv iota. now rewrite Hv. }
  destruct (reports_valid_iff _ _ (reports_structure fromstring content root Hv Hp))
    as [Hiff He].
  apply Hiff in Hvalid. rewrite Hvalid, Htag in He.
  cbn [String.eqb Ascii.eqb Bool.eqb] in He.
  symmetry in He. apply app_eq_nil in He as [He _].
  pose proof (proj1 (enhanced_defs_errors_nil root) He) as Hnamed.
  rewrite (simple_defs_result fromstring content root st Hp Htag).
  apply forallb_forall. intros child Hin. apply well_named_named. auto.
Qed.

(** X16. [validate_def_structure] on a document that passed the
    syntax stage looks at the root when its tag ends in [Def] and at
    the children of the root with such a tag otherwise, and reports
    for each of them a missing defName or a blank text of its first
    defName child, and nothing else: the result is valid exactly when
    each has a defName child and the text of the first one is not
    blank.  The expected type changes no error, and there is no
    duplicate check. *)
Theorem X16_def_structure content root def_type :
  E.valid (E.validate_xml_syntax fromstring content) = true ->
  fromstring content = Parsed root ->
  let out := E.validate_def_structure fromstring content def_type in
  E.errors out = flat_map single_def_errors (selected_defs root)
  /\ (E.valid out = true <->
      forall d, In d (selected_defs root) -> well_named d = true)
  /\ E.errors out = E.errors (E.validate_def_structure fromstring content None)
  /\ E.valid out = E.valid (E.validate_def_structure fromstring content None).
Proof.
  intros Hv Hp out. subst out.
  destruct (reports_def_structure fromstring content root def_type Hv Hp) as [He Hval].
  destruct (reports_def_structure fromstring content root None Hv Hp) as [He' Hval'].
  cbn [E.new_result E.errors E.valid app andb] in He, Hval, He', Hval'.
  rewrite He, Hval, He', Hval'.
  split; [reflexivity|]. split; [|split; reflexivity].
  transitivity (flat_map single_def_errors (selected_defs root) = []).
  - destruct (flat_map single_def_errors (selected_defs root)); cbn; split; congruence.
  - rewrite flat_map_nil_iff.
    split; intros H d Hd; apply single_def_errors_nil, H, Hd.
Qed.

End EnhancedDocuments.

(* ================================================================== *)
(** ** [EnhancedXMLValidator]: the statistics *)
(* ================================================================== *)

Section Statistics.

Import Log Terms.

Variable fromstring : string -> ParseResult.

Lemma total_insert (m : gmap string nat) k v :
  m !! k = None -> total (<[k:=v]> m) = v + total m.
Proof.
  intros H. unfold total.
  apply (map_fold_insert_L (fun (_ : string) (n acc : nat) => n + acc)); [|exact H].
  intros. lia.
Qed.

Lemma total_delete (m : gmap string nat) k v :
  m !! k = Some v -> total m = v + total (delete k m).
Proof.
  intros H. rewrite <- (insert_delete_id m k v H) at 1.
  apply total_insert, lookup_delete_eq.
Qed.

Lemma total_bump (m : gmap string nat) k :
  total (<[k := default 0 (m !! k) + 1]> m) = total m + 1.
Proof.
  destruct (m !! k) as [v|] eqn:H; cbv [default from_option id].
  - rewrite <- insert_delete_eq, total_insert by apply lookup_delete_eq.
    rewrite (total_delete m k v H). lia.
  - rewrite total_insert by exact H. lia.
Qed.

(** The loop of [get_xml_statistics] from any starting dictionary. *)
Lemma stats_loop l :
  forall s,
    let s' := fold_left E.stats_step l s in
    E.total_elements s' = E.total_elements s + List.length l
    /\ E.total_attributes s'
       = E.total_attributes s + list_sum (List.map (fun e => List.length (attrib e)) l)
    /\ E.def_count s' = E.def_count s + List.length (List.filter is_def l)
    /\ E.file_size s' = E.file_size s
    /\ E.line_count s' = E.line_count s
    /\ total (E.def_types s') = total (E.def_types s) + List.length (List.filter is_def l)
    /\ forall t,
         E.def_types s' !! t
         = match List.length (List.filter is_def (tagged t l)) with
           | 0 => E.def_types s !! t
           | S k => Some (default 0 (E.def_types s !! t) + S k)
           end.
Proof.
  induction l as [|e l IH]; intros s; cbn zeta.
  - cbn. repeat split; lia.
  - cbn [fold_left]. specialize (IH (E.stats_step s e)). cbn zeta in IH.
    destruct IH as (H1 & H2 & H3 & H4 & H5 & H6 & H7).
    rewrite H1, H2, H3, H4, H5, H6. clear H1 H2 H3 H4 H5 H6.
    cbn [E.stats_step E.total_elements E.total_attributes E.def_count E.file_size
         E.line_count E.def_types List.length List.map list_sum List.filter].
    fold (is_def e).
    split; [lia|]. split; [unfold list_sum; cbn [fold_right]; lia|].
    split; [destruct (is_def e); cbn [List.length]; lia|].
    split; [reflexivity|]. split; [reflexivity|]. split.
    + destruct (is_def e); cbn [List.length]; [rewrite total_bump|]; lia.
    + intros t. rewrite H7. unfold tagged. cbn [List.filter E.stats_step E.def_types].
      fold (tagged t l). fold (is_def e).
      destruct (String.eqb (tag e) t) eqn:Ht.
      * apply String.eqb_eq in Ht. subst t. cbn [List.filter].
        destruct (is_def e); cbn [List.length].
        -- rewrite lookup_insert_eq. cbv [default from_option id].
           destruct (List.length (List.filter is_def (tagged (tag e) l)));
             [f_equal; lia | f_equal; lia].
        -- reflexivity.
      * apply String.eqb_neq in Ht.
        destruct (is_def e); [rewrite (lookup_insert_ne _ _ _ _ Ht)|]; reflexivity.
Qed.

Lemma filter_is_def_tagged t l :
  List.filter is_def (tagged t l) = if Py.endswith t "Def" then tagged t l else [].
Proof.
  unfold tagged. induction l as [|e l IH]; cbn [List.filter]; [now destruct (Py.endswith _ _)|].
  destruct (String.eqb (tag e) t) eqn:Ht; [|exact IH].
  apply String.eqb_eq in Ht. cbn [List.filter]. unfold is_def at 1. rewrite Ht, IH.
  destruct (Py.endswith t "Def"); reflexivity.
Qed.

(** X17. For a text that parses, [get_xml_statistics] counts every
    element of the tree, sums the attributes, and counts the elements
    whose tag ends in [Def]; the table of definition types has an
    entry for a tag exactly when the tag ends in [Def] and occurs in
    the tree, the entry is the number of elements with that tag, and
    the entries add up to the count of definitions. *)
Theorem X17_statistics_counts content root :
  fromstring content = Parsed root ->
  let stats := E.get_xml_statistics fromstring content in
  E.total_elements stats = List.length (iter root)
  /\ E.total_attributes stats
     = list_sum (List.map (fun e => List.length (attrib e)) (iter root))
  /\ E.def_count stats = List.length (List.filter is_def (iter root))
  /\ E.def_count stats <= E.total_elements stats
  /\ (forall t n,
        E.def_types stats !! t = Some n <->
        Py.endswith t "Def" = true
        /\ n = List.length (tagged t (iter root)) /\ 0 < n)
  /\ total (E.def_types stats) = E.def_count stats.
Proof.
  intros Hp stats. subst stats. unfold E.get_xml_statistics. cbv zeta. rewrite Hp.
  match goal with
  | |- context [fold_left E.stats_step (iter root) ?s] =>
      destruct (stats_loop (iter root) s) as (H1 & H2 & H3 & _ & _ & H6 & H7)
  end.
  cbv zeta in H1, H2, H3, H6, H7.
  cbn [E.total_elements E.total_attributes E.def_count E.def_types] in H1, H2, H3, H6, H7.
  rewrite H1, H2, H3, H6. cbn [Nat.add].
  split; [reflexivity|]. split; [reflexivity|]. split; [reflexivity|].
  split; [apply List.filter_length_le|]. split.
  - intros t n. rewrite H7, filter_is_def_tagged, lookup_empty. cbv [default from_option id].
    destruct (Py.endswith t "Def"); cbn [List.length].
    + destruct (List.length (tagged t (iter root))) as [|k].
      * split; [discriminate | intros (_ & -> & H); lia].
      * split; [intros [= <-]; repeat split; lia | intros (_ & -> & _); reflexivity].
    + split; [discriminate | intros (H & _); discriminate].
  - unfold total. rewrite map_fold_empty. reflexivity.
Qed.

Lemma length_split_lines s : List.length (Py.split_lines s) = 1 + line_feeds s.
Proof.
  induction s as [|c s IH]; [reflexivity|].
  cbn [Py.split_lines line_feeds]. destruct (Ascii.eqb c Py.LF).
  - cbn [List.length]. rewrite IH. reflexivity.
  - destruct (Py.split_lines s) as [|line rest]; cbn [List.length] in *; lia.
Qed.

(** X18. Whatever the text, [get_xml_statistics] gives its size in
    bytes and, as the number of lines, one more than its number of
    line feeds, so that a text ending in a line feed counts a last,
    empty line; when the text does not parse, every count is zero and
    the table of types is empty. *)
Theorem X18_statistics_of_any_text content :
  let stats := E.get_xml_statistics fromstring content in
  E.file_size stats = String.length content
  /\ E.line_count stats = 1 + line_feeds content
  /\ (forall msg, fromstring content = ParseError msg ->
        E.total_elements stats = 0 /\ E.total_attributes stats = 0
        /\ E.def_count stats = 0 /\ E.def_types stats = ∅).
Proof.
  intros stats. subst stats. unfold E.get_xml_statistics. cbv zeta.
  destruct (fromstring content) as [msg|root].
  - cbn. split; [reflexivity|]. split; [apply length_split_lines|]. auto.
  - match goal with
    | |- context [fold_left E.stats_step (iter root) ?s] =>
        destruct (stats_loop (iter root) s) as (_ & _ & _ & H4 & H5 & _)
    end.
    cbv zeta in H4, H5. rewrite H4, H5. cbn.
    split; [reflexivity|]. split; [apply length_split_lines|]. discriminate.
Qed.

End Statistics.

(* ================================================================== *)
(** ** [EnhancedXMLValidator]: indentation *)
(* ================================================================== *)

Section Indentation.

Import Log Terms.

Lemma set_if_blank_idem x v : E.set_if_blank (E.set_if_blank x v) v = E.set_if_blank x v.
Proof.
  unfold E.set_if_blank. destruct (E.blank x) eqn:Hx; [|now rewrite Hx].
  destruct (E.blank (Some v)); reflexivity.
Qed.

(** The tail of the last child after a second pass. *)
Lemma last_tail_again tl i i' :
  E.set_if_blank (E.set_if_blank (E.set_if_blank (E.set_if_blank tl i') i) i') i
  = E.set_if_blank (E.set_if_blank tl i') i.
Proof.
  unfold E.set_if_blank.
  destruct (E.blank tl) eqn:Htl; rewrite ?Htl;
    destruct (E.blank (Some i')) eqn:Hi'; rewrite ?Hi', ?Htl;
    destruct (E.blank (Some i)) eqn:Hi; rewrite ?Hi, ?Hi', ?Htl; reflexivity.
Qed.

Lemma set_last_tail_one c i :
  E.set_last_tail [c] i = [with_tail c (E.set_if_blank (tail c) i)].
Proof. destruct c; reflexivity. Qed.

Lemma set_last_tail_cons c c' cs i :
  E.set_last_tail (c :: c' :: cs) i = c :: E.set_last_tail (c' :: cs) i.
Proof. destruct c; reflexivity. Qed.

Lemma set_last_tail_nil cs i : E.set_last_tail cs i = [] -> cs = [].
Proof.
  destruct cs as [|c [|c' cs]]; [reflexivity| |].
  - rewrite set_last_tail_one. discriminate.
  - rewrite set_last_tail_cons. discriminate.
Qed.

(** Below the root, the tail of an element goes through
    [set_if_blank] and nothing else of the result depends on it. *)
Lemma indent_with_tail e level indent tl :
  E._indent_xml (with_tail e tl) (S level) indent
  = with_tail (E._indent_xml e (S level) indent)
      (E.set_if_blank tl (indentation indent (S level))).
Proof.
  destruct e as [t a x tl0 [|c cs]]; cbn [with_tail E._indent_xml Nat.ltb Nat.leb andb];
    reflexivity.
Qed.

Lemma tail_indent e level indent :
  tail (E._indent_xml e (S level) indent)
  = E.set_if_blank (tail e) (indentation indent (S level)).
Proof. destruct e as [t a x tl [|c cs]]; reflexivity. Qed.

Lemma with_tail_twice e tl tl' : with_tail (with_tail e tl) tl' = with_tail e tl'.
Proof. destruct e; reflexivity. Qed.

Lemma children_again level indent i cs :
  Forall (fun c => forall level,
            E._indent_xml (E._indent_xml c level indent) level indent
            = E._indent_xml c level indent) cs ->
  E.set_last_tail
    (List.map (fun c => E._indent_xml c (S level) indent)
       (E.set_last_tail (List.map (fun c => E._indent_xml c (S level) indent) cs) i)) i
  = E.set_last_tail (List.map (fun c => E._indent_xml c (S level) indent) cs) i.
Proof.
  induction 1 as [|c cs Hc Hcs IH]; [reflexivity|].
  destruct cs as [|c' cs].
  - cbn [List.map]. rewrite !set_last_tail_one. cbn [List.map].
    rewrite set_last_tail_one. f_equal.
    rewrite indent_with_tail, Hc, with_tail_twice.
    destruct (E._indent_xml c (S level) indent) as [t a x tl ds] eqn:He.
    cbn [with_tail tail]. f_equal.
    pose proof (tail_indent c level indent) as Ht. rewrite He in Ht. cbn [tail] in Ht.
    rewrite Ht. apply last_tail_again.
  - cbn [List.map] in *. rewrite !set_last_tail_cons.
    change (E._indent_xml c' (S level) indent
            :: List.map (fun c => E._indent_xml c (S level) indent) cs)
      with (List.map (fun c => E._indent_xml c (S level) indent) (c' :: cs)) in *.
    destruct (E.set_last_tail
                (List.map (fun c => E._indent_xml c (S level) indent) (c' :: cs)) i)
      as [|d ds] eqn:Hd.
    + apply set_last_tail_nil in Hd. discriminate.
    + cbn [List.map]. rewrite set_last_tail_cons. cbn [List.map] in IH.
      rewrite IH, Hc. reflexivity.
Qed.

(** X19. Indenting is idempotent: a second [_indent_xml] of the same
    level and indent changes nothing, whatever the indent is. *)
Theorem X19_indent_idempotent e indent :
  forall level,
    E._indent_xml (E._indent_xml e level indent) level indent
    = E._indent_xml e level indent.
Proof.
  induction e as [t a x tl cs IH] using Element_ind. intros level.
  destruct cs as [|c cs].
  - cbn [E._indent_xml]. f_equal.
    destruct (0 <? level)%nat; cbn [andb]; [|reflexivity].
    exact (set_if_blank_idem tl _).
  - cbn [E._indent_xml]. rewrite Nat.add_1_r.
    destruct (E.set_last_tail
                (List.map (fun child => E._indent_xml child (S level) indent) (c :: cs))
                (Py.nl ++ Py.repeat_str indent level)) as [|d ds] eqn:Hd.
    + apply set_last_tail_nil in Hd. discriminate.
    + cbn [E._indent_xml]. rewrite ?Nat.add_1_r, !set_if_blank_idem. f_equal.
      rewrite <- Hd. apply children_again, IH.
Qed.

End Indentation.

(* ================================================================== *)
(** ** [EnhancedXMLValidator]: what indentation leaves alone *)
(* ================================================================== *)

Section Whitespace.

Import Log Terms.

Lemma chars_cons c s :
  exists x rest, Py.chars (String c s) = String c x :: rest.
Proof.
  cbn [Py.chars]. destruct (Py.chars s) as [|ch rest]; [eauto|].
  destruct (Py.continues s); eauto.
Qed.

(** The characters of two texts put together, when the second does
    not begin inside a character. *)
Lemma chars_app a b :
  Py.continues b = false -> Py.chars (a ++ b) = (Py.chars a ++ Py.chars b)%list.
Proof.
  intros Hb. induction a as [|c a IH]; [reflexivity|].
  change (String c a ++ b) with (String c (a ++ b)).
  cbn [Py.chars]. rewrite IH.
  destruct a as [|d a].
  - cbn [Py.chars app]. change (EmptyString ++ b) with b. rewrite Hb.
    destruct (Py.chars b); reflexivity.
  - destruct (chars_cons d a) as (x & rest & Hd). rewrite Hd. cbn [app].
    change (Py.continues (String d a ++ b)) with (Py.continues (String d a)).
    destruct (Py.continues (String d a)); reflexivity.
Qed.

Lemma isspace_lead c x : Py.isspace (String c x) = true -> Py.is_continuation c = false.
Proof.
  unfold Py.isspace. rewrite in_list_In. intros H. vm_compute in H.
  repeat (destruct H as [H | H]; [injection H as <- _; reflexivity|]).
  destruct H.
Qed.

Lemma whitespace_only_continues b : whitespace_only b = true -> Py.continues b = false.
Proof.
  destruct b as [|c b]; [reflexivity|]. unfold whitespace_only.
  destruct (chars_cons c b) as (x & rest & ->). cbn [forallb Py.continues].
  intros H. apply andb_true_iff in H as [H _]. exact (isspace_lead c x H).
Qed.

Lemma whitespace_only_app a b :
  whitespace_only a = true -> whitespace_only b = true -> whitespace_only (a ++ b) = true.
Proof.
  intros Ha Hb. unfold whitespace_only in *.
  rewrite (chars_app a b (whitespace_only_continues b Hb)), forallb_app, Ha, Hb.
  reflexivity.
Qed.

Lemma whitespace_only_repeat indent level :
  whitespace_only indent = true -> whitespace_only (Py.repeat_str indent level) = true.
Proof.
  intros H. induction level as [|k IH]; [reflexivity|].
  cbn [Py.repeat_str]. now apply whitespace_only_app.
Qed.

Lemma whitespace_only_indentation indent level :
  whitespace_only indent = true ->
  whitespace_only (indentation indent level) = true
  /\ whitespace_only (indentation indent level ++ indent) = true.
Proof.
  intros H.
  assert (Hi : whitespace_only (indentation indent level) = true).
  { unfold indentation. apply whitespace_only_app; [reflexivity|].
    now apply whitespace_only_repeat. }
  split; [exact Hi | now apply whitespace_only_app].
Qed.

Lemma significant_set_if_blank x v :
  E.blank (Some v) = true -> significant (E.set_if_blank x v) = significant x.
Proof.
  intros Hv. unfold significant, E.set_if_blank.
  destruct (E.blank x) eqn:Hx; [now rewrite Hv | now rewrite Hx].
Qed.

Lemma skeleton_with_tail e tl :
  significant tl = significant (tail e) -> skeleton (with_tail e tl) = skeleton e.
Proof. destruct e as [t a x tl0 cs]. cbn. now intros ->. Qed.

Lemma skeleton_set_last_tail cs i :
  E.blank (Some i) = true ->
  List.map skeleton (E.set_last_tail cs i) = List.map skeleton cs.
Proof.
  intros Hi. induction cs as [|c cs IH]; [reflexivity|].
  destruct cs as [|c' cs].
  - rewrite set_last_tail_one. cbn [List.map]. f_equal.
    apply skeleton_with_tail, significant_set_if_blank, Hi.
  - rewrite set_last_tail_cons. cbn [List.map] in *. now rewrite IH.
Qed.

End Whitespace.

Section Formatting.

Import Log Terms.

Variable fromstring : string -> ParseResult.

(** The interpreter and [ET.tostring] of the host. *)
Variable too_deep : Element -> bool.
Variable tostring : Element -> Py.outcome string.

(** X20. With an indent made of whitespace, [_indent_xml] changes
    nothing but blank texts and tails: the tree keeps its shape, every
    tag and attribute, and every text and tail that is not blank.
    [format_xml] returns the text as it came when the text does not
    parse, when the tree is too deep for the interpreter to indent,
    and when [ET.tostring] raises; otherwise it returns the
    serialisation of a tree that differs from the parsed one in blank
    texts and tails only, after the XML declaration when the text,
    stripped, does not begin with one. *)
Theorem X20_formatting_keeps_content indent :
  whitespace_only indent = true ->
  (forall e level, skeleton (E._indent_xml e level indent) = skeleton e)
  /\ (forall content msg,
        fromstring content = ParseError msg ->
        E.format_xml fromstring too_deep tostring content indent = content)
  /\ (forall content root,
        fromstring content = Parsed root ->
        too_deep root = true ->
        E.format_xml fromstring too_deep tostring content indent = content)
  /\ (forall content root e,
        fromstring content = Parsed root ->
        tostring (E._indent_xml root 0 indent) = Py.Raises e ->
        E.format_xml fromstring too_deep tostring content indent = content)
  /\ (forall content root rough,
        fromstring content = Parsed root ->
        too_deep root = false ->
        tostring (E._indent_xml root 0 indent) = Py.Returns rough ->
        exists formatted,
          skeleton formatted = skeleton root
          /\ tostring formatted = Py.Returns rough
          /\ E.format_xml fromstring too_deep tostring content indent
             = (if Py.startswith (Py.strip content) "<?xml" then EmptyString
                else declaration_line) ++ rough).
Proof.
  intros Hws.
  assert (Hs : forall e level, skeleton (E._indent_xml e level indent) = skeleton e).
  { intros e.
    induction e as [t a x tl cs IH] using Element_ind. intros level.
    destruct (whitespace_only_indentation indent level Hws) as [Hi Hi'].
    apply whitespace_only_blank in Hi, Hi'. unfold indentation in Hi, Hi'.
    destruct cs as [|c cs].
    - cbn [E._indent_xml skeleton List.map]. f_equal.
      destruct ((0 <? level)%nat && E.blank tl) eqn:Hc; [|reflexivity].
      apply andb_true_iff in Hc as [_ Hc]. unfold significant. now rewrite Hi, Hc.
    - cbn [E._indent_xml skeleton].
      rewrite !significant_set_if_blank by assumption. f_equal.
      rewrite skeleton_set_last_tail by assumption.
      rewrite List.map_map. apply List.map_ext_Forall.
      eapply List.Forall_impl; [|exact IH]. intros d Hd. apply Hd. }
  split; [exact Hs|]. unfold E.format_xml.
  split; [intros content msg ->; reflexivity|].
  split; [intros content root -> ->; reflexivity|].
  split.
  - intros content root e -> Hr. cbv zeta. rewrite Hr.
    destruct (too_deep root); reflexivity.
  - intros content root rough -> Hd Hr. cbv zeta. rewrite Hd, Hr.
    exists (E._indent_xml root 0 indent). split; [apply Hs|]. split; [exact Hr|].
    destruct (Py.startswith (Py.strip content) "<?xml"); reflexivity.
Qed.

End Formatting.

(* ================================================================== *)
(** ** [EnhancedXMLValidator]: when the syntax stage rejects a text that parses *)
(* ================================================================== *)

Section SyntaxStage.

Import Log Terms.

Variable fromstring : string -> ParseResult.

Lemma dropwhile_nil {A} (f : A -> bool) l :
  Py.dropwhile f l = [] <-> forallb f l = true.
Proof.
  induction l as [|x l IH]; cbn [Py.dropwhile forallb]; [tauto|].
  destruct (f x); cbn [andb]; [exact IH | split; discriminate].
Qed.

Lemma first_word_none s : Py.first_word s = None <-> whitespace_only s = true.
Proof.
  unfold Py.first_word, whitespace_only. rewrite <- dropwhile_nil.
  destruct (Py.dropwhile Py.isspace (Py.chars s)); split; congruence.
Qed.

Lemma first_words_outcome l :
  match E.first_words l with
  | Py.Returns _ => forall g, In g l -> whitespace_only g = false
  | Py.Raises e => e = Py.index_error /\ exists g, In g l /\ whitespace_only g = true
  end.
Proof.
  induction l as [|sc l IH]; cbn [E.first_words]; [intros g []|].
  destruct (Py.first_word sc) as [w|] eqn:Hw.
  - assert (Hsc : whitespace_only sc = false).
    { destruct (whitespace_only sc) eqn:H; [|reflexivity].
      apply first_word_none in H. congruence. }
    destruct (E.first_words l) as [ws|e].
    + intros g [<- | Hg]; auto.
    + destruct IH as (-> & g & Hg & Hgw). split; [reflexivity|].
      exists g. split; [now right | exact Hgw].
  - split; [reflexivity|]. exists sc. split; [now left | now apply first_word_none].
Qed.

Lemma not_self_closing_outcome open_tags self_closing :
  match E.not_self_closing open_tags self_closing with
  | Py.Returns _ =>
      (forall g, In g open_tags -> whitespace_only g = false)
      /\ (open_tags = [] \/ forall g, In g self_closing -> whitespace_only g = false)
  | Py.Raises e =>
      e = Py.index_error
      /\ ((exists g, In g open_tags /\ whitespace_only g = true)
          \/ (open_tags <> [] /\ exists g, In g self_closing /\ whitespace_only g = true))
  end.
Proof.
  induction open_tags as [|tag rest IH]; cbn [E.not_self_closing].
  - split; [intros g [] | now left].
  - destruct (Py.first_word tag) as [w|] eqn:Hw.
    + assert (Ht : whitespace_only tag = false).
      { destruct (whitespace_only tag) eqn:H; [|reflexivity].
        apply first_word_none in H. congruence. }
      pose proof (first_words_outcome self_closing) as Hsc.
      destruct (E.first_words self_closing) as [closing|e].
      * destruct (E.not_self_closing rest self_closing) as [kept|e].
        -- destruct IH as [IH _]. split; [|now right].
           intros g [<- | Hg]; auto.
        -- destruct IH as (-> & [(g & Hg & Hgw) | (_ & g & Hg & Hgw)]).
           ++ split; [reflexivity|]. left. exists g. split; [now right | exact Hgw].
           ++ split; [reflexivity|]. right. split; [discriminate|]. eauto.
      * destruct Hsc as (-> & g & Hg & Hgw). split; [reflexivity|].
        right. split; [discriminate|]. eauto.
    + split; [reflexivity|]. left. exists tag.
      split; [now left | now apply first_word_none].
Qed.

(** X21. A text that parses and is not blank passes the syntax stage
    of [EnhancedXMLValidator] exactly when no text between [<] and [>]
    that the opening-tag pattern captures is made of whitespace only
    and, if the pattern captures anything, none that the self-closing
    pattern captures is; otherwise the stage fails with the one error
    of an unexpected [IndexError], although the document is well
    formed. *)
Theorem X21_syntax_stage_of_parsed_text content root :
  fromstring content = Parsed root ->
  Py.truthy (Py.strip content) = true ->
  let out := E.validate_xml_syntax fromstring content in
  let opening := Re.findall E.open_tag_pattern content in
  let closing := Re.findall E.self_closing_pattern content in
  (E.valid out = true <->
   (forall g, In g opening -> whitespace_only g = false)
   /\ (opening = [] \/ forall g, In g closing -> whitespace_only g = false))
  /\ (E.valid out = false ->
      E.errors out = ["Неочікувана помилка при парсингу XML: list index out of range"]).
Proof.
  intros Hp Hc out opening closing. subst out opening closing.
  pose proof (not_self_closing_outcome (Re.findall E.open_tag_pattern content)
                (Re.findall E.self_closing_pattern content)) as Hout.
  unfold E.validate_xml_syntax. cbv zeta. rewrite Hp, Hc. cbn [negb]. cbv iota.
  unfold E._check_encoding.
  set (r := E._check_xml_declaration content _).
  assert (Hr : reports E.new_result r []).
  { subst r. eapply (reports_trans _ _ _ [] []);
      [apply reports_add_info | apply reports_check_xml_declaration]. }
  destruct (E._check_well_formed content r) as [r'|e] eqn:Hwf.
  - destruct (reports_check_well_formed _ _ _ Hwf) as [_ Hv].
    destruct Hr as [_ Hr]. rewrite Hr in Hv. cbn in Hv. rewrite Hv.
    unfold E._check_well_formed in Hwf.
    destruct (E.not_self_closing _ _) as [kept|]; [|discriminate].
    split; [tauto | discriminate].
  - unfold E._check_well_formed in Hwf.
    destruct (E.not_self_closing _ _) as [kept|e'] eqn:Hn;
      [destruct (_ =? _)%nat in Hwf; discriminate|].
    injection Hwf as <-. destruct Hout as [-> Hwhy]. destruct Hr as [Hr _].
    cbn [E.add_error E.valid E.errors]. rewrite Hr. split; [|reflexivity].
    split; [discriminate|]. intros [Ho Hs]. exfalso.
    destruct Hwhy as [(g & Hg & Hgw) | (Hne & g & Hg & Hgw)].
    + rewrite (Ho g Hg) in Hgw. discriminate.
    + destruct Hs as [Hs | Hs]; [contradiction|].
      rewrite (Hs g Hg) in Hgw. discriminate.
Qed.

End SyntaxStage.

(* ================================================================== *)
(** ** [EnhancedXMLValidator]: warnings and notes *)
(* ================================================================== *)

Section EnhancedMessages.

Import Log Terms.

Variable fromstring : string -> ParseResult.

Lemma extends_refl r : extends r r.
Proof.
  repeat split; try (exists []; now rewrite app_nil_r). auto.
Qed.

Lemma extends_trans r1 r2 r3 : extends r1 r2 -> extends r2 r3 -> extends r1 r3.
Proof.
  intros ([es He] & [ws Hw] & [ns Hn] & Hv) ([es' He'] & [ws' Hw'] & [ns' Hn'] & Hv').
  repeat split.
  - exists (es ++ es')%list. now rewrite He', He, app_assoc.
  - exists (ws ++ ws')%list. now rewrite Hw', Hw, app_assoc.
  - exists (ns ++ ns')%list. now rewrite Hn', Hn, app_assoc.
  - auto.
Qed.

Lemma extends_add_error msg r : extends r (E.add_error msg r).
Proof.
  repeat split; cbn; eauto; try (exists []; now rewrite app_nil_r). discriminate.
Qed.

Lemma extends_add_warning msg r : extends r (E.add_warning msg r).
Proof. repeat split; cbn; eauto; exists []; now rewrite app_nil_r. Qed.

Lemma extends_add_info msg r : extends r (E.add_info msg r).
Proof. repeat split; cbn; eauto; exists []; now rewrite app_nil_r. Qed.

(** Chains of appended messages. *)
Ltac extend :=
  repeat first
    [ apply extends_refl
    | apply extends_add_error
    | apply extends_add_warning
    | apply extends_add_info
    | eapply extends_trans;
      [|first [apply extends_add_error | apply extends_add_warning
              | apply extends_add_info]] ].

Lemma extends_fold {A} (f : E.Result -> A -> E.Result) l :
  (forall r x, extends r (f r x)) -> forall r, extends r (fold_left f l r).
Proof.
  intros Hf. induction l as [|x l IH]; intros r; cbn [fold_left].
  - apply extends_refl.
  - eapply extends_trans; [apply Hf | apply IH].
Qed.

Lemma extends_fold_pair {A B} (f : B * E.Result -> A -> B * E.Result) l :
  (forall b r x, extends r (snd (f (b, r) x))) ->
  forall b r, extends r (snd (fold_left f l (b, r))).
Proof.
  intros Hf. induction l as [|x l IH]; intros b r; cbn [fold_left].
  - apply extends_refl.
  - specialize (Hf b r x). destruct (f (b, r) x) as [b' r'].
    eapply extends_trans; [exact Hf | apply IH].
Qed.

Lemma extends_warning r r' w : extends r r' -> In w (E.warnings r) -> In w (E.warnings r').
Proof. intros (_ & [ws ->] & _) H. apply in_or_app. now left. Qed.

Lemma extends_info r r' n : extends r r' -> In n (E.info r) -> In n (E.info r').
Proof. intros (_ & _ & [ns ->] & _) H. apply in_or_app. now left. Qed.

Lemma extends_validate_single_def def_elem expected_type r :
  extends r (E._validate_single_def def_elem expected_type r).
Proof.
  unfold E._validate_single_def. cbv zeta.
  assert (H1 : forall r0, extends r r0 ->
             extends r
               (match E.rimworld_tags !! tag def_elem with
                | Some expected_children =>
                    fold_left (fun result child =>
                        if negb (Py.in_list (tag child) expected_children)
                           && negb (Py.in_list (tag child) ["defName"; "label"; "description"])
                        then E.add_info ("Незвичний елемент в " ++ tag def_elem ++ ": <"
                                         ++ tag child ++ ">") result
                        else result)
                      (children def_elem) r0
                | None => r0
                end)).
  { intros r0 H0. destruct (E.rimworld_tags !! tag def_elem); [|exact H0].
    eapply extends_trans; [exact H0|]. apply extends_fold.
    intros r1 x. case_if; extend. }
  apply H1.
  destruct expected_type as [t|]; repeat case_if;
    destruct (find def_elem "defName") as [d|]; repeat case_if; extend.
Qed.

Lemma extends_defs_step n r child : extends r (snd (E.defs_step (n, r) child)).
Proof.
  unfold E.defs_step. case_if; cbn [snd];
    [apply extends_validate_single_def | extend].
Qed.

Lemma extends_patch_step n r child : extends r (snd (E.patch_step (n, r) child)).
Proof. unfold E.patch_step. case_if; cbn [snd]; extend. Qed.

Lemma extends_duplicate_step seen r elem :
  extends r (snd (E.duplicate_step (seen, r) elem)).
Proof.
  unfold E.duplicate_step. case_if; [|apply extends_refl].
  destruct (find elem "defName") as [d|]; [|apply extends_refl].
  destruct (text d) as [name|]; [|apply extends_refl].
  repeat case_if; cbn [snd]; extend.
Qed.

Lemma extends_empty_step r elem : extends r (E.empty_step r elem).
Proof. unfold E.empty_step. case_if; extend. Qed.

Lemma extends_validate_defs_structure root r :
  extends r (E._validate_defs_structure root r).
Proof.
  unfold E._validate_defs_structure.
  pose proof (extends_fold_pair E.defs_step (children root) extends_defs_step 0 r) as H.
  destruct (fold_left E.defs_step (children root) (0, r)) as [n r']. cbn [snd] in H.
  eapply extends_trans; [exact H|]. case_if; extend.
Qed.

Lemma extends_validate_patch_structure root r :
  extends r (E._validate_patch_structure root r).
Proof.
  unfold E._validate_patch_structure.
  pose proof (extends_fold_pair E.patch_step (children root) extends_patch_step 0 r) as H.
  destruct (fold_left E.patch_step (children root) (0, r)) as [n r']. cbn [snd] in H.
  eapply extends_trans; [exact H|]. case_if; extend.
Qed.

Lemma extends_duplicates l seen r :
  extends r (snd (fold_left E.duplicate_step l (seen, r))).
Proof. apply (extends_fold_pair E.duplicate_step l extends_duplicate_step). Qed.

Lemma extends_check_common_issues root r : extends r (E._check_common_issues root r).
Proof.
  unfold E._check_common_issues. cbv zeta.
  eapply extends_trans; [apply (extends_fold E.empty_step); apply extends_empty_step|].
  apply extends_duplicates.
Qed.

(** The result of [validate_rimworld_structure] on a text that passed
    the syntax stage, as the two steps after it. *)
Lemma structure_steps content root :
  E.valid (E.validate_xml_syntax fromstring content) = true ->
  fromstring content = Parsed root ->
  exists warned,
    extends (E.validate_xml_syntax fromstring content) warned
    /\ E.validate_rimworld_structure fromstring content
       = E._check_common_issues root
           (if String.eqb (tag root) "Defs" then E._validate_defs_structure root warned
            else if String.eqb (tag root) "Patch"
                 then E._validate_patch_structure root warned
                 else warned).
Proof.
  intros Hv Hp. unfold E.validate_rimworld_structure. cbv zeta.
  rewrite Hv, Hp. cbn [negb]. cbv iota.
  eexists. split; [|reflexivity]. case_if; extend.
Qed.

Lemma structure_extends content :
  extends (E.validate_xml_syntax fromstring content)
          (E.validate_rimworld_structure fromstring content).
Proof.
  destruct (E.valid (E.validate_xml_syntax fromstring content)) eqn:Hv.
  - destruct (syntax_parses fromstring content Hv) as [root Hp].
    destruct (structure_steps content root Hv Hp) as (warned & Hw & ->).
    eapply extends_trans; [|apply extends_check_common_issues].
    destruct (String.eqb (tag root) "Defs").
    + eapply extends_trans; [exact Hw | apply extends_validate_defs_structure].
    + destruct (String.eqb (tag root) "Patch"); [|exact Hw].
      eapply extends_trans; [exact Hw | apply extends_validate_patch_structure].
  - unfold E.validate_rimworld_structure. cbv zeta.
    rewrite Hv. cbn [negb]. cbv iota. apply extends_refl.
Qed.

(** X22. The structural passes only add to what the syntax stage
    found: the errors, warnings and notes of [validate_xml_syntax] are
    kept, in place, at the head of those of
    [validate_rimworld_structure] and of [validate_def_structure], and
    neither returns a valid result when the syntax stage did not. *)
Theorem X22_structure_extends_syntax content def_type :
  extends (E.validate_xml_syntax fromstring content)
          (E.validate_rimworld_structure fromstring content)
  /\ extends (E.validate_xml_syntax fromstring content)
             (E.validate_def_structure fromstring content def_type).
Proof.
  split; [apply structure_extends|].
  unfold E.validate_def_structure. cbv zeta.
  destruct (E.valid (E.validate_xml_syntax fromstring content)) eqn:Hv;
    cbn [negb]; cbv iota; [|apply extends_refl].
  destruct (fromstring content) as [msg|root]; [extend|].
  apply (extends_fold
           (fun result def_elem => E._validate_single_def def_elem def_type result)).
  intros r x. apply extends_validate_single_def.
Qed.



Lemma defs_loop cs :
  forall n r,
    fst (fold_left E.defs_step cs (n, r)) = n + List.length (List.filter is_def cs)
    /\ forall child, In child cs -> is_def child = false ->
         In (unusual_in_defs (tag child)) (E.warnings (snd (fold_left E.defs_step cs (n, r)))).
Proof.
  induction cs as [|c cs IH]; intros n r; cbn [fold_left List.filter].
  - split; [cbn; lia | intros child []].
  - unfold E.defs_step at 2 4. fold (is_def c).
    destruct (is_def c) eqn:Hc.
    + destruct (IH (n + 1) (E._validate_single_def c None r)) as [Hn Hw].
      split; [rewrite Hn; cbn [List.length]; lia|].
      intros child [<- | Hin] Hop; [congruence | auto].
    + destruct (IH n (E.add_warning (unusual_in_defs (tag c)) r)) as [Hn Hw].
      split; [exact Hn|].
      intros child [<- | Hin] Hop; [|auto].
      eapply extends_warning;
        [apply (extends_fold_pair E.defs_step cs extends_defs_step)|].
      cbn. apply in_or_app. right. now left.
Qed.

(** X24. For a [Defs] document that passed the syntax stage, every
    child of the root whose tag does not end in [Def] is reported as
    unusual; when no child has such a tag there is the warning that
    the file has no definition, and otherwise a note with the number
    of children whose tag ends in [Def]. *)
Theorem X24_defs_counted content root :
  E.valid (E.validate_xml_syntax fromstring content) = true ->
  fromstring content = Parsed root ->
  tag root = "Defs" ->
  let out := E.validate_rimworld_structure fromstring content in
  let found := List.filter is_def (children root) in
  (forall child, In child (children root) -> is_def child = false ->
     In (unusual_in_defs (tag child)) (E.warnings out))
  /\ (found = [] -> In "Defs не містить жодного Def елемента" (E.warnings out))
  /\ (found <> [] ->
      In ("Знайдено " ++ Py.str_nat (List.length found) ++ " Def елементів") (E.info out)).
Proof.
  intros Hv Hp Htag out found. subst out found.
  destruct (structure_steps content root Hv Hp) as (warned & _ & ->).
  rewrite Htag. cbn [String.eqb Ascii.eqb Bool.eqb].
  set (r := E._validate_defs_structure root warned).
  pose proof (extends_check_common_issues root r) as Hext.
  destruct (defs_loop (children root) 0 warned) as [Hn Hw].
  assert (Hr : r = E._validate_defs_structure root warned) by reflexivity.
  unfold E._validate_defs_structure in Hr.
  destruct (fold_left E.defs_step (children root) (0, warned)) as [n r'].
  cbn [fst snd] in Hn, Hw. cbn [Nat.add] in Hn. subst n.
  split; [|split].
  - intros child Hin Hop. apply (extends_warning _ _ _ Hext). rewrite Hr.
    case_if; cbn [E.add_warning E.add_info E.warnings]; [apply in_or_app; left|]; auto.
  - intros Hnone. apply (extends_warning _ _ _ Hext). rewrite Hr, Hnone. cbn.
    apply in_or_app. right. now left.
  - intros Hsome. apply (extends_info _ _ _ Hext). rewrite Hr.
    destruct (List.filter is_def (children root)) as [|c cs]; [congruence|].
    cbn [List.length Nat.eqb E.add_info E.info]. apply in_or_app. right. now left.
Qed.

Lemma empty_loop l :
  forall r elem, In elem l -> is_empty elem = true ->
    In (empty_element (tag elem)) (E.warnings (fold_left E.empty_step l r)).
Proof.
  induction l as [|x l IH]; intros r elem Hin He; [destruct Hin|].
  cbn [fold_left]. destruct Hin as [<- | Hin].
  - eapply extends_warning; [apply (extends_fold E.empty_step); apply extends_empty_step|].
    unfold E.empty_step. unfold is_empty in He. rewrite He. cbn.
    apply in_or_app. right. now left.
  - now apply IH.
Qed.

(** X25. For a document that passed the syntax stage, every element
    of the tree that has no text and no child, and is not an [li], is
    reported by the warning that it is empty. *)
Theorem X25_empty_elements_reported content root elem :
  E.valid (E.validate_xml_syntax fromstring content) = true ->
  fromstring content = Parsed root ->
  In elem (iter root) ->
  is_empty elem = true ->
  In (empty_element (tag elem))
     (E.warnings (E.validate_rimworld_structure fromstring content)).
Proof.
  intros Hv Hp Hin He.
  destruct (structure_steps content root Hv Hp) as (warned & _ & ->).
  unfold E._check_common_issues. cbv zeta.
  eapply extends_warning; [apply extends_duplicates|].
  now apply empty_loop.
Qed.

(** X26. A text that passed the syntax stage without beginning, once
    stripped, with an XML declaration carries the warning that the
    declaration is missing, also after the structural pass; the
    syntax stage leaves at most two warnings and, on such a text, no
    error. *)
Theorem X26_missing_declaration_warns content :
  E.valid (E.validate_xml_syntax fromstring content) = true ->
  let syntax := E.validate_xml_syntax fromstring content in
  let out := E.validate_rimworld_structure fromstring content in
  (Py.startswith (Py.strip content) "<?xml" = false ->
   In missing_declaration (E.warnings syntax)
   /\ In missing_declaration (E.warnings out))
  /\ List.length (E.warnings syntax) <= 2
  /\ E.errors syntax = [].
Proof.
  intros Hv syntax out.
  assert (Hw : (Py.startswith (Py.strip content) "<?xml" = false ->
                In missing_declaration (E.warnings syntax))
               /\ List.length (E.warnings syntax) <= 2).
  { subst syntax. revert Hv. unfold E.validate_xml_syntax. cbv zeta.
    destruct (negb (Py.truthy (Py.strip content))); [discriminate|].
    destruct (fromstring content) as [msg|root].
    - intros H.
      destruct (reports_analyze_parse_error content msg
                  (E.add_error ("XML синтаксична помилка: " ++ msg) E.new_result))
        as [_ Hv'].
      rewrite Hv' in H. discriminate.
    - unfold E._check_encoding, E._check_well_formed.
      destruct (E.not_self_closing _ _) as [kept|e]; [|discriminate].
      intros _. unfold E._check_xml_declaration. split.
      + intros Hd. rewrite Hd. cbn [negb]. case_if; cbn; auto.
      + repeat case_if; cbn; lia. }
  destruct Hw as [Hmiss Hlen].
  split; [|split; [exact Hlen|]].
  - intros Hd. split; [auto|].
    apply (extends_warning syntax out); [apply structure_extends | auto].
  - exact (validate_xml_syntax_valid fromstring content Hv).
Qed.

End EnhancedMessages.

(* ================================================================== *)
(** ** The further statements at sample documents *)
(* ================================================================== *)

Lemma X1_defs_valid_iff_named_witness :
  let parse := Docs.parser [(Docs.nameless_text, Docs.nameless)] in
  parse Docs.nameless_text = Parsed Docs.nameless
  /\ fst (S.validate_content parse Docs.nameless_text S.init) = false
  /\ List.length (S.errors (snd (S.validate_content parse Docs.nameless_text S.init))) = 2.
Proof.
  intros parse.
  pose proof (X1_defs_valid_iff_named parse Docs.nameless_text Docs.nameless S.init
                eq_refl eq_refl) as H.
  cbv zeta in H. destruct H as (Hv & _ & Hn).
  split; [reflexivity|]. split.
  - rewrite Hv. vm_compute. reflexivity.
  - rewrite Hn. vm_compute. reflexivity.
Defined.

Lemma X2_every_error_has_a_cause_witness :
  let parse := Docs.parser [(Docs.anonymous_text, Docs.anonymous)] in
  let e := "Відсутній обов'язковий тег: <author>" in
  In e (S.errors (snd (S.validate_content parse Docs.anonymous_text S.init)))
  /\ ((exists msg, parse Docs.anonymous_text = ParseError msg /\ e = Terms.syntax_error msg)
      \/ (exists root, parse Docs.anonymous_text = Parsed root /\ tag root = "ModMetaData"
            /\ ((exists t, In t S.required_tags /\ find root t = None
                           /\ e = Log.missing_tag t)
                \/ (exists d, find root "packageId" = Some d
                              /\ S.validate_package_id (text d) = false
                              /\ e = Log.bad_package_id (text d))))
      \/ (exists root child, parse Docs.anonymous_text = Parsed root /\ tag root = "Defs"
            /\ In child (children root)
            /\ ((find child "defName" = None /\ e = Log.no_def_name (tag child))
                \/ (exists d, find child "defName" = Some d
                              /\ Py.truthy_opt (text d) = false
                              /\ e = Log.empty_def_name (tag child))))).
Proof.
  intros parse e.
  assert (Hin : In e (S.errors (snd (S.validate_content parse Docs.anonymous_text S.init)))).
  { vm_compute. left. reflexivity. }
  split; [exact Hin|].
  exact (X2_every_error_has_a_cause parse Docs.anonymous_text S.init e Hin).
Defined.


Lemma X5_versions_warning_iff_witness :
  let parse := Docs.parser [(Docs.unversioned_text, Docs.unversioned)] in
  parse Docs.unversioned_text = Parsed Docs.unversioned
  /\ In "supportedVersions не містить жодної версії"
        (S.warnings (snd (S.validate_content parse Docs.unversioned_text S.init))).
Proof.
  intros parse. split; [reflexivity|].
  apply (proj2 (X5_versions_warning_iff parse Docs.unversioned_text Docs.unversioned
                  S.init eq_refl eq_refl)).
  exists (node "supportedVersions" []). split; reflexivity.
Defined.

Lemma X6_report_banner_witness :
  let parse := Docs.parser [(Docs.single_text, Docs.single)] in
  fst (S.validate_content parse Docs.single_text S.init) = true
  /\ S.warnings (snd (S.validate_content parse Docs.single_text S.init)) = []
  /\ fst (S.shown_report parse Docs.single_text S.init)
     = Terms.valid_banner ++ Py.nl ++ Terms.clean_line.
Proof.
  intros parse.
  assert (Ht : fst (S.validate_content parse Docs.single_text S.init) = true)
    by (vm_compute; reflexivity).
  assert (Hw : S.warnings (snd (S.validate_content parse Docs.single_text S.init)) = [])
    by (vm_compute; reflexivity).
  pose proof (X6_report_banner parse Docs.single_text S.init) as H.
  cbv zeta in H. destruct H as (_ & _ & H).
  split; [exact Ht|]. split; [exact Hw|]. exact (H Ht Hw).
Defined.

Lemma X7_report_numbering_witness :
  let report :=
    {| S.valid := false; S.report_errors := ["a"; "b"]; S.report_warnings := ["w"];
       S.error_count := 2; S.warning_count := 1 |} in
  nth_error (S.report_errors report) 1 = Some "b"
  /\ nth_error (S.report_warnings report) 0 = Some "w"
  /\ nth_error (Py.split_lines (S.format_report report)) 4 = Some "  2. b"
  /\ nth_error (Py.split_lines (S.format_report report)) 7 = Some "  1. w".
Proof.
  intros report.
  assert (He : forall x, In x (S.report_errors report) -> Terms.line_feeds x = 0).
  { intros x [<- | [<- | []]]; reflexivity. }
  assert (Hw : forall x, In x (S.report_warnings report) -> Terms.line_feeds x = 0).
  { intros x [<- | []]; reflexivity. }
  pose proof (X7_report_numbering report He Hw) as H.
  cbv zeta in H. destruct H as (_ & H1 & H2 & _).
  split; [reflexivity|]. split; [reflexivity|]. split.
  - exact (proj2 (proj2 (H1 1 "b" eq_refl))).
  - exact (proj2 (proj2 (H2 0 "w" eq_refl))).
Defined.


Lemma X9_quick_validate_is_syntax_stage_witness :
  let parse := Docs.parser [] in
  fst (S.quick_validate parse Docs.unclosed_text) = false
  /\ exists msg,
       snd (S.quick_validate parse Docs.unclosed_text) = "XML помилка: " ++ msg
       /\ S.validate_content parse Docs.unclosed_text S.init
          = (false, {| S.errors := [Terms.syntax_error msg]; S.warnings := [] |}).
Proof.
  intros parse.
  pose proof (X9_quick_validate_is_syntax_stage parse Docs.unclosed_text S.init) as H.
  cbv zeta in H. destruct H as (_ & _ & _ & H).
  split; [reflexivity|]. exact (H eq_refl).
Defined.

Lemma X11_blank_text_rejected_witness :
  Log.whitespace_only Docs.blank_text = true
  /\ E.validate_rimworld_structure (Docs.parser []) Docs.blank_text
     = {| E.valid := false; E.errors := ["XML файл порожній"];
          E.warnings := []; E.info := [] |}.
Proof.
  pose proof (X11_blank_text_rejected (Docs.parser []) Docs.blank_text None eq_refl) as H.
  cbv zeta in H. destruct H as (_ & H & _).
  split; [reflexivity | exact H].
Defined.

Lemma X12_enhanced_parse_error_witness :
  let parse := Docs.parser [] in
  Py.truthy (Py.strip Docs.unclosed_text) = true
  /\ parse Docs.unclosed_text = ParseError "no element found: line 1, column 0"
  /\ E.errors (E.validate_rimworld_structure parse Docs.unclosed_text)
     = ["XML синтаксична помилка: no element found: line 1, column 0"]
  /\ E.warnings (E.validate_rimworld_structure parse Docs.unclosed_text) = [].
Proof.
  intros parse.
  pose proof (X12_enhanced_parse_error parse Docs.unclosed_text _ eq_refl eq_refl) as H.
  cbv zeta in H. destruct H as (_ & _ & He & Hw & _).
  split; [reflexivity|]. split; [reflexivity|]. split; [exact He | exact Hw].
Defined.

Lemma X13_enhanced_defs_valid_iff_witness :
  let parse := Docs.parser [(Docs.single_text, Docs.single)] in
  E.valid (E.validate_xml_syntax parse Docs.single_text) = true
  /\ parse Docs.single_text = Parsed Docs.single
  /\ E.valid (E.validate_rimworld_structure parse Docs.single_text) = true.
Proof.
  intros parse.
  assert (Hv : E.valid (E.validate_xml_syntax parse Docs.single_text) = true)
    by (vm_compute; reflexivity).
  split; [exact Hv|]. split; [reflexivity|].
  apply (proj2 (X13_enhanced_defs_valid_iff parse Docs.single_text Docs.single
                  Hv eq_refl eq_refl)).
  split.
  - intros child [<- | []] _. reflexivity.
  - vm_compute. repeat constructor. intros [].
Defined.

Lemma X14_enhanced_other_roots_witness :
  let parse := Docs.parser [(Docs.bare_metadata_text, Docs.bare_metadata)] in
  E.valid (E.validate_xml_syntax parse Docs.bare_metadata_text) = true
  /\ parse Docs.bare_metadata_text = Parsed Docs.bare_metadata
  /\ E.valid (E.validate_rimworld_structure parse Docs.bare_metadata_text) = true
  /\ fst (S.validate_content parse Docs.bare_metadata_text S.init) = false.
Proof.
  intros parse.
  assert (Hv : E.valid (E.validate_xml_syntax parse Docs.bare_metadata_text) = true)
    by (vm_compute; reflexivity).
  assert (Htag : tag Docs.bare_metadata <> "Defs") by discriminate.
  pose proof (X14_enhanced_other_roots parse Docs.bare_metadata_text Docs.bare_metadata
                Hv eq_refl Htag) as H.
  cbv zeta in H. destruct H as (_ & _ & H).
  destruct (H eq_refl eq_refl) as [He Hs].
  split; [exact Hv|]. split; [reflexivity|]. split; [exact He|].
  exact (proj1 (Hs S.init)).
Defined.

Lemma X15_enhanced_stricter_on_defs_witness :
  let parse := Docs.parser [(Docs.single_text, Docs.single)] in
  parse Docs.single_text = Parsed Docs.single
  /\ E.valid (E.validate_rimworld_structure parse Docs.single_text) = true
  /\ fst (S.validate_content parse Docs.single_text S.init) = true.
Proof.
  intros parse.
  assert (Hv : E.valid (E.validate_rimworld_structure parse Docs.single_text) = true)
    by (vm_compute; reflexivity).
  split; [reflexivity|]. split; [exact Hv|].
  apply (X15_enhanced_stricter_on_defs parse Docs.single_text Docs.single S.init
           eq_refl eq_refl); [|exact Hv].
  intros child [<- | []]. reflexivity.
Defined.

Lemma X16_def_structure_witness :
  let parse := Docs.parser [(Docs.twins_text, Docs.twins)] in
  E.valid (E.validate_xml_syntax parse Docs.twins_text) = true
  /\ parse Docs.twins_text = Parsed Docs.twins
  /\ E.valid (E.validate_def_structure parse Docs.twins_text (Some "RecipeDef")) = true
  /\ E.valid (E.validate_rimworld_structure parse Docs.twins_text) = false.
Proof.
  intros parse.
  assert (Hv : E.valid (E.validate_xml_syntax parse Docs.twins_text) = true)
    by (vm_compute; reflexivity).
  pose proof (X16_def_structure parse Docs.twins_text Docs.twins (Some "RecipeDef")
                Hv eq_refl) as H.
  cbv zeta in H. destruct H as (_ & H & _).
  split; [exact Hv|]. split; [reflexivity|]. split.
  - apply (proj2 H). intros d [<- | [<- | []]]; reflexivity.
  - vm_compute. reflexivity.
Defined.

Lemma X17_statistics_counts_witness :
  let parse := Docs.parser [(Docs.twins_text, Docs.twins)] in
  parse Docs.twins_text = Parsed Docs.twins
  /\ E.total_elements (E.get_xml_statistics parse Docs.twins_text) = 7
  /\ E.def_types (E.get_xml_statistics parse Docs.twins_text) !! "ThingDef" = Some 2.
Proof.
  intros parse.
  pose proof (X17_statistics_counts parse Docs.twins_text Docs.twins eq_refl) as H.
  cbv zeta in H. destruct H as (Hn & _ & _ & _ & Ht & _).
  split; [reflexivity|]. split; [rewrite Hn; reflexivity|].
  apply (proj2 (Ht "ThingDef" 2)). split; [reflexivity|]. split; [reflexivity | lia].
Defined.

Lemma X20_formatting_keeps_content_witness :
  let parse := Docs.parser [(Docs.undeclared_text, Docs.undeclared)] in
  let shallow := fun _ : Element => false in
  let tostring := fun e => Py.Returns (Docs.write e) in
  Log.whitespace_only "  " = true
  /\ Terms.skeleton (E._indent_xml Docs.twins 0 "  ") = Terms.skeleton Docs.twins
  /\ E.format_xml parse shallow tostring Docs.unclosed_text "  " = Docs.unclosed_text
  /\ (parse Docs.undeclared_text = Parsed Docs.undeclared
      /\ exists formatted,
           Terms.skeleton formatted = Terms.skeleton Docs.undeclared
           /\ E.format_xml parse shallow tostring Docs.undeclared_text "  "
              = Terms.declaration_line ++ Docs.write formatted).
Proof.
  intros parse shallow tostring.
  destruct (X20_formatting_keeps_content parse shallow tostring "  " eq_refl)
    as (Hs & Hp & _ & _ & Hf).
  split; [reflexivity|]. split; [exact (Hs Docs.twins 0)|].
  split; [exact (Hp Docs.unclosed_text _ eq_refl)|].
  split; [reflexivity|].
  destruct (Hf Docs.undeclared_text Docs.undeclared
              (Docs.write (E._indent_xml Docs.undeclared 0 "  "))
              eq_refl eq_refl eq_refl)
    as (formatted & Hk & Ht & Hx).
  exists formatted. split; [exact Hk|].
  injection Ht as Ht. rewrite Ht. exact Hx.
Defined.

Lemma X21_syntax_stage_of_parsed_text_witness :
  let parse := Docs.parser [(Docs.commented_text, Docs.commented)] in
  parse Docs.commented_text = Parsed Docs.commented
  /\ Py.truthy (Py.strip Docs.commented_text) = true
  /\ In " " (Re.findall E.open_tag_pattern Docs.commented_text)
  /\ E.valid (E.validate_xml_syntax parse Docs.commented_text) = false
  /\ E.errors (E.validate_xml_syntax parse Docs.commented_text)
     = ["Неочікувана помилка при парсингу XML: list index out of range"].
Proof.
  intros parse.
  assert (Hc : Py.truthy (Py.strip Docs.commented_text) = true)
    by (vm_compute; reflexivity).
  assert (Hg : In " " (Re.findall E.open_tag_pattern Docs.commented_text))
    by (vm_compute; auto).
  assert (Hv : E.valid (E.validate_xml_syntax parse Docs.commented_text) = false)
    by (vm_compute; reflexivity).
  pose proof (X21_syntax_stage_of_parsed_text parse Docs.commented_text Docs.commented
                eq_refl Hc) as H.
  cbv zeta in H. destruct H as [_ H].
  split; [reflexivity|]. split; [exact Hc|]. split; [exact Hg|]. split; [exact Hv|].
  exact (H Hv).
Defined.


Lemma X24_defs_counted_witness :
  let parse := Docs.parser [(Docs.stray_text, Docs.stray)] in
  E.valid (E.validate_xml_syntax parse Docs.stray_text) = true
  /\ parse Docs.stray_text = Parsed Docs.stray
  /\ In "Незвичний елемент в Defs: <Building>"
        (E.warnings (E.validate_rimworld_structure parse Docs.stray_text))
  /\ In "Defs не містить жодного Def елемента"
        (E.warnings (E.validate_rimworld_structure parse Docs.stray_text)).
Proof.
  intros parse.
  assert (Hv : E.valid (E.validate_xml_syntax parse Docs.stray_text) = true)
    by (vm_compute; reflexivity).
  pose proof (X24_defs_counted parse Docs.stray_text Docs.stray Hv eq_refl eq_refl) as H.
  cbv zeta in H. destruct H as (Hu & Hn & _).
  split; [exact Hv|]. split; [reflexivity|]. split.
  - exact (Hu (leaf "Building" "x") (or_introl eq_refl) eq_refl).
  - exact (Hn eq_refl).
Defined.

Lemma X25_empty_elements_reported_witness :
  let parse := Docs.parser [(Docs.nameless_text, Docs.nameless)] in
  E.valid (E.validate_xml_syntax parse Docs.nameless_text) = true
  /\ parse Docs.nameless_text = Parsed Docs.nameless
  /\ In (node "defName" []) (iter Docs.nameless)
  /\ In "Порожній елемент: <defName>"
        (E.warnings (E.validate_rimworld_structure parse Docs.nameless_text)).
Proof.
  intros parse.
  assert (Hv : E.valid (E.validate_xml_syntax parse Docs.nameless_text) = true)
    by (vm_compute; reflexivity).
  assert (Hin : In (node "defName" []) (iter Docs.nameless))
    by (vm_compute; tauto).
  split; [exact Hv|]. split; [reflexivity|]. split; [exact Hin|].
  exact (X25_empty_elements_reported parse Docs.nameless_text Docs.nameless
           (node "defName" []) Hv eq_refl Hin eq_refl).
Defined.

Lemma X26_missing_declaration_warns_witness :
  let parse := Docs.parser [(Docs.undeclared_text, Docs.undeclared)] in
  E.valid (E.validate_xml_syntax parse Docs.undeclared_text) = true
  /\ Py.startswith (Py.strip Docs.undeclared_text) "<?xml" = false
  /\ In Terms.missing_declaration
        (E.warnings (E.validate_rimworld_structure parse Docs.undeclared_text))
  /\ E.valid (E.validate_rimworld_structure parse Docs.undeclared_text) = true.
Proof.
  intros parse.
  assert (Hv : E.valid (E.validate_xml_syntax parse Docs.undeclared_text) = true)
    by (vm_compute; reflexivity).
  assert (Hd : Py.startswith (Py.strip Docs.undeclared_text) "<?xml" = false)
    by (vm_compute; reflexivity).
  pose proof (X26_missing_declaration_warns parse Docs.undeclared_text Hv) as H.
  cbv zeta in H. destruct H as (H & _).
  split; [exact Hv|]. split; [exact Hd|]. split; [exact (proj2 (H Hd))|].
  vm_compute. reflexivity.
Defined.
